(** * DOE-PE gazette monitor: the keyword classification pass

    A shallow embedding of [DOEProcessor] as found in [bot.py] (single
    "latest" edition) and [bot1.py] (list of dates), and the properties
    of its classification pass [analyze_pdf] and of [generate_reports].

    Python values are modelled as follows.
    - [str]: a list of Unicode code points ([N]).
    - [int]: [Z].
    - a dict literal with string keys: an association list in insertion
      order, which is also the order [json.dump] and [pandas] see.
    - dict objects that are shared between two lists live in a heap and
      are referred to by address.
    - [datetime.now()], [print] and file writes act on an explicit
      [world], threaded through a state monad. *)

From Stdlib Require Import String Ascii.
From Stdlib Require Import NArith ZArith Lia Bool Arith List.
Import ListNotations.

Set Implicit Arguments.

(* ================================================================== *)
(** * Python strings *)
(* ================================================================== *)

Module PyStr.

Definition str := list N.

(** ** Literals

    String literals of this file are UTF-8; [py] decodes them to code
    points, so that [py "nº"] has length 2, as in Python. *)

Fixpoint bytes_of (s : string) : list N :=
  match s with
  | EmptyString => []
  | String a r => N_of_ascii a :: bytes_of r
  end.

Fixpoint utf8_decode (bs : list N) : str :=
  match bs with
  | [] => []
  | b :: r =>
    if (b <? 128)%N then b :: utf8_decode r
    else if (b <? 224)%N then
      match r with
      | c :: r1 => ((b - 192) * 64 + (c - 128))%N :: utf8_decode r1
      | [] => [b]
      end
    else if (b <? 240)%N then
      match r with
      | c :: d :: r2 =>
        ((b - 224) * 4096 + (c - 128) * 64 + (d - 128))%N :: utf8_decode r2
      | _ => [b]
      end
    else
      match r with
      | c :: d :: e :: r3 =>
        ((b - 240) * 262144 + (c - 128) * 4096 + (d - 128) * 64 + (e - 128))%N
          :: utf8_decode r3
      | _ => [b]
      end
  end.

Definition py (s : string) : str := utf8_decode (bytes_of s).

(** ** Equality, length, concatenation *)

Fixpoint str_eqb (a b : str) : bool :=
  match a, b with
  | [], [] => true
  | x :: a', y :: b' => (x =? y)%N && str_eqb a' b'
  | _, _ => false
  end.

Definition len (s : str) : Z := Z.of_nat (length s).

(** [not s], for a value that is a string or [None]. *)
Definition falsy (s : option str) : bool :=
  match s with
  | None => true
  | Some [] => true
  | Some (_ :: _) => false
  end.

(** ** Slicing: [s[a:b]] with Python's treatment of negative and
    out-of-range bounds *)

Definition slice_index (n i : Z) : Z :=
  if (i <? 0)%Z then Z.max 0 (i + n) else Z.min i n.

Definition slice (s : str) (a b : Z) : str :=
  let a' := slice_index (len s) a in
  let b' := slice_index (len s) b in
  firstn (Z.to_nat (b' - a')) (skipn (Z.to_nat a') s).

(** ** Substring search: [t in s] and [s.find(t)] *)

Fixpoint starts_with (t s : str) : bool :=
  match t, s with
  | [], _ => true
  | _ :: _, [] => false
  | a :: t', b :: s' => (a =? b)%N && starts_with t' s'
  end.

Fixpoint contains (t s : str) : bool :=
  starts_with t s ||
  match s with
  | [] => false
  | _ :: r => contains t r
  end.

Fixpoint find_from (t s : str) (i : Z) : Z :=
  if starts_with t s then i
  else match s with
       | [] => (-1)%Z
       | _ :: r => find_from t r (i + 1)%Z
       end.

Definition find (t s : str) : Z := find_from t s 0%Z.

(** [t] occurs in [s] at index [k], and at no smaller index. *)
Definition occurs_at (t s : str) (k : nat) : bool :=
  starts_with t (skipn k s).

Definition first_occurrence (t s : str) (k : Z) : bool :=
  (0 <=? k)%Z && occurs_at t s (Z.to_nat k) &&
  forallb (fun j => negb (occurs_at t s j)) (seq 0 (Z.to_nat k)).

(** ** [sep.join(l)] and [s.split(c)] for a one-character separator *)

Fixpoint join (sep : str) (l : list str) : str :=
  match l with
  | [] => []
  | [x] => x
  | x :: r => x ++ sep ++ join sep r
  end.

Fixpoint split_sep (c : N) (s : str) : list str :=
  match s with
  | [] => [[]]
  | x :: r =>
    if (x =? c)%N then [] :: split_sep c r
    else match split_sep c r with
         | w :: ws => (x :: w) :: ws
         | [] => [[x]]
         end
  end.

(** ** The Unicode character database

    [str.split()], [str.strip()], [str.isupper()] and [str.lower()]
    consult CPython's character tables.  They are an interface here;
    [Latin1] below is the instance used to run the code. *)

Class UnicodeDB := {
  ISSPACE : N -> bool;
  ISLOWER : N -> bool;
  ISUPPER : N -> bool;
  ISTITLE : N -> bool;
  lower : str -> str;
  ISSPACE_SP : ISSPACE 32 = true
}.

Section WithTables.
Context {U : UnicodeDB}.

(** [s.split()]: maximal runs of non-whitespace characters.  [cur] is
    the current run, most recent character first. *)
Fixpoint split_run (cur : str) (s : str) : list str :=
  match s with
  | [] => match cur with [] => [] | _ :: _ => [rev cur] end
  | c :: r =>
    if ISSPACE c then
      match cur with
      | [] => split_run [] r
      | _ :: _ => rev cur :: split_run [] r
      end
    else split_run (c :: cur) r
  end.

Definition split (s : str) : list str := split_run [] s.

Fixpoint lstrip (s : str) : str :=
  match s with
  | [] => []
  | c :: r => if ISSPACE c then lstrip r else s
  end.

Definition rstrip (s : str) : str := rev (lstrip (rev s)).

Definition strip (s : str) : str := rstrip (lstrip s).

(** A word: a non-empty run without whitespace. *)
Definition word (s : str) : Prop :=
  s <> [] /\ Forall (fun c => ISSPACE c = false) s.

(** [s.isupper()]: no lower-case or title-case character, and at least
    one upper-case one. *)
Fixpoint isupper_from (cased : bool) (s : str) : bool :=
  match s with
  | [] => cased
  | c :: r =>
    if ISLOWER c || ISTITLE c then false
    else isupper_from (cased || ISUPPER c) r
  end.

Definition isupper (s : str) : bool := isupper_from false s.

End WithTables.

(** ** The tables for U+0000..U+00FF

    Whitespace is the full set of [str.isspace].  The case tables cover
    Basic Latin and Latin-1 Supplement, which is where every character
    of the shipped catalogs lives; code points above U+00FF are taken as
    uncased. *)

Definition between (lo hi c : N) : bool := (lo <=? c)%N && (c <=? hi)%N.

Definition latin1_isspace (c : N) : bool :=
  between 9 13 c || between 28 32 c || (c =? 133)%N || (c =? 160)%N ||
  (c =? 5760)%N || between 8192 8202 c || between 8232 8233 c ||
  (c =? 8239)%N || (c =? 8287)%N || (c =? 12288)%N.

Definition latin1_isupper (c : N) : bool :=
  between 65 90 c || between 192 214 c || between 216 222 c.

Definition latin1_islower (c : N) : bool :=
  between 97 122 c || (c =? 170)%N || (c =? 181)%N || (c =? 186)%N ||
  between 223 246 c || between 248 255 c.

Definition latin1_tolower (c : N) : N :=
  if latin1_isupper c then (c + 32)%N else c.

#[export] Instance Latin1 : UnicodeDB := {
  ISSPACE := latin1_isspace;
  ISLOWER := latin1_islower;
  ISUPPER := latin1_isupper;
  ISTITLE := fun _ => false;
  lower := map latin1_tolower;
  ISSPACE_SP := eq_refl
}.

(** ** Numbers in f-strings and [strftime] *)

Fixpoint digits_from (fuel : nat) (n : N) (acc : str) : str :=
  match fuel with
  | O => acc
  | S f =>
    let acc' := (48 + n mod 10)%N :: acc in
    if (n / 10 =? 0)%N then acc' else digits_from f (n / 10)%N acc'
  end.

Definition str_of_N (n : N) : str :=
  digits_from (S (N.to_nat (N.log2 n))) n [].

Definition zfill (w : nat) (s : str) : str :=
  repeat 48%N (w - length s) ++ s.

(** ** [os.path] (POSIX) *)

Fixpoint basename_from (cur : str) (p : str) : str :=
  match p with
  | [] => rev cur
  | c :: r => if (c =? 47)%N then basename_from [] r
              else basename_from (c :: cur) r
  end.

Definition basename (p : str) : str := basename_from [] p.

Definition path_join (a b : str) : str :=
  match b with
  | 47%N :: _ => b
  | _ => match rev a with
         | [] => b
         | 47%N :: _ => a ++ b
         | _ => a ++ [47%N] ++ b
         end
  end.

End PyStr.
Import PyStr.

Local Open Scope string_scope.
Local Open Scope list_scope.

(* ================================================================== *)
(** * The world the program runs in *)
(* ================================================================== *)

Module Runtime.

(** [datetime.now()] *)
Record datetime := mkDatetime {
  year : N; month : N; day : N; hour : N; minute : N
}.

(** The calendar day of an instant. *)
Definition date_of (d : datetime) : N * N * N := (year d, month d, day d).

(** [strftime("%Y-%m-%d")] *)
Definition strftime_Ymd (d : datetime) : str :=
  zfill 4 (str_of_N (year d)) ++ py "-" ++
  zfill 2 (str_of_N (month d)) ++ py "-" ++
  zfill 2 (str_of_N (day d)).

(** [strftime("%Y%m%d_%H%M")] *)
Definition strftime_stamp (d : datetime) : str :=
  zfill 4 (str_of_N (year d)) ++ zfill 2 (str_of_N (month d)) ++
  zfill 2 (str_of_N (day d)) ++ py "_" ++
  zfill 2 (str_of_N (hour d)) ++ zfill 2 (str_of_N (minute d)).

(** Values stored in a report record, and the record itself: a dict
    literal with string keys, in insertion order. *)
Inductive value :=
| VInt (z : Z)
| VStr (s : str).

Definition dict := list (string * value).

Fixpoint get (k : string) (d : dict) : option value :=
  match d with
  | [] => None
  | (k', v) :: r => if String.eqb k k' then Some v else get k r
  end.

Definition keys (d : dict) : list string := map fst d.

(** A reference to a dict object: its address in the heap. *)
Definition ref := nat.

(** What ends up in a written file. *)
Inductive file :=
| JsonFile (records : list dict)
| CsvFile (sep : str) (header : list string)
          (rows : list (list (option value)))
| TextFile (lines : list str).

Record world := mkWorld {
  heap : list dict;            (* dict objects allocated so far *)
  clock : nat -> datetime;     (* what the n-th [datetime.now()] returns *)
  ticks : nat;                 (* calls to [datetime.now()] so far *)
  stdout : list str;           (* lines printed *)
  files : list (str * file)    (* files written, oldest first *)
}.

(** ** The state monad *)

Definition M (A : Type) : Type := world -> A * world.

Definition ret {A} (a : A) : M A := fun w => (a, w).

Definition bind {A B} (m : M A) (k : A -> M B) : M B :=
  fun w => let (a, w') := m w in k a w'.

Definition datetime_now : M datetime :=
  fun w => (clock w (ticks w),
            mkWorld (heap w) (clock w) (S (ticks w)) (stdout w) (files w)).

Definition print (line : str) : M unit :=
  fun w => (tt, mkWorld (heap w) (clock w) (ticks w)
                        (stdout w ++ [line]) (files w)).

(** Evaluating a dict literal allocates a fresh object. *)
Definition new_dict (d : dict) : M ref :=
  fun w => (length (heap w),
            mkWorld (heap w ++ [d]) (clock w) (ticks w) (stdout w) (files w)).

Definition deref (h : list dict) (r : ref) : dict := nth r h [].

(** [open(path, 'w')] followed by a write of the whole content. *)
Definition write_file (path : str) (f : file) : M unit :=
  fun w => (tt, mkWorld (heap w) (clock w) (ticks w) (stdout w)
                        (files w ++ [(path, f)])).

(** The files written between two worlds, and the CSV files among a
    list of files. *)
Definition written (w w' : world) : list (str * file) :=
  skipn (length (files w)) (files w').

Definition is_csv (pf : str * file) : bool :=
  match snd pf with
  | CsvFile _ _ _ => true
  | _ => false
  end.

(** Delimiter, header and number of rows of a CSV file. *)
Definition csv_shape (pf : str * file) : option (str * list string * nat) :=
  match snd pf with
  | CsvFile sep header rows => Some (sep, header, length rows)
  | _ => None
  end.

End Runtime.
Import Runtime.

Notation "x <- c ;; k" := (bind c (fun x => k))
  (at level 61, c at next level, right associativity).
Notation "c ;; k" := (bind c (fun _ => k))
  (at level 61, right associativity).

(* ================================================================== *)
(** * Code that is the same in [bot.py] and [bot1.py] *)
(* ================================================================== *)

Module Common.

(** One value of [self.keywords]: [{'termos': [...], 'impacto': ...}]. *)
Record info := mkInfo { termos : list str; impacto : str }.

(** [self.keywords]: a dict, so its keys are distinct; [.items()]
    iterates in insertion order. *)
Definition keywords_t := list (str * info).

Record DOEProcessor := mkProcessor {
  download_dir : str;
  reports_dir : str;
  keywords : keywords_t
}.

Section WithTables.
Context {U : UnicodeDB}.

(** [clean_text] (bot.py 112-115, bot1.py 136-138) *)
Definition clean_text (text : option str) : str :=
  if falsy text then []
  else match text with
       | Some t => join (py " ") (split t)
       | None => []
       end.

(** The heading heuristic (bot.py 133-138, bot1.py 150-155):
    [for line in lines[:5]: if line.isupper() and len(line) > 5: ...; break] *)
Fixpoint topico_loop (lines : list str) (topico_estimado : str) : str :=
  match lines with
  | [] => topico_estimado
  | line :: rest =>
    if isupper line && (5 <? len line)%Z then line
    else topico_loop rest topico_estimado
  end.

Definition topico (text : str) : str :=
  let lines := split_sep 10 text in
  let topico_estimado := py "GERAL" in
  topico_loop (firstn 5 lines) topico_estimado.

(** The context window (bot.py 153-156, bot1.py 163-166). *)
Definition snippet_of (text_clean text_lower termo : str) : str :=
  let start_idx := find termo text_lower in
  let start_ctx := Z.max 0 (start_idx - 100) in
  let end_ctx := Z.min (len text_clean) (start_idx + 200) in
  slice text_clean start_ctx end_ctx.

(** The window around the first occurrence, stripped, with its
    suffix: what [analyze_pdf] stores as ["resumo_snippet"]. *)
Definition stored_snippet (text_clean text_lower termo : str) : str :=
  let start_idx := find termo text_lower in
  strip (slice text_clean (Z.max 0 (start_idx - 100))
               (Z.min (len text_clean) (start_idx + 200))) ++ py "...".

End WithTables.

Definition is_ALTO (s : str) : bool := str_eqb s (py "ALTO").
Definition is_MEDIO (s : str) : bool := str_eqb s (py "MEDIO").

End Common.
Import Common.

(* ================================================================== *)
(** * [bot1.py] *)
(* ================================================================== *)

Module Bot1.

(** [DOEProcessor.__init__] (bot1.py 20-50); [cwd] is [os.getcwd()]. *)
Definition init (cwd : str) : DOEProcessor :=
  mkProcessor
    (path_join cwd (py "downloads"))
    (path_join cwd (py "relatorios"))
    [ (py "MONITORAMENTO_PESSOAL",
       mkInfo [py "SEU NOME"] (py "ALTO"));
      (py "CONCURSOS_SELECOES",
       mkInfo [py "concurso público"; py "processo seletivo"; py "nomeação";
               py "homologação"; py "edital de abertura"; py "convocação"]
              (py "ALTO"));
      (py "SAUDE_BIOTEC",
       mkInfo [py "secretaria de saúde"; py "biotecnologia";
               py "medicamentos"; py "insumos"; py "laboratório";
               py "vacinação"; py "epidemiológica"]
              (py "MEDIO"));
      (py "EDUCACAO_PESQUISA",
       mkInfo [py "fapesq"; py "bolsa de pesquisa"; py "mestrado";
               py "doutorado"; py "universidade de pernambuco";
               py "educação básica"]
              (py "MEDIO"));
      (py "REGULACAO_LEIS",
       mkInfo [py "decreto nº"; py "lei nº"; py "portaria nº";
               py "resolução"]
              (py "BAIXO")) ].

(** The two result lists of [analyze_pdf]; their elements are
    references to the [entry] dicts. *)
Record locals := mkLocals {
  extracted_data : list ref;
  concursos_data : list ref
}.

Section WithTables.
Context {U : UnicodeDB}.

(** [for termo in info['termos']: ...] with its [break]
    (bot1.py 161-182) *)
Fixpoint termo_loop (pdf_path : str) (i : nat) (topico_estimado : str)
    (text_clean text_lower : str) (categoria : str) (info : info)
    (termos : list str) (loc : locals) : M locals :=
  match termos with
  | [] => ret loc
  | termo :: rest =>
    if contains termo text_lower then
      let start_idx := find termo text_lower in
      let start_ctx := Z.max 0 (start_idx - 100) in
      let end_ctx := Z.min (len text_clean) (start_idx + 200) in
      let snippet := slice text_clean start_ctx end_ctx in
      now <- datetime_now ;;
      entry <- new_dict
        [ ("arquivo", VStr (basename pdf_path));
          ("pagina", VInt (Z.of_nat i + 1));
          ("topico_detectado", VStr topico_estimado);
          ("categoria", VStr categoria);
          ("termo_encontrado", VStr termo);
          ("impacto", VStr (impacto info));
          ("resumo_snippet", VStr (strip snippet ++ py "..."));
          ("data_processamento", VStr (strftime_Ymd now)) ] ;;
      let loc := mkLocals (extracted_data loc ++ [entry])
                          (concursos_data loc) in
      let loc := if is_ALTO (impacto info)
                 then mkLocals (extracted_data loc)
                               (concursos_data loc ++ [entry])
                 else loc in
      ret loc
    else
      termo_loop pdf_path i topico_estimado text_clean text_lower
                 categoria info rest loc
  end.

(** [for categoria, info in self.keywords.items(): ...] (bot1.py 160) *)
Fixpoint categoria_loop (pdf_path : str) (i : nat) (topico_estimado : str)
    (text_clean text_lower : str) (kw : keywords_t) (loc : locals)
    : M locals :=
  match kw with
  | [] => ret loc
  | (categoria, info) :: rest =>
    loc <- termo_loop pdf_path i topico_estimado text_clean text_lower
                      categoria info (termos info) loc ;;
    categoria_loop pdf_path i topico_estimado text_clean text_lower rest loc
  end.

(** [for i, page in enumerate(pdf.pages): ...] (bot1.py 146-182).
    [pages] holds what [page.extract_text()] returns for each page. *)
Fixpoint page_loop (self : DOEProcessor) (pdf_path : str)
    (pages : list (option str)) (i : nat) (loc : locals) : M locals :=
  match pages with
  | [] => ret loc
  | text :: rest =>
    if falsy text then page_loop self pdf_path rest (S i) loc
    else
      let raw := match text with Some t => t | None => [] end in
      let topico_estimado := topico raw in
      let text_clean := clean_text text in
      let text_lower := lower text_clean in
      loc <- categoria_loop pdf_path i topico_estimado text_clean text_lower
                            (keywords self) loc ;;
      page_loop self pdf_path rest (S i) loc
  end.

(** [analyze_pdf] (bot1.py 140-183) *)
Definition analyze_pdf (self : DOEProcessor) (pdf_path : str)
    (pages : list (option str)) : M (list ref * list ref) :=
  print (py "Analisando: " ++ basename pdf_path) ;;
  let extracted_data := [] in
  let concursos_data := [] in
  loc <- page_loop self pdf_path pages 0
                   (mkLocals extracted_data concursos_data) ;;
  ret (Bot1.extracted_data loc, Bot1.concursos_data loc).

(** [generate_reports] (bot1.py 185-191): the [concursos] argument is
    not used. *)
Definition generate_reports (self : DOEProcessor)
    (data concursos : list ref) : M unit :=
  now <- datetime_now ;;
  let timestamp := strftime_stamp now in
  match data with
  | [] => ret tt
  | _ :: _ =>
    let json_path :=
      path_join (reports_dir self)
                (py "relatorio_multiplo_" ++ timestamp ++ py ".json") in
    (fun w => write_file json_path
                (JsonFile (map (deref (heap w)) data)) w) ;;
    print (py "✅ Relatório salvo em: " ++ json_path)
  end.

End WithTables.

End Bot1.

(* ================================================================== *)
(** * The part of [pandas] that [bot.py] uses *)
(* ================================================================== *)

Module Pandas.

(** [pd.DataFrame(records)]: the columns are the keys in order of first
    appearance; a record without a column has a missing value there. *)
Record DataFrame := mkDataFrame {
  columns : list string;
  rows : list (list (option value))
}.

Definition has_column (k : string) (cols : list string) : bool :=
  existsb (String.eqb k) cols.

Definition add_columns (cols : list string) (d : dict) : list string :=
  fold_left (fun cs k => if has_column k cs then cs else cs ++ [k])
            (keys d) cols.

Definition of_records (records : list dict) : DataFrame :=
  let cols := fold_left add_columns records [] in
  mkDataFrame cols (map (fun d => map (fun k => get k d) cols) records).

(** [df.empty] *)
Definition empty (df : DataFrame) : bool :=
  match columns df, rows df with
  | [], _ => true
  | _, [] => true
  | _, _ => false
  end.

(** Order of group keys: numbers before strings, strings by code point. *)
Fixpoint str_ltb (a b : str) : bool :=
  match a, b with
  | _, [] => false
  | [], _ :: _ => true
  | x :: a', y :: b' => (x <? y)%N || ((x =? y)%N && str_ltb a' b')
  end.

Definition value_eqb (a b : value) : bool :=
  match a, b with
  | VInt x, VInt y => (x =? y)%Z
  | VStr x, VStr y => str_eqb x y
  | _, _ => false
  end.

Definition value_ltb (a b : value) : bool :=
  match a, b with
  | VInt x, VInt y => (x <? y)%Z
  | VInt _, VStr _ => true
  | VStr _, VInt _ => false
  | VStr x, VStr y => str_ltb x y
  end.

Definition key_eqb (a b : value * value) : bool :=
  value_eqb (fst a) (fst b) && value_eqb (snd a) (snd b).

Definition key_ltb (a b : value * value) : bool :=
  value_ltb (fst a) (fst b) ||
  (value_eqb (fst a) (fst b) && value_ltb (snd a) (snd b)).

Fixpoint bump (k : value * value) (c : Z) (l : list (value * value * Z))
    : list (value * value * Z) :=
  match l with
  | [] => [(k, c)]
  | (k', n) :: r =>
    if key_eqb k k' then (k', (n + c)%Z) :: r
    else if key_ltb k k' then (k, c) :: l
    else (k', n) :: bump k c r
  end.

(** [df.groupby([a, b])[c].count().reset_index()] over the records the
    frame was built from: sorted groups with the number of non-missing
    [c]; rows with a missing key are dropped; [None] is [KeyError]. *)
Definition groupby_count (a b c : string) (records : list dict)
    : option (list (value * value * Z)) :=
  let cols := columns (of_records records) in
  if has_column a cols && has_column b cols && has_column c cols then
    Some (fold_left
            (fun acc d =>
               match get a d, get b d with
               | Some x, Some y =>
                 bump (x, y) (match get c d with Some _ => 1 | None => 0 end)%Z
                      acc
               | _, _ => acc
               end)
            records [])
  else None.

End Pandas.

(** Formatting a value inside an f-string. *)
Definition str_of_Z (z : Z) : str :=
  if (z <? 0)%Z then py "-" ++ str_of_N (Z.abs_N z) else str_of_N (Z.to_N z).

Definition format (v : value) : str :=
  match v with
  | VInt z => str_of_Z z
  | VStr s => s
  end.

(** How a call ended. *)
Inductive outcome :=
| Returned
| Raised (exc : str).

(* ================================================================== *)
(** * [bot.py] *)
(* ================================================================== *)

Module Bot.

(** [DOEProcessor.__init__] (bot.py 21-49); [cwd] is [os.getcwd()]. *)
Definition init (cwd : str) : DOEProcessor :=
  mkProcessor
    (path_join cwd (py "downloads"))
    (path_join cwd (py "relatorios"))
    [ (py "CONCURSOS_SELECOES",
       mkInfo [py "concurso público"; py "processo seletivo"; py "nomeação";
               py "homologação"; py "edital de abertura"; py "convocação"]
              (py "ALTO"));
      (py "SAUDE_BIOTEC",
       mkInfo [py "secretaria de saúde"; py "biotecnologia";
               py "medicamentos"; py "insumos"; py "laboratório";
               py "vacinação"; py "epidemiológica"]
              (py "MEDIO"));
      (py "EDUCACAO_PESQUISA",
       mkInfo [py "fapesq"; py "bolsa de pesquisa"; py "mestrado";
               py "doutorado"; py "universidade de pernambuco";
               py "educação básica"]
              (py "MEDIO"));
      (py "REGULACAO_LEIS",
       mkInfo [py "decreto nº"; py "lei nº"; py "portaria nº";
               py "resolução"]
              (py "BAIXO")) ].

(** The local variables of [analyze_pdf] that the loops assign to.
    [found_categories] and [impact_level] are set anew on every page
    and are not bound before the first one; nothing reads them there. *)
Record locals := mkLocals {
  extracted_data : list ref;
  concursos_data : list ref;
  found_categories : list str;
  impact_level : str
}.

Section WithTables.
Context {U : UnicodeDB}.

(** [for termo in info['termos']: ...] with its [break]
    (bot.py 148-178) *)
Fixpoint termo_loop (i : nat) (topico_estimado : str)
    (text_clean text_lower : str) (categoria : str) (info : info)
    (termos : list str) (loc : locals) : M locals :=
  match termos with
  | [] => ret loc
  | termo :: rest =>
    if contains termo text_lower then
      let loc := mkLocals (extracted_data loc) (concursos_data loc)
                          (found_categories loc ++ [categoria])
                          (impact_level loc) in
      let start_idx := find termo text_lower in
      let start_ctx := Z.max 0 (start_idx - 100) in
      let end_ctx := Z.min (len text_clean) (start_idx + 200) in
      let snippet := slice text_clean start_ctx end_ctx in
      now <- datetime_now ;;
      entry <- new_dict
        [ ("pagina", VInt (Z.of_nat i + 1));
          ("topico_detectado", VStr topico_estimado);
          ("categoria", VStr categoria);
          ("termo_encontrado", VStr termo);
          ("impacto", VStr (impacto info));
          ("resumo_snippet", VStr (strip snippet ++ py "..."));
          ("data_processamento", VStr (strftime_Ymd now)) ] ;;
      let loc := mkLocals (extracted_data loc ++ [entry])
                          (concursos_data loc)
                          (found_categories loc) (impact_level loc) in
      let loc :=
        if is_ALTO (impacto info) then
          mkLocals (extracted_data loc) (concursos_data loc ++ [entry])
                   (found_categories loc) (py "ALTO")
        else if is_MEDIO (impacto info)
                && negb (is_ALTO (impact_level loc)) then
          mkLocals (extracted_data loc) (concursos_data loc)
                   (found_categories loc) (py "MEDIO")
        else loc in
      ret loc
    else
      termo_loop i topico_estimado text_clean text_lower
                 categoria info rest loc
  end.

(** [for categoria, info in self.keywords.items(): ...] (bot.py 147) *)
Fixpoint categoria_loop (i : nat) (topico_estimado : str)
    (text_clean text_lower : str) (kw : keywords_t) (loc : locals)
    : M locals :=
  match kw with
  | [] => ret loc
  | (categoria, info) :: rest =>
    loc <- termo_loop i topico_estimado text_clean text_lower
                      categoria info (termos info) loc ;;
    categoria_loop i topico_estimado text_clean text_lower rest loc
  end.

(** [for i, page in enumerate(pdf.pages): ...] (bot.py 128-178).
    [pages] holds what [page.extract_text()] returns for each page. *)
Fixpoint page_loop (self : DOEProcessor) (pages : list (option str))
    (i : nat) (loc : locals) : M locals :=
  match pages with
  | [] => ret loc
  | text :: rest =>
    if falsy text then page_loop self rest (S i) loc
    else
      let raw := match text with Some t => t | None => [] end in
      let topico_estimado := topico raw in
      let text_clean := clean_text text in
      let text_lower := lower text_clean in
      let loc := mkLocals (extracted_data loc) (concursos_data loc)
                          [] (py "BAIXO") in
      loc <- categoria_loop i topico_estimado text_clean text_lower
                            (keywords self) loc ;;
      page_loop self rest (S i) loc
  end.

(** [analyze_pdf] (bot.py 117-180) *)
Definition analyze_pdf (self : DOEProcessor) (pdf_path : str)
    (pages : list (option str)) : M (list ref * list ref) :=
  print (py "Processando arquivo: " ++ basename pdf_path) ;;
  let extracted_data := [] in
  let concursos_data := [] in
  let total_pages := length pages in
  print (py "Total de páginas: " ++ str_of_N (N.of_nat total_pages)) ;;
  loc <- page_loop self pages 0
                   (mkLocals extracted_data concursos_data [] []) ;;
  ret (Bot.extracted_data loc, Bot.concursos_data loc).

(** One line of the topic summary (bot.py 206). *)
Definition summary_line (row : value * value * Z) : str :=
  let '(topico_detectado, categoria, pagina) := row in
  py "[" ++ format categoria ++ py "] " ++ format topico_detectado ++
  py ": " ++ str_of_Z pagina ++ py " ocorrências" ++ [10%N].

(** [generate_reports] (bot.py 182-208); [filename_base] is not used. *)
Definition generate_reports (self : DOEProcessor)
    (data concursos : list ref) (filename_base : str) : M outcome :=
  now <- datetime_now ;;
  let timestamp := strftime_stamp now in
  (* 1. the general report *)
  let json_path :=
    path_join (reports_dir self)
              (py "relatorio_geral_" ++ timestamp ++ py ".json") in
  (fun w => write_file json_path (JsonFile (map (deref (heap w)) data)) w) ;;
  (* 2. the high-impact alert *)
  match concursos with
  | [] => ret tt
  | _ :: _ =>
    let csv_path :=
      path_join (reports_dir self)
                (py "ALERTA_CONCURSOS_" ++ timestamp ++ py ".csv") in
    (fun w =>
       let df_concursos := Pandas.of_records (map (deref (heap w)) concursos) in
       write_file csv_path
         (CsvFile (py ";") (Pandas.columns df_concursos)
                  (Pandas.rows df_concursos)) w) ;;
    print (py "🔥 ALERTA: " ++ str_of_N (N.of_nat (length concursos)) ++
           py " menções a concursos/seleções encontradas!")
  end ;;
  (* 3. the summary by topic *)
  (fun w =>
     let records := map (deref (heap w)) data in
     let df := Pandas.of_records records in
     if negb (Pandas.empty df) then
       match Pandas.groupby_count "topico_detectado" "categoria" "pagina"
                                  records with
       | None => ret (Raised (py "KeyError")) w
       | Some summary =>
         let txt_path :=
           path_join (reports_dir self)
                     (py "resumo_topicos_" ++ timestamp ++ py ".txt") in
         (write_file txt_path
            (TextFile ((py "=== RESUMO DO DIÁRIO OFICIAL ===" ++ [10%N; 10%N])
                       :: map summary_line summary)) ;;
          print (py "✅ Relatórios gerados na pasta: " ++ reports_dir self) ;;
          ret Returned) w
       end
     else
       (print (py "✅ Relatórios gerados na pasta: " ++ reports_dir self) ;;
        ret Returned) w).

End WithTables.

End Bot.

(* ================================================================== *)
(** * A functional reading of the classification pass *)
(* ================================================================== *)

(** The loops of [analyze_pdf] are summarised by the list of matches
    they make, in the order in which they make them.  The lemmas of the
    next part show that both [analyze_pdf] compute exactly this. *)

Module View.

(** One match: a page, a category and the term that matched. *)
Record hit := mkHit {
  hit_page : nat;          (* [i], counted from 0 *)
  hit_topico : str;
  hit_categoria : str;
  hit_info : info;
  hit_termo : str;
  hit_window : str         (* the slice of [text_clean], before [strip] *)
}.

(** The term at which the [for termo] loop breaks, if any. *)
Fixpoint first_term (text_lower : str) (termos : list str) : option str :=
  match termos with
  | [] => None
  | termo :: rest =>
    if contains termo text_lower then Some termo
    else first_term text_lower rest
  end.

Section WithTables.
Context {U : UnicodeDB}.

Definition categoria_hits (i : nat) (topico_estimado : str)
    (text_clean text_lower : str) (c : str * info) : list hit :=
  match first_term text_lower (termos (snd c)) with
  | Some termo =>
    [mkHit i topico_estimado (fst c) (snd c) termo
           (snippet_of text_clean text_lower termo)]
  | None => []
  end.

Definition page_hits (kw : keywords_t) (i : nat) (text : option str)
    : list hit :=
  if falsy text then []
  else
    let raw := match text with Some t => t | None => [] end in
    let text_clean := clean_text text in
    let text_lower := lower text_clean in
    flat_map (categoria_hits i (topico raw) text_clean text_lower) kw.

Fixpoint doc_hits (kw : keywords_t) (i : nat) (pages : list (option str))
    : list hit :=
  match pages with
  | [] => []
  | text :: rest => page_hits kw i text ++ doc_hits kw (S i) rest
  end.

(** The [entry] dict of [bot.py] and of [bot1.py] for a match. *)
Definition bot_entry (h : hit) (now : datetime) : dict :=
  [ ("pagina", VInt (Z.of_nat (hit_page h) + 1));
    ("topico_detectado", VStr (hit_topico h));
    ("categoria", VStr (hit_categoria h));
    ("termo_encontrado", VStr (hit_termo h));
    ("impacto", VStr (impacto (hit_info h)));
    ("resumo_snippet", VStr (strip (hit_window h) ++ py "..."));
    ("data_processamento", VStr (strftime_Ymd now)) ].

Definition bot1_entry (pdf_path : str) (h : hit) (now : datetime) : dict :=
  ("arquivo", VStr (basename pdf_path)) :: bot_entry h now.

End WithTables.

(** The (category, term) pairs matched on a page, in catalog order. *)
Definition page_matches {U : UnicodeDB} (kw : keywords_t)
    (text : option str) : list (str * str) :=
  if falsy text then []
  else
    let text_lower := lower (clean_text text) in
    flat_map (fun c : str * info =>
                match first_term text_lower (termos (snd c)) with
                | Some termo => [(fst c, termo)]
                | None => []
                end) kw.

(** The objects allocated for a list of matches: the k-th one reads the
    clock at tick [t + k]. *)
Fixpoint allocate (mk : hit -> datetime -> dict) (clock : nat -> datetime)
    (t : nat) (hits : list hit) : list dict :=
  match hits with
  | [] => []
  | h :: r => mk h (clock t) :: allocate mk clock (S t) r
  end.

Definition emit (mk : hit -> datetime -> dict) (hits : list hit)
    (w : world) : world :=
  mkWorld (heap w ++ allocate mk (clock w) (ticks w) hits)
          (clock w) (ticks w + length hits) (stdout w) (files w).

Definition hit_high (h : hit) : bool := is_ALTO (impacto (hit_info h)).

(** The addresses, from [a] on, of the matches with impact ALTO. *)
Fixpoint high_refs (a : nat) (hits : list hit) : list ref :=
  match hits with
  | [] => []
  | h :: r => (if hit_high h then [a] else []) ++ high_refs (S a) r
  end.

(** What a loop that made the matches [hits] has done to the two
    result lists and to the world. *)
Definition ran (mk : hit -> datetime -> dict) (hits : list hit)
    (ext conc : list ref) (w : world)
    (ext' conc' : list ref) (w' : world) : Prop :=
  ext' = ext ++ seq (length (heap w)) (length hits) /\
  conc' = conc ++ high_refs (length (heap w)) hits /\
  w' = emit mk hits w.

(** ** Reading a report record *)

Definition field_str (k : string) (d : dict) : str :=
  match get k d with
  | Some (VStr s) => s
  | _ => []
  end.

Definition is_high (d : dict) : bool := is_ALTO (field_str "impacto" d).

(** Does the record belong to page [i] (counted from 0)? *)
Definition on_page (i : nat) (d : dict) : bool :=
  match get "pagina" d with
  | Some (VInt p) => (p =? Z.of_nat i + 1)%Z
  | _ => false
  end.

(** What a pass returns, with the references followed. *)
Definition findings (r : list ref * list ref * world)
    : list dict * list dict :=
  let '(all, high, w) := r in
  (map (deref (heap w)) all, map (deref (heap w)) high).

End View.
Import View.

(* ================================================================== *)
(** * The specification's wording, for comparison *)
(* ================================================================== *)

Module Spec.

Section WithTables.
Context {U : UnicodeDB}.

Definition qualifies (line : str) : bool :=
  isupper line && (5 <? len line)%Z.

Definition non_empty (line : str) : bool :=
  match line with [] => false | _ :: _ => true end.

(** "scan at most the first 5 non-empty lines of the page's raw text in
    order; the first line that is entirely upper-case and longer than 5
    characters becomes the topic label; if none qualifies, the default" *)
Definition topic_label (raw_text : str) : str :=
  match List.find qualifies
          (firstn 5 (filter non_empty (split_sep 10 raw_text))) with
  | Some line => line
  | None => py "GERAL"
  end.

(** "a context snippet spanning 100 characters before and 200
    characters after the match start (clamped to text bounds), append
    the suffix" *)
Definition context_snippet (text_clean text_lower term : str) : str :=
  let start := find term text_lower in
  slice text_clean (Z.max 0 (start - 100))
        (Z.min (len text_clean) (start + 200)) ++ py "...".

(** "matching is case-insensitive": the term occurs in the text when
    letter case is ignored on both sides. *)
Definition occurs_ignoring_case (term text : str) : bool :=
  contains (lower term) (lower text).

End WithTables.

End Spec.

(* ================================================================== *)
(** * Obtaining the PDF, and the two orchestrators *)
(* ================================================================== *)

(** ** The download directory

    The part of [fetch_latest_pdf] and [fetch_pdf_by_date] that comes
    after the browser: choosing the newest PDF of the download folder
    and, in [bot1.py], renaming it after the date. *)

Module Downloads.

(** A file of the download folder: its name, [os.path.getctime] of it,
    and the page texts a PDF reader finds in it. *)
Record dir_entry := mkEntry {
  name : str;
  ctime : Z;
  content : list (option str)
}.

(** The folder, in the order of [os.listdir]; names are distinct. *)
Definition directory := list dir_entry.

(** [f.endswith(suffix)] *)
Definition ends_with (suffix s : str) : bool :=
  starts_with (rev suffix) (rev s).

(** [[... for f in os.listdir(download_dir) if f.endswith('.pdf')]] *)
Definition pdf_files (d : directory) : list dir_entry :=
  filter (fun e => ends_with (py ".pdf") (name e)) d.

(** [max(files, key=os.path.getctime)]: the first of the files with the
    greatest key. *)
Fixpoint max_from (best : dir_entry) (rest : list dir_entry) : dir_entry :=
  match rest with
  | [] => best
  | e :: r => if (ctime best <? ctime e)%Z then max_from e r
              else max_from best r
  end.

Definition latest (files : list dir_entry) : option dir_entry :=
  match files with
  | [] => None
  | e :: r => Some (max_from e r)
  end.

(** What the [try] block of [fetch_latest_pdf] did before the folder is
    listed. *)
Inductive browser :=
| Clicked                 (* the download button was found and clicked *)
| Threw (exc : str).      (* an exception was raised *)

(** The value returned by [fetch_latest_pdf] (bot.py 94-99 and
    101-108), [d] being the folder when it is listed. *)
Definition fetch_latest_pdf (self : DOEProcessor) (b : browser)
    (d : directory) : option str :=
  match b with
  | Clicked =>
    let files := pdf_files d in
    match latest files with
    | None => None
    | Some latest_file => Some (path_join (download_dir self)
                                          (name latest_file))
    end
  | Threw _ =>
    let files := pdf_files d in
    match latest files with
    | Some latest_file => Some (path_join (download_dir self)
                                          (name latest_file))
    | None => None
    end
  end.

(** [s.replace(a, b)] for one-character [a] and [b]. *)
Definition replace (a b : N) (s : str) : str :=
  map (fun c => if (c =? a)%N then b else c) s.

(** [f"DOE_{data_str.replace('/','-')}.pdf"] *)
Definition dated_name (data_str : str) : str :=
  py "DOE_" ++ replace 47 45 data_str ++ py ".pdf".

Definition exists_name (n : str) (d : directory) : bool :=
  existsb (fun e => str_eqb (name e) n) d.

(** [os.remove] of the file named [n]. *)
Definition remove (n : str) (d : directory) : directory :=
  filter (fun e => negb (str_eqb (name e) n)) d.

(** [os.rename] inside the folder, at time [now]: a file that has the
    new name is replaced; [None] is [FileNotFoundError]. *)
Definition rename (src dst : str) (now : Z) (d : directory)
    : option directory :=
  if exists_name src d then
    if str_eqb src dst then Some d
    else Some (map (fun e => if str_eqb (name e) src
                             then mkEntry dst now (content e) else e)
                   (remove dst d))
  else None.

(** The end of the [try] block of [fetch_pdf_by_date] (bot1.py
    117-128), with the [except] clause that returns [None] (130-132):
    the value returned, and the folder afterwards. *)
Definition claim_download (self : DOEProcessor) (data_str : str)
    (now : Z) (d : directory) : option str * directory :=
  let files := pdf_files d in
  match latest files with
  | None => (None, d)
  | Some latest_file =>
    let new_name := dated_name data_str in
    let d1 := if exists_name new_name d then remove new_name d else d in
    match rename (name latest_file) new_name now d1 with
    | Some d2 => (Some (path_join (download_dir self) new_name), d2)
    | None => (None, d1)
    end
  end.

(** The entry of a given name. *)
Definition lookup (n : str) (d : directory) : option dir_entry :=
  List.find (fun e => str_eqb (name e) n) d.

End Downloads.

(** ** The acquisition seen from the orchestrators

    [fetch_latest_pdf] and [fetch_pdf_by_date] drive a browser, which is
    outside this model.  To their callers they are a value returned, or
    an exception of [setup_driver] (called outside the [try]), one
    reading of the clock and some lines printed; they have no access to
    the findings.  [os.path.exists] and the PDF reader are answered by
    the same environment. *)

Module Acquire.

Inductive fetched :=
| Got (path : str)        (* a path is returned *)
| Nothing                 (* [None] is returned *)
| Crashed (exc : str).    (* an exception leaves the function *)

Record env := mkEnv {
  fetch_result : str -> world -> fetched;
  fetch_output : str -> world -> list str;
  path_exists : str -> world -> bool;
  pdf_pages : str -> world -> list (option str)
}.

(** A call of a fetch function with argument [arg] ([[]] when it has
    none). *)
Definition fetch (e : env) (arg : str) : M fetched :=
  bind datetime_now (fun _ =>
  fun w => (fetch_result e arg w,
            mkWorld (heap w) (clock w) (ticks w)
                    (stdout w ++ fetch_output e arg w) (files w))).

(** [pdf_path and os.path.exists(pdf_path)] *)
Definition usable (e : env) (r : fetched) (w : world) : option str :=
  match r with
  | Got p => if negb (falsy (Some p)) && path_exists e p w then Some p
             else None
  | _ => None
  end.

End Acquire.

(** ** [run_pipeline] of [bot.py] (210-232) *)

Module BotRun.

Section WithTables.
Context {U : UnicodeDB}.

Definition run_pipeline (e : Acquire.env) (self : DOEProcessor)
    : M outcome :=
  print ([10%N] ++ py "=== INICIANDO PIPELINE DE ANÁLISE DO DOE ===") ;;
  (* 1. download *)
  r <- Acquire.fetch e [] ;;
  match r with
  | Acquire.Crashed exc => ret (Raised exc)
  | _ =>
    o <- (fun w =>
            match Acquire.usable e r w with
            | Some pdf_path =>
              (* 2. analyse *)
              (res <- Bot.analyze_pdf self pdf_path
                                      (Acquire.pdf_pages e pdf_path w) ;;
               let '(all_data, concursos_only) := res in
               (* 3. report *)
               match all_data with
               | _ :: _ =>
                 Bot.generate_reports self all_data concursos_only
                                      (basename pdf_path)
               | [] =>
                 print (py "Nenhuma palavra-chave relevante encontrada hoje.") ;;
                 ret Returned
               end) w
            | None =>
              (print (py "Falha ao obter o arquivo PDF.") ;;
               ret Returned) w
            end) ;;
    match o with
    | Raised exc => ret (Raised exc)
    | Returned =>
      print (py "=== FIM DO PROCESSO ===" ++ [10%N]) ;;
      ret Returned
    end
  end.

End WithTables.

End BotRun.

(** ** [process_dates] of [bot1.py] (193-211) *)

Module Bot1Run.

Section WithTables.
Context {U : UnicodeDB}.

(** [for data in lista_datas: ...]; [inl exc] when an exception
    leaves the loop. *)
Fixpoint dates_loop (e : Acquire.env) (self : DOEProcessor)
    (lista_datas : list str) (all_findings all_concursos : list ref)
    : M (str + list ref * list ref) :=
  match lista_datas with
  | [] => ret (inr (all_findings, all_concursos))
  | data :: rest =>
    print ([10%N] ++ py "=== Processando dia " ++ data ++ py " ===") ;;
    r <- Acquire.fetch e data ;;
    match r with
    | Acquire.Crashed exc => ret (inl exc)
    | _ =>
      acc <- (fun w =>
                match Acquire.usable e r w with
                | Some pdf_path =>
                  (res <- Bot1.analyze_pdf self pdf_path
                                           (Acquire.pdf_pages e pdf_path w) ;;
                   let '(findings, concursos) := res in
                   ret (all_findings ++ findings,
                        all_concursos ++ concursos)) w
                | None =>
                  (print (py "❌ Não foi possível obter o PDF de " ++ data) ;;
                   ret (all_findings, all_concursos)) w
                end) ;;
      dates_loop e self rest (fst acc) (snd acc)
    end
  end.

Definition process_dates (e : Acquire.env) (self : DOEProcessor)
    (lista_datas : list str) : M outcome :=
  let all_findings := [] in
  let all_concursos := [] in
  r <- dates_loop e self lista_datas all_findings all_concursos ;;
  match r with
  | inl exc => ret (Raised exc)
  | inr (all_findings, all_concursos) =>
    match all_findings with
    | _ :: _ =>
      Bot1.generate_reports self all_findings all_concursos ;;
      ret Returned
    | [] =>
      print (py "Nenhum termo encontrado nas datas analisadas.") ;;
      ret Returned
    end
  end.

End WithTables.

End Bot1Run.

(** ** Reading records, for the statements below *)

Module Read.

Definition field_int (k : string) (d : dict) : Z :=
  match get k d with
  | Some (VInt z) => z
  | _ => 0%Z
  end.

(** A list of numbers that never decreases. *)
Fixpoint ascending (l : list Z) : Prop :=
  match l with
  | [] => True
  | x :: r => match r with
              | [] => True
              | y :: _ => (x <= y)%Z
              end /\ ascending r
  end.

Definition is_json (pf : str * file) : bool :=
  match snd pf with
  | JsonFile _ => true
  | _ => false
  end.

Definition is_text (pf : str * file) : bool :=
  match snd pf with
  | TextFile _ => true
  | _ => false
  end.

(** The records of a JSON report. *)
Definition json_records (f : file) : list dict :=
  match f with
  | JsonFile records => records
  | _ => []
  end.

(** The calendar minute of an instant. *)
Definition minute_of (d : datetime) : N * N * N * N * N :=
  (year d, month d, day d, hour d, minute d).

(** A date and time of day as [datetime] has them. *)
Definition valid (d : datetime) : Prop :=
  (1 <= year d <= 9999 /\ 1 <= month d <= 12 /\ 1 <= day d <= 31 /\
   hour d <= 23 /\ minute d <= 59)%N.

(** Where a match comes from: its page lies in the document, its
    category is a key of the catalog with the impact recorded, and its
    term is one of the category's terms and occurs in the lower-cased
    normalized text of its page. *)
Definition hit_sound {U : UnicodeDB} (kw : keywords_t) (i : nat) (pages : list (option str))
    (h : hit) : Prop :=
  i <= hit_page h < i + length pages /\
  In (hit_categoria h, hit_info h) kw /\
  In (hit_termo h) (termos (hit_info h)) /\
  contains (hit_termo h)
           (lower (clean_text (nth (hit_page h - i) pages None))) = true.

(** Are there two whitespace characters next to each other? *)
Fixpoint adjacent_spaces {U : UnicodeDB} (s : str) : bool :=
  match s with
  | [] => false
  | a :: r => match r with
              | [] => false
              | b :: _ => ISSPACE a && ISSPACE b
              end || adjacent_spaces r
  end.

(** The characters that are not whitespace, in order. *)
Definition visible {U : UnicodeDB} (s : str) : str :=
  filter (fun c => negb (ISSPACE c)) s.

(** The sum of the counts of a grouped summary. *)
Definition total (groups : list (value * value * Z)) : Z :=
  fold_right (fun g acc => (snd g + acc)%Z) 0%Z groups.

(** The names of the three reports of [bot.py] and of the report of
    [bot1.py], for a timestamp. *)
Definition json_path (self : DOEProcessor) (timestamp : str) : str :=
  path_join (reports_dir self)
            (py "relatorio_geral_" ++ timestamp ++ py ".json").

Definition csv_path (self : DOEProcessor) (timestamp : str) : str :=
  path_join (reports_dir self)
            (py "ALERTA_CONCURSOS_" ++ timestamp ++ py ".csv").

Definition txt_path (self : DOEProcessor) (timestamp : str) : str :=
  path_join (reports_dir self)
            (py "resumo_topicos_" ++ timestamp ++ py ".txt").

Definition multi_path (self : DOEProcessor) (timestamp : str) : str :=
  path_join (reports_dir self)
            (py "relatorio_multiplo_" ++ timestamp ++ py ".json").

(** The content of the topic summary for grouped counts. *)
Definition summary_file (groups : list (value * value * Z)) : file :=
  TextFile ((py "=== RESUMO DO DIÁRIO OFICIAL ===" ++ [10%N; 10%N])
            :: map Bot.summary_line groups).

(** The keys of a finding of [bot.py], in order. *)
Definition bot_keys : list string :=
  ["pagina"; "topico_detectado"; "categoria"; "termo_encontrado";
   "impacto"; "resumo_snippet"; "data_processamento"].

(** A record that has the keys of a finding of [bot.py]. *)
Definition bot_record (d : dict) : Prop :=
  keys d = bot_keys /\
  (exists x, get "topico_detectado" d = Some x) /\
  (exists y, get "categoria" d = Some y) /\
  (exists z, get "pagina" d = Some z).

(** The number written by decimal digits. *)
Definition N_of_digits (s : str) : N :=
  fold_left (fun acc c => (acc * 10 + (c - 48))%N) s 0%N.

(** Does a field of a timestamp, [w] digits wide, read back as [n]? *)
Definition field_ok (w : nat) (n : N) : bool :=
  (length (zfill w (str_of_N n)) =? w)%nat &&
  (N_of_digits (zfill w (str_of_N n)) =? n)%N.

(** A record names a file that the fetch returned for one of the
    dates. *)
Definition from_a_date (e : Acquire.env) (dates : list str) (d : dict)
    : Prop :=
  exists date wx p,
    In date dates /\
    Acquire.fetch_result e date wx = Acquire.Got p /\
    get "arquivo" d = Some (VStr (basename p)).

End Read.
Import Read.

(** More sample inputs. *)
Module Scenario.

(** An environment in which every download fails. *)
Definition offline : Acquire.env :=
  Acquire.mkEnv (fun _ _ => Acquire.Nothing) (fun _ _ => [])
                (fun _ _ => false) (fun _ _ => []).

(** A folder with an old edition, a newer one already named after
    2 January 2025, and a download still in progress. *)
Definition folder : Downloads.directory :=
  [ Downloads.mkEntry (py "DOE_01-01-2025.pdf") 100 [Some (py "lei nº 1")];
    Downloads.mkEntry (py "DOE_02-01-2025.pdf") 200 [Some (py "lei nº 2")];
    Downloads.mkEntry (py "diario.pdf.crdownload") 300 [] ].

End Scenario.

(* ================================================================== *)
(** * Sample inputs *)
(* ================================================================== *)

Module Sample.

Definition cwd : str := py "/srv/doe".

Definition pdf_path : str := py "/srv/doe/downloads/DOE_02-01-2025.pdf".

(** A clock that stays on 2 January 2025, 06:00. *)
Definition clock0 : nat -> datetime :=
  fun _ => mkDatetime 2025 1 2 6 0.

(** The same day, a later hour, one minute further at every call. *)
Definition clock1 : nat -> datetime :=
  fun n => mkDatetime 2025 1 2 7 (N.of_nat n).

Definition w0 : world := mkWorld [] clock0 0 [] [].

(** A world in which other objects, output and files already exist. *)
Definition w1 : world :=
  mkWorld [[("pagina", VInt 7)]] clock1 3 [py "pronto"]
          [(py "/srv/doe/relatorios/antigo.txt", TextFile [])].

(** The page of the specification's example. *)
Definition health_page : str :=
  py "SECRETARIA DE SAÚDE" ++ [10%N] ++
  py "Abertura de concurso público para vagas.".

(** A heading that comes after five empty lines, then a term. *)
Definition late_heading_page : str :=
  [10%N; 10%N; 10%N; 10%N; 10%N] ++ py "GOVERNO DO ESTADO" ++ [10%N] ++
  py "Ato de nomeação.".

(** 201 characters: a term, a filler, and a space at index 199. *)
Definition long_page : str :=
  py "nomeação" ++ repeat 120%N 191 ++ py " y".

(** A page with a low-impact term only. *)
Definition law_page : str := py "Publica-se a lei nº 18.432.".

(** The term of MONITORAMENTO_PESSOAL, as authored. *)
Definition name_page : str := py "Fica designado SEU NOME para a função.".

End Sample.

(* ================================================================== *)
(** * Both [analyze_pdf] compute the functional reading *)
(* ================================================================== *)

Lemma str_eqb_eq (a b : str) : str_eqb a b = true <-> a = b.
Proof.
  revert b; induction a as [|x a IH]; intros [|y b]; simpl;
    try (split; congruence).
  rewrite andb_true_iff, N.eqb_eq, IH. split.
  - intros [-> ->]; reflexivity.
  - intros E; injection E; auto.
Qed.

Lemma allocate_length mk c t hits :
  length (allocate mk c t hits) = length hits.
Proof. revert t; induction hits; simpl; intros; [|rewrite IHhits]; auto. Qed.

Lemma allocate_app mk c t a b :
  allocate mk c t (a ++ b) =
  allocate mk c t a ++ allocate mk c (t + length a) b.
Proof.
  revert t; induction a as [|h a IH]; simpl; intros t.
  - rewrite Nat.add_0_r; reflexivity.
  - rewrite IH. replace (S t + length a) with (t + S (length a)) by lia.
    reflexivity.
Qed.

Lemma high_refs_app a x y :
  high_refs a (x ++ y) = high_refs a x ++ high_refs (a + length x) y.
Proof.
  revert a; induction x as [|h x IH]; simpl; intros a.
  - rewrite Nat.add_0_r; reflexivity.
  - rewrite IH, <- app_assoc.
    replace (S a + length x) with (a + S (length x)) by lia. reflexivity.
Qed.

Lemma emit_nil mk w : emit mk [] w = w.
Proof.
  destruct w; unfold emit; simpl. rewrite app_nil_r, Nat.add_0_r.
  reflexivity.
Qed.

Lemma emit_app mk a b w : emit mk (a ++ b) w = emit mk b (emit mk a w).
Proof.
  unfold emit; simpl.
  rewrite allocate_app, length_app, <- app_assoc, Nat.add_assoc.
  reflexivity.
Qed.

Lemma emit_heap_length mk hits w :
  length (heap (emit mk hits w)) = length (heap w) + length hits.
Proof. simpl. rewrite length_app, allocate_length. reflexivity. Qed.

Lemma ran_nil mk ext conc w : ran mk [] ext conc w ext conc w.
Proof.
  unfold ran; simpl. rewrite !app_nil_r, emit_nil. auto.
Qed.

Lemma ran_app mk a b ext conc w ext1 conc1 w1 ext2 conc2 w2 :
  ran mk a ext conc w ext1 conc1 w1 ->
  ran mk b ext1 conc1 w1 ext2 conc2 w2 ->
  ran mk (a ++ b) ext conc w ext2 conc2 w2.
Proof.
  intros (-> & -> & ->) (-> & -> & ->). unfold ran.
  rewrite emit_heap_length, emit_app, high_refs_app, length_app, seq_app,
    <- !app_assoc.
  auto.
Qed.

Section Refinement.
Context {U : UnicodeDB}.

(** ** [bot1.py] *)

Lemma bot1_termo_loop pdf_path i top tc tl cat info ts loc w :
  let r := Bot1.termo_loop pdf_path i top tc tl cat info ts loc w in
  ran (bot1_entry pdf_path)
      (match first_term tl ts with
       | Some t => [mkHit i top cat info t (snippet_of tc tl t)]
       | None => []
       end)
      (Bot1.extracted_data loc) (Bot1.concursos_data loc) w
      (Bot1.extracted_data (fst r)) (Bot1.concursos_data (fst r)) (snd r).
Proof.
  induction ts as [|t ts IH]; simpl.
  - apply ran_nil.
  - destruct (contains t tl); [|exact IH].
    unfold ran, emit, bind, datetime_now, new_dict, ret; simpl.
    unfold hit_high; simpl. rewrite Nat.add_1_r.
    destruct (is_ALTO (impacto info)); simpl; rewrite ?app_nil_r; auto.
Qed.

Lemma bot1_categoria_loop pdf_path i top tc tl kw loc w :
  let r := Bot1.categoria_loop pdf_path i top tc tl kw loc w in
  ran (bot1_entry pdf_path) (flat_map (categoria_hits i top tc tl) kw)
      (Bot1.extracted_data loc) (Bot1.concursos_data loc) w
      (Bot1.extracted_data (fst r)) (Bot1.concursos_data (fst r)) (snd r).
Proof.
  revert loc w; induction kw as [|[cat info] kw IH]; intros loc w; simpl.
  - apply ran_nil.
  - unfold bind.
    pose proof (bot1_termo_loop pdf_path i top tc tl cat info
                  (termos info) loc w) as H1.
    cbv zeta in H1.
    destruct (Bot1.termo_loop pdf_path i top tc tl cat info (termos info)
                loc w) as [loc1 w1].
    eapply ran_app; [exact H1|]. apply IH.
Qed.

Lemma bot1_page_loop self pdf_path pages i loc w :
  let r := Bot1.page_loop self pdf_path pages i loc w in
  ran (bot1_entry pdf_path) (doc_hits (keywords self) i pages)
      (Bot1.extracted_data loc) (Bot1.concursos_data loc) w
      (Bot1.extracted_data (fst r)) (Bot1.concursos_data (fst r)) (snd r).
Proof.
  revert i loc w; induction pages as [|text pages IH]; intros i loc w; simpl.
  - apply ran_nil.
  - unfold page_hits. destruct (falsy text); simpl.
    + apply IH.
    + unfold bind.
      match goal with |- context [Bot1.categoria_loop ?a ?b ?c ?d ?e ?f ?g ?h] =>
        pose proof (bot1_categoria_loop a b c d e f g h) as H1;
        cbv zeta in H1;
        destruct (Bot1.categoria_loop a b c d e f g h) as [loc1 w1]
      end.
      eapply ran_app; [exact H1|]. apply IH.
Qed.

Lemma bot1_analyze_pdf self pdf_path pages w :
  let hits := doc_hits (keywords self) 0 pages in
  Bot1.analyze_pdf self pdf_path pages w =
  (seq (length (heap w)) (length hits), high_refs (length (heap w)) hits,
   emit (bot1_entry pdf_path) hits
        (snd (print (py "Analisando: " ++ basename pdf_path) w))).
Proof.
  intros hits. unfold Bot1.analyze_pdf, bind, ret, print. cbv beta iota.
  match goal with |- context [Bot1.page_loop ?a ?b ?c ?d ?e ?f] =>
    pose proof (bot1_page_loop a b c d e f) as H; cbv zeta in H;
    destruct (Bot1.page_loop a b c d e f) as [loc1 w1]
  end.
  unfold ran in H.
  cbn [fst snd heap Bot1.extracted_data Bot1.concursos_data app] in H.
  destruct H as (E1 & E2 & E3). rewrite E1, E2, E3. reflexivity.
Qed.

(** ** [bot.py] *)

Lemma bot_termo_loop i top tc tl cat info ts loc w :
  let r := Bot.termo_loop i top tc tl cat info ts loc w in
  ran bot_entry
      (match first_term tl ts with
       | Some t => [mkHit i top cat info t (snippet_of tc tl t)]
       | None => []
       end)
      (Bot.extracted_data loc) (Bot.concursos_data loc) w
      (Bot.extracted_data (fst r)) (Bot.concursos_data (fst r)) (snd r).
Proof.
  induction ts as [|t ts IH]; simpl.
  - apply ran_nil.
  - destruct (contains t tl); [|exact IH].
    unfold ran, emit, bind, datetime_now, new_dict, ret; simpl.
    unfold hit_high; simpl. rewrite Nat.add_1_r.
    destruct (is_ALTO (impacto info)); simpl; rewrite ?app_nil_r; auto.
    destruct (is_MEDIO (impacto info) && negb (is_ALTO (Bot.impact_level loc)));
      simpl; auto.
Qed.

Lemma bot_categoria_loop i top tc tl kw loc w :
  let r := Bot.categoria_loop i top tc tl kw loc w in
  ran bot_entry (flat_map (categoria_hits i top tc tl) kw)
      (Bot.extracted_data loc) (Bot.concursos_data loc) w
      (Bot.extracted_data (fst r)) (Bot.concursos_data (fst r)) (snd r).
Proof.
  revert loc w; induction kw as [|[cat info] kw IH]; intros loc w; simpl.
  - apply ran_nil.
  - unfold bind.
    pose proof (bot_termo_loop i top tc tl cat info (termos info) loc w)
      as H1.
    cbv zeta in H1.
    destruct (Bot.termo_loop i top tc tl cat info (termos info) loc w)
      as [loc1 w1].
    eapply ran_app; [exact H1|]. apply IH.
Qed.

Lemma bot_page_loop self pages i loc w :
  let r := Bot.page_loop self pages i loc w in
  ran bot_entry (doc_hits (keywords self) i pages)
      (Bot.extracted_data loc) (Bot.concursos_data loc) w
      (Bot.extracted_data (fst r)) (Bot.concursos_data (fst r)) (snd r).
Proof.
  revert i loc w; induction pages as [|text pages IH]; intros i loc w; simpl.
  - apply ran_nil.
  - unfold page_hits. destruct (falsy text); simpl.
    + apply IH.
    + unfold bind.
      match goal with |- context [Bot.categoria_loop ?a ?b ?c ?d ?e ?f ?g] =>
        pose proof (bot_categoria_loop a b c d e f g) as H1;
        cbv zeta in H1;
        destruct (Bot.categoria_loop a b c d e f g) as [loc1 w1]
      end.
      eapply ran_app; [exact H1|]. apply IH.
Qed.

Lemma bot_analyze_pdf self pdf_path pages w :
  let hits := doc_hits (keywords self) 0 pages in
  Bot.analyze_pdf self pdf_path pages w =
  (seq (length (heap w)) (length hits), high_refs (length (heap w)) hits,
   emit bot_entry hits
        (snd (print (py "Total de páginas: " ++
                     str_of_N (N.of_nat (length pages)))
                (snd (print (py "Processando arquivo: " ++
                             basename pdf_path) w))))).
Proof.
  intros hits. unfold Bot.analyze_pdf, bind, ret, print. cbv beta iota.
  match goal with |- context [Bot.page_loop ?a ?b ?c ?d ?e] =>
    pose proof (bot_page_loop a b c d e) as H; cbv zeta in H;
    destruct (Bot.page_loop a b c d e) as [loc1 w1]
  end.
  unfold ran in H.
  cbn [fst snd heap Bot.extracted_data Bot.concursos_data app] in H.
  destruct H as (E1 & E2 & E3). rewrite E1, E2, E3. reflexivity.
Qed.

End Refinement.

(* ================================================================== *)
(** * Reading the result lists back *)
(* ================================================================== *)

Lemma deref_fresh (l0 l : list dict) :
  map (deref (l0 ++ l)) (seq (length l0) (length l)) = l.
Proof.
  revert l0; induction l as [|x l IH]; intros l0; simpl; [reflexivity|].
  f_equal.
  - unfold deref. rewrite nth_middle. reflexivity.
  - specialize (IH (l0 ++ [x])).
    rewrite <- app_assoc, length_app, Nat.add_1_r in IH. exact IH.
Qed.

Lemma map_filter_comm {A B} (D : A -> B) (P : B -> bool) (l : list A) :
  map D (filter (fun a => P (D a)) l) = filter P (map D l).
Proof.
  induction l as [|a l IH]; simpl; [reflexivity|].
  destruct (P (D a)); simpl; rewrite IH; reflexivity.
Qed.

Lemma high_refs_filter mk c :
  (forall h d, is_high (mk h d) = hit_high h) ->
  forall hits t l0,
  high_refs (length l0) hits =
  filter (fun r => is_high (deref (l0 ++ allocate mk c t hits) r))
         (seq (length l0) (length hits)).
Proof.
  intros Hmk; induction hits as [|h hits IH]; intros t l0; simpl;
    [reflexivity|].
  unfold deref at 1. rewrite nth_middle, Hmk.
  specialize (IH (S t) (l0 ++ [mk h (c t)])).
  rewrite <- app_assoc, length_app, Nat.add_1_r in IH. simpl in IH.
  rewrite IH. destruct (hit_high h); reflexivity.
Qed.

Lemma allocate_view {A} mk c (F : dict -> A) (G : hit -> A)
    (P : dict -> bool) (Q : hit -> bool) :
  (forall h d, F (mk h d) = G h) ->
  (forall h d, P (mk h d) = Q h) ->
  forall hits t,
  map F (filter P (allocate mk c t hits)) = map G (filter Q hits).
Proof.
  intros HF HP; induction hits as [|h hits IH]; intros t; simpl;
    [reflexivity|].
  rewrite HP. destruct (Q h); simpl; rewrite ?HF, IH; reflexivity.
Qed.

Section Pages.
Context {U : UnicodeDB}.

Lemma page_hits_page kw i j text :
  filter (fun h => (hit_page h =? i)%nat) (page_hits kw j text) =
  if (j =? i)%nat then page_hits kw j text else [].
Proof.
  unfold page_hits. destruct (falsy text); [destruct (j =? i)%nat; reflexivity|].
  cbv zeta.
  generalize (topico match text with Some t => t | None => [] end)
             (clean_text text) (lower (clean_text text)).
  intros top tc tl. induction kw as [|c kw IH]; simpl.
  - destruct (j =? i)%nat; reflexivity.
  - rewrite filter_app, IH. unfold categoria_hits at 1 3.
    destruct (first_term tl (termos (snd c))); simpl;
      destruct (j =? i)%nat; reflexivity.
Qed.

Lemma doc_hits_page kw i pages j :
  filter (fun h => (hit_page h =? i)%nat) (doc_hits kw j pages) =
  if (j <=? i)%nat then page_hits kw i (nth (i - j) pages None) else [].
Proof.
  revert j; induction pages as [|text pages IH]; intros j; simpl.
  - destruct (j <=? i)%nat; [destruct (i - j)|]; reflexivity.
  - rewrite filter_app, page_hits_page, IH.
    destruct (Nat.eqb_spec j i) as [->|Hne].
    + rewrite Nat.leb_refl, Nat.sub_diag.
      replace (S i <=? i)%nat with false by (symmetry; apply Nat.leb_gt; lia).
      apply app_nil_r.
    + destruct (Nat.leb_spec j i), (Nat.leb_spec (S j) i);
        try lia; simpl; [|reflexivity].
      replace (i - j) with (S (i - S j)) by lia. reflexivity.
Qed.

Lemma page_hits_matches kw i text :
  map (fun h => (hit_categoria h, hit_termo h)) (page_hits kw i text) =
  page_matches kw text.
Proof.
  unfold page_hits, page_matches. destruct (falsy text); [reflexivity|].
  cbv zeta. induction kw as [|c kw IH]; simpl; [reflexivity|].
  rewrite map_app, IH. unfold categoria_hits.
  destruct (first_term _ (termos (snd c))); reflexivity.
Qed.

Lemma page_matches_categories kw text :
  NoDup (map fst kw) ->
  NoDup (map fst (page_matches kw text)) /\
  length (page_matches kw text) <= length kw /\
  incl (map fst (page_matches kw text)) (map fst kw).
Proof.
  unfold page_matches. destruct (falsy text).
  { intros _; simpl. repeat split; [constructor | lia | intros x []]. }
  cbv zeta. generalize (lower (clean_text text)); intros tl.
  induction kw as [|c kw IH]; simpl; intros ND.
  - repeat split; [constructor | lia | intros x []].
  - inversion ND as [|x l Hnin ND']; subst.
    destruct (IH ND') as (IH1 & IH2 & IH3).
    destruct (first_term tl (termos (snd c))); simpl.
    + repeat split; [| lia |].
      * constructor; [|exact IH1]. intros Hin; apply Hnin, IH3, Hin.
      * intros x [<-|Hx]; [left; reflexivity | right; apply IH3, Hx].
    + repeat split; [exact IH1 | lia |].
      intros x Hx; right; apply IH3, Hx.
Qed.

End Pages.

Section Findings.
Context {U : UnicodeDB}.

Lemma on_page_eqb (p i : nat) :
  (Z.of_nat p + 1 =? Z.of_nat i + 1)%Z = (p =? i)%nat.
Proof.
  destruct (Nat.eqb_spec p i) as [->|Hne].
  - apply Z.eqb_refl.
  - apply Z.eqb_neq. lia.
Qed.

Lemma bot_entry_high h d : is_high (bot_entry h d) = hit_high h.
Proof. reflexivity. Qed.

Lemma bot1_entry_high p h d : is_high (bot1_entry p h d) = hit_high h.
Proof. reflexivity. Qed.

Lemma bot_entry_page i h d :
  on_page i (bot_entry h d) = (hit_page h =? i)%nat.
Proof. unfold on_page; simpl. apply on_page_eqb. Qed.

Lemma bot1_entry_page p i h d :
  on_page i (bot1_entry p h d) = (hit_page h =? i)%nat.
Proof. unfold on_page; simpl. apply on_page_eqb. Qed.

(** The records behind the two lists that [analyze_pdf] returns. *)
Lemma bot_findings self pdf_path pages w :
  let entries := allocate bot_entry (clock w) (ticks w)
                          (doc_hits (keywords self) 0 pages) in
  findings (Bot.analyze_pdf self pdf_path pages w) =
  (entries, filter is_high entries).
Proof.
  intros entries. rewrite bot_analyze_pdf. unfold findings, emit, print.
  cbn [snd heap clock ticks].
  rewrite (high_refs_filter bot_entry (clock w) bot_entry_high _ (ticks w)).
  rewrite (map_filter_comm (deref _) is_high).
  rewrite <- (allocate_length bot_entry (clock w) (ticks w)).
  rewrite deref_fresh. reflexivity.
Qed.

Lemma bot1_findings self pdf_path pages w :
  let entries := allocate (bot1_entry pdf_path) (clock w) (ticks w)
                          (doc_hits (keywords self) 0 pages) in
  findings (Bot1.analyze_pdf self pdf_path pages w) =
  (entries, filter is_high entries).
Proof.
  intros entries. rewrite bot1_analyze_pdf. unfold findings, emit, print.
  cbn [snd heap clock ticks].
  rewrite (high_refs_filter (bot1_entry pdf_path) (clock w)
             (bot1_entry_high pdf_path) _ (ticks w)).
  rewrite (map_filter_comm (deref _) is_high).
  rewrite <- (allocate_length (bot1_entry pdf_path) (clock w) (ticks w)).
  rewrite deref_fresh. reflexivity.
Qed.

End Findings.

(* ================================================================== *)
(** * The high-impact list *)
(* ================================================================== *)

(** C1.  Whatever the document, the second list returned by
    [analyze_pdf] is the first one filtered on impact ALTO: the very
    same references (hence the same dict objects), in the same order,
    and no reference occurs twice in the first list.  This holds for
    [bot.py] and for [bot1.py]. *)
Theorem high_impact_is_filtered_view :
  forall (U : UnicodeDB) (self : DOEProcessor) (pdf_path : str)
         (pages : list (option str)) (w : world),
    (let '(all, high, w') := Bot.analyze_pdf self pdf_path pages w in
     high = filter (fun r => is_high (deref (heap w') r)) all /\
     NoDup all /\
     map (deref (heap w')) high = filter is_high (map (deref (heap w')) all))
    /\
    (let '(all, high, w') := Bot1.analyze_pdf self pdf_path pages w in
     high = filter (fun r => is_high (deref (heap w') r)) all /\
     NoDup all /\
     map (deref (heap w')) high = filter is_high (map (deref (heap w')) all)).
Proof.
  intros U self pdf_path pages w. split.
  - rewrite bot_analyze_pdf. unfold emit, print. cbn [snd heap clock ticks].
    assert (E := high_refs_filter bot_entry (clock w) bot_entry_high
                   (doc_hits (keywords self) 0 pages) (ticks w) (heap w)).
    split; [exact E|]. split; [apply seq_NoDup|].
    rewrite E at 1. apply map_filter_comm.
  - rewrite bot1_analyze_pdf. unfold emit, print. cbn [snd heap clock ticks].
    assert (E := high_refs_filter (bot1_entry pdf_path) (clock w)
                   (bot1_entry_high pdf_path)
                   (doc_hits (keywords self) 0 pages) (ticks w) (heap w)).
    split; [exact E|]. split; [apply seq_NoDup|].
    rewrite E at 1. apply map_filter_comm.
Qed.

(* ================================================================== *)
(** * One finding per category and page *)
(* ================================================================== *)

Section PerPage.
Context {U : UnicodeDB}.

(** The pairs (category, term) of the records allocated for the page
    [i] are the matches of that page. *)
Lemma entries_on_page mk c t kw pages i :
  (forall h d, on_page i (mk h d) = (hit_page h =? i)%nat) ->
  (forall h d, field_str "categoria" (mk h d) = hit_categoria h) ->
  (forall h d, field_str "termo_encontrado" (mk h d) = hit_termo h) ->
  map (fun d => (field_str "categoria" d, field_str "termo_encontrado" d))
      (filter (on_page i) (allocate mk c t (doc_hits kw 0 pages))) =
  page_matches kw (nth i pages None).
Proof.
  intros Hp Hc Ht.
  rewrite (allocate_view mk c
             (fun d => (field_str "categoria" d,
                        field_str "termo_encontrado" d))
             (fun h => (hit_categoria h, hit_termo h))
             (on_page i) (fun h => (hit_page h =? i)%nat)).
  - rewrite doc_hits_page. simpl. rewrite Nat.sub_0_r.
    apply page_hits_matches.
  - intros h d. rewrite Hc, Ht. reflexivity.
  - exact Hp.
Qed.

Lemma at_most_one_per_category kw text (on : list dict) :
  NoDup (map fst kw) ->
  map (fun d => (field_str "categoria" d, field_str "termo_encontrado" d))
      on = page_matches kw text ->
  NoDup (map (field_str "categoria") on) /\ length on <= length kw.
Proof.
  intros ND E. destruct (page_matches_categories kw text ND) as (H1 & H2 & _).
  rewrite <- E in H1, H2. rewrite map_map in H1. rewrite length_map in H2.
  simpl in H1. split; assumption.
Qed.

End PerPage.

(** C2.  For every catalog (a dict: its keys are distinct), every
    document and every page [i] of it, the findings of that page are,
    in catalog order, one per category that has a term occurring in
    the lower-cased text, with the first such term of the category;
    so no category occurs twice among them and there are at most
    [len(catalog)] of them.  This holds for [bot.py] and [bot1.py]. *)
Theorem one_finding_per_category_and_page :
  forall (U : UnicodeDB) (self : DOEProcessor) (pdf_path : str)
         (pages : list (option str)) (w : world) (i : nat),
    NoDup (map fst (keywords self)) ->
    (let on := filter (on_page i)
                 (fst (findings (Bot.analyze_pdf self pdf_path pages w))) in
     map (fun d => (field_str "categoria" d,
                    field_str "termo_encontrado" d)) on =
       page_matches (keywords self) (nth i pages None) /\
     NoDup (map (field_str "categoria") on) /\
     length on <= length (keywords self))
    /\
    (let on := filter (on_page i)
                 (fst (findings (Bot1.analyze_pdf self pdf_path pages w))) in
     map (fun d => (field_str "categoria" d,
                    field_str "termo_encontrado" d)) on =
       page_matches (keywords self) (nth i pages None) /\
     NoDup (map (field_str "categoria") on) /\
     length on <= length (keywords self)).
Proof.
  intros U self pdf_path pages w i ND. split.
  - rewrite bot_findings. cbv zeta. cbn [fst].
    assert (E := entries_on_page bot_entry (clock w) (ticks w)
                   (keywords self) pages i
                   (bot_entry_page i) (fun _ _ => eq_refl)
                   (fun _ _ => eq_refl)).
    split; [exact E|]. exact (at_most_one_per_category _ _ _ ND E).
  - rewrite bot1_findings. cbv zeta. cbn [fst].
    assert (E := entries_on_page (bot1_entry pdf_path) (clock w) (ticks w)
                   (keywords self) pages i
                   (bot1_entry_page pdf_path i) (fun _ _ => eq_refl)
                   (fun _ _ => eq_refl)).
    split; [exact E|]. exact (at_most_one_per_category _ _ _ ND E).
Qed.

Ltac nodup_strs :=
  vm_compute;
  repeat (constructor;
          [let H := fresh in
           intros H; simpl in H;
           repeat (destruct H as [H|H]; [discriminate H|]); exact H|]);
  constructor.

Lemma one_finding_per_category_and_page_witness :
  NoDup (map fst (keywords (Bot.init Sample.cwd))) /\
  length (filter (on_page 0)
            (fst (findings (Bot.analyze_pdf (Bot.init Sample.cwd)
                              Sample.pdf_path [Some Sample.health_page]
                              Sample.w0)))) <=
  length (keywords (Bot.init Sample.cwd)).
Proof.
  assert (ND : NoDup (map fst (keywords (Bot.init Sample.cwd))))
    by nodup_strs.
  split; [exact ND|].
  exact (proj2 (proj2 (proj1
           (one_finding_per_category_and_page Latin1 (Bot.init Sample.cwd)
              Sample.pdf_path [Some Sample.health_page] Sample.w0 0 ND)))).
Defined.

(* ================================================================== *)
(** * [clean_text] *)
(* ================================================================== *)

Section Normalizer.
Context {U : UnicodeDB}.

Lemma split_run_words cur s :
  Forall (fun c => ISSPACE c = false) cur ->
  Forall word (split_run cur s).
Proof.
  revert cur; induction s as [|c s IH]; intros cur Hcur; simpl.
  - destruct cur as [|x cur]; constructor; [|constructor].
    split.
    + intros E. apply (f_equal (@length N)) in E.
      rewrite length_rev in E. discriminate.
    + apply Forall_rev, Hcur.
  - destruct (ISSPACE c) eqn:Ec.
    + destruct cur as [|x cur]; [apply IH; constructor|].
      constructor; [|apply IH; constructor].
      split.
      * intros E. apply (f_equal (@length N)) in E.
        rewrite length_rev in E. discriminate.
      * apply Forall_rev, Hcur.
    + apply IH. constructor; assumption.
Qed.

Lemma split_run_word cur w rest :
  Forall (fun c => ISSPACE c = false) w ->
  split_run cur (w ++ rest) = split_run (rev w ++ cur) rest.
Proof.
  revert cur; induction w as [|c w IH]; intros cur Hw; simpl;
    [reflexivity|].
  inversion Hw as [|? ? Hc Hw']; subst. rewrite Hc, IH by assumption.
  rewrite <- app_assoc. reflexivity.
Qed.

Lemma split_join ws :
  Forall word ws -> split (join (py " ") ws) = ws.
Proof.
  unfold split. change (py " ") with [32%N].
  induction ws as [|x ws IH]; intros Hws; [reflexivity|].
  inversion Hws as [|? ? [Hne Hx] Hws']; subst.
  destruct ws as [|y ws].
  - simpl. rewrite <- (app_nil_r x) at 1.
    rewrite split_run_word, app_nil_r by assumption. simpl.
    destruct (rev x) eqn:Er.
    + apply (f_equal (@rev N)) in Er. rewrite rev_involutive in Er.
      contradiction.
    + rewrite <- Er, rev_involutive. reflexivity.
  - change (join [32%N] (x :: y :: ws))
      with (x ++ 32%N :: join [32%N] (y :: ws)).
    rewrite split_run_word, app_nil_r by assumption.
    simpl split_run. rewrite ISSPACE_SP.
    destruct (rev x) eqn:Er.
    + apply (f_equal (@rev N)) in Er. rewrite rev_involutive in Er.
      contradiction.
    + rewrite <- Er, rev_involutive. f_equal. apply IH; assumption.
Qed.

End Normalizer.

(** C8.  [clean_text] is idempotent, for every text and also for
    [None]: cleaning what [clean_text] returned gives it back.  The
    result of [clean_text] is the words of the text joined by single
    spaces, and the empty string for [None] and for the empty text. *)
Theorem clean_text_idempotent :
  forall (U : UnicodeDB) (x : option str),
    clean_text (Some (clean_text x)) = clean_text x /\
    clean_text None = [] /\
    clean_text (Some []) = [] /\
    (forall t, clean_text (Some t) = join (py " ") (split t) /\
               Forall word (split t)).
Proof.
  intros U x.
  assert (W : forall t, Forall word (split t))
    by (intros t; apply split_run_words; constructor).
  assert (E : forall t, clean_text (Some t) = join (py " ") (split t)).
  { intros [|c t]; reflexivity. }
  repeat split; auto.
  destruct x as [t|]; [|reflexivity].
  rewrite !E, split_join by apply W. reflexivity.
Qed.

(* ================================================================== *)
(** * The example of the specification *)
(* ================================================================== *)

(** C6.  For the single page "SECRETARIA DE SAÚDE", newline, "Abertura
    de concurso público para vagas." and the catalog of [bot.py], the
    heading is "SECRETARIA DE SAÚDE" and [analyze_pdf] returns exactly
    two findings: CONCURSOS_SELECOES with term "concurso público" and
    impact ALTO, then SAUDE_BIOTEC with term "secretaria de saúde" and
    impact MEDIO; only the first is in the high-impact list. *)
Theorem health_page_example :
  topico Sample.health_page = py "SECRETARIA DE SAÚDE" /\
  let '(all, high) :=
    findings (Bot.analyze_pdf (Bot.init Sample.cwd) Sample.pdf_path
                              [Some Sample.health_page] Sample.w0) in
  map (fun d => (field_str "topico_detectado" d, field_str "categoria" d,
                 field_str "termo_encontrado" d, field_str "impacto" d))
      all =
    [ (py "SECRETARIA DE SAÚDE", py "CONCURSOS_SELECOES",
       py "concurso público", py "ALTO");
      (py "SECRETARIA DE SAÚDE", py "SAUDE_BIOTEC",
       py "secretaria de saúde", py "MEDIO") ] /\
  map (field_str "categoria") high = [py "CONCURSOS_SELECOES"].
Proof. vm_compute. repeat split. Qed.

(* ================================================================== *)
(** * Determinism *)
(* ================================================================== *)

Lemma strftime_Ymd_date d1 d2 :
  date_of d1 = date_of d2 -> strftime_Ymd d1 = strftime_Ymd d2.
Proof.
  unfold date_of, strftime_Ymd. intros E; injection E as -> -> ->.
  reflexivity.
Qed.

Lemma allocate_ext mk c1 c2 hits :
  forall t1 t2,
  (forall h n, mk h (c1 (t1 + n)) = mk h (c2 (t2 + n))) ->
  allocate mk c1 t1 hits = allocate mk c2 t2 hits.
Proof.
  induction hits as [|h hits IH]; intros t1 t2 E; simpl; [reflexivity|].
  f_equal.
  - specialize (E h 0). rewrite !Nat.add_0_r in E. exact E.
  - apply IH. intros h' n. specialize (E h' (S n)).
    rewrite !Nat.add_succ_r in E. exact E.
Qed.

Lemma emit_keeps mk hits w :
  files (emit mk hits w) = files w /\
  clock (emit mk hits w) = clock w /\
  firstn (length (heap w)) (heap (emit mk hits w)) = heap w.
Proof.
  unfold emit; simpl. repeat split.
  rewrite firstn_app, Nat.sub_diag, firstn_all. simpl. apply app_nil_r.
Qed.

(** C10.  Two runs of [analyze_pdf] on the same page texts with the
    same catalog, in two worlds whose clocks show the same day at every
    reading, return the same findings and the same high-impact
    findings, whatever else differs between the worlds (objects already
    allocated, output, files, time of day).  A run writes no file and
    leaves every object that existed before it as it was.  This holds
    for [bot.py] and for [bot1.py]. *)
Theorem analyze_pdf_deterministic :
  forall (U : UnicodeDB) (self : DOEProcessor) (pdf_path : str)
         (pages : list (option str)) (w1 w2 : world) (today : N * N * N),
    (forall n, date_of (clock w1 n) = today) ->
    (forall n, date_of (clock w2 n) = today) ->
    (findings (Bot.analyze_pdf self pdf_path pages w1) =
     findings (Bot.analyze_pdf self pdf_path pages w2) /\
     let w' := snd (Bot.analyze_pdf self pdf_path pages w1) in
     files w' = files w1 /\
     firstn (length (heap w1)) (heap w') = heap w1)
    /\
    (findings (Bot1.analyze_pdf self pdf_path pages w1) =
     findings (Bot1.analyze_pdf self pdf_path pages w2) /\
     let w' := snd (Bot1.analyze_pdf self pdf_path pages w1) in
     files w' = files w1 /\
     firstn (length (heap w1)) (heap w') = heap w1).
Proof.
  intros U self pdf_path pages w1 w2 today H1 H2.
  assert (D : forall n m,
             strftime_Ymd (clock w1 n) = strftime_Ymd (clock w2 m)).
  { intros n m. apply strftime_Ymd_date. rewrite H1, H2. reflexivity. }
  split; split.
  - rewrite !bot_findings. cbv zeta.
    rewrite (allocate_ext bot_entry (clock w1) (clock w2) _
               (ticks w1) (ticks w2)); [reflexivity|].
    intros h n. unfold bot_entry. rewrite (D (ticks w1 + n) (ticks w2 + n)).
    reflexivity.
  - rewrite bot_analyze_pdf. cbv zeta. cbn [snd].
    match goal with |- context [emit ?mk ?hits ?w] =>
      destruct (emit_keeps mk hits w) as (Ef & _ & Eh) end.
    split; [exact Ef | exact Eh].
  - rewrite !bot1_findings. cbv zeta.
    rewrite (allocate_ext (bot1_entry pdf_path) (clock w1) (clock w2) _
               (ticks w1) (ticks w2)); [reflexivity|].
    intros h n. unfold bot1_entry, bot_entry.
    rewrite (D (ticks w1 + n) (ticks w2 + n)). reflexivity.
  - rewrite bot1_analyze_pdf. cbv zeta. cbn [snd].
    match goal with |- context [emit ?mk ?hits ?w] =>
      destruct (emit_keeps mk hits w) as (Ef & _ & Eh) end.
    split; [exact Ef | exact Eh].
Qed.

Lemma analyze_pdf_deterministic_witness :
  (forall n, date_of (clock Sample.w0 n) = (2025, 1, 2)%N) /\
  (forall n, date_of (clock Sample.w1 n) = (2025, 1, 2)%N) /\
  findings (Bot1.analyze_pdf (Bot1.init Sample.cwd) Sample.pdf_path
                             [Some Sample.health_page] Sample.w0) =
  findings (Bot1.analyze_pdf (Bot1.init Sample.cwd) Sample.pdf_path
                             [Some Sample.health_page] Sample.w1).
Proof.
  assert (H0 : forall n, date_of (clock Sample.w0 n) = (2025, 1, 2)%N)
    by (intros n; reflexivity).
  assert (H1 : forall n, date_of (clock Sample.w1 n) = (2025, 1, 2)%N)
    by (intros n; reflexivity).
  split; [exact H0|]. split; [exact H1|].
  exact (proj1 (proj2
           (@analyze_pdf_deterministic Latin1 (Bot1.init Sample.cwd)
              Sample.pdf_path [Some Sample.health_page]
              Sample.w0 Sample.w1 (2025, 1, 2)%N H0 H1))).
Defined.

(* ================================================================== *)
(** * The heading heuristic *)
(* ================================================================== *)

Section Topic.
Context {U : UnicodeDB}.

Lemma topico_loop_find lines dflt :
  topico_loop lines dflt =
  match List.find Spec.qualifies lines with
  | Some line => line
  | None => dflt
  end.
Proof.
  induction lines as [|line lines IH]; simpl; [reflexivity|].
  unfold Spec.qualifies at 1. destruct (isupper line && (5 <? len line)%Z);
    [reflexivity | exact IH].
Qed.

Lemma page_hits_topico kw i text :
  map hit_topico (page_hits kw i text) =
  map (fun _ => topico match text with Some t => t | None => [] end)
      (page_hits kw i text).
Proof.
  unfold page_hits. destruct (falsy text); [reflexivity|]. cbv zeta.
  induction kw as [|c kw IH]; simpl; [reflexivity|].
  rewrite !map_app, IH. unfold categoria_hits.
  destruct (first_term _ (termos (snd c))); reflexivity.
Qed.

Lemma topics_on_page mk c t kw pages i :
  (forall h d, on_page i (mk h d) = (hit_page h =? i)%nat) ->
  (forall h d, field_str "topico_detectado" (mk h d) = hit_topico h) ->
  let on := filter (on_page i) (allocate mk c t (doc_hits kw 0 pages)) in
  map (field_str "topico_detectado") on =
  map (fun _ => topico match nth i pages None with
                       | Some t => t
                       | None => []
                       end) on.
Proof.
  intros Hp Ht on. unfold on.
  rewrite (allocate_view mk c (field_str "topico_detectado") hit_topico
             (on_page i) (fun h => (hit_page h =? i)%nat) Ht Hp).
  rewrite (allocate_view mk c
             (fun _ : dict => topico match nth i pages None with
                                     | Some t => t
                                     | None => []
                                     end)
             (fun _ : hit => topico match nth i pages None with
                                    | Some t => t
                                    | None => []
                                    end)
             (on_page i) (fun h => (hit_page h =? i)%nat)
             (fun _ _ => eq_refl) Hp).
  rewrite doc_hits_page. simpl. rewrite Nat.sub_0_r.
  apply page_hits_topico.
Qed.

End Topic.

(** C4, as the code has it.  The heading of a page is looked for among
    the first 5 lines of the raw text, where the lines are the pieces
    between newline characters, empty ones included: the first of them
    that [isupper()] accepts and that is longer than 5 characters is
    the heading, and "GERAL" is the heading if there is none.  Every
    finding of the page carries that heading.  This holds for [bot.py]
    and for [bot1.py]. *)
Theorem topic_is_first_heading_of_first_five_lines :
  forall (U : UnicodeDB) (self : DOEProcessor) (pdf_path : str)
         (pages : list (option str)) (w : world) (i : nat),
    (forall text,
       topico text =
       match List.find Spec.qualifies (firstn 5 (split_sep 10 text)) with
       | Some line => line
       | None => py "GERAL"
       end) /\
    (let on := filter (on_page i)
                 (fst (findings (Bot.analyze_pdf self pdf_path pages w))) in
     map (field_str "topico_detectado") on =
     map (fun _ => topico match nth i pages None with
                          | Some t => t
                          | None => []
                          end) on) /\
    (let on := filter (on_page i)
                 (fst (findings (Bot1.analyze_pdf self pdf_path pages w))) in
     map (field_str "topico_detectado") on =
     map (fun _ => topico match nth i pages None with
                          | Some t => t
                          | None => []
                          end) on).
Proof.
  intros U self pdf_path pages w i. split; [|split].
  - intros text. unfold topico. apply topico_loop_find.
  - rewrite bot_findings. cbv zeta. cbn [fst].
    apply (topics_on_page bot_entry (clock w) (ticks w) (keywords self)
             pages i (bot_entry_page i) (fun _ _ => eq_refl)).
  - rewrite bot1_findings. cbv zeta. cbn [fst].
    apply (topics_on_page (bot1_entry pdf_path) (clock w) (ticks w)
             (keywords self) pages i (bot1_entry_page pdf_path i)
             (fun _ _ => eq_refl)).
Qed.

(** A page whose heading comes after five empty lines: the first five
    non-empty lines contain the heading, the first five lines do not,
    and the finding of that page is filed under "GERAL". *)
Lemma topic_label_counterexample :
  Spec.topic_label Sample.late_heading_page = py "GOVERNO DO ESTADO" /\
  topico Sample.late_heading_page = py "GERAL" /\
  topico Sample.late_heading_page <> Spec.topic_label Sample.late_heading_page /\
  map (fun d => (field_str "termo_encontrado" d,
                 field_str "topico_detectado" d))
      (fst (findings (Bot.analyze_pdf (Bot.init Sample.cwd) Sample.pdf_path
                        [Some Sample.late_heading_page] Sample.w0))) =
  [(py "nomeação", py "GERAL")].
Proof.
  vm_compute. split; [reflexivity|]. split; [reflexivity|].
  split; [intros H; discriminate H | reflexivity].
Qed.

(* ================================================================== *)
(** * The context snippet *)
(* ================================================================== *)

Lemma forallb_shift (f : nat -> bool) (l : list nat) :
  forallb f (map S l) = forallb (fun j => f (S j)) l.
Proof. induction l; simpl; [|rewrite IHl]; reflexivity. Qed.

Lemma find_from_first t s :
  contains t s = true ->
  forall i, exists n,
    find_from t s i = (i + Z.of_nat n)%Z /\
    occurs_at t s n = true /\
    forallb (fun j => negb (occurs_at t s j)) (seq 0 n) = true.
Proof.
  induction s as [|c s IH]; intros Hc i.
  - exists 0. simpl in *. rewrite orb_false_r in Hc. rewrite Hc.
    unfold occurs_at; simpl. rewrite Hc. repeat split. lia.
  - simpl find_from. destruct (starts_with t (c :: s)) eqn:Es.
    + exists 0. unfold occurs_at; simpl skipn. rewrite Es.
      repeat split. lia.
    + simpl in Hc. change (match t with
                           | [] => true
                           | a :: t' => (a =? c)%N && starts_with t' s
                           end) with (starts_with t (c :: s)) in Hc.
      rewrite Es in Hc. simpl in Hc.
      destruct (IH Hc (i + 1)%Z) as (n & E & Ho & Hb).
      exists (S n). split; [rewrite E; lia|]. split; [exact Ho|].
      simpl seq. simpl forallb. unfold occurs_at at 1. simpl skipn.
      rewrite Es. simpl. rewrite <- seq_shift, forallb_shift. exact Hb.
Qed.

Lemma find_first_occurrence t s :
  contains t s = true -> first_occurrence t s (find t s) = true.
Proof.
  intros Hc. destruct (find_from_first t s Hc 0) as (n & E & Ho & Hb).
  unfold first_occurrence, find. rewrite E. simpl Z.add.
  rewrite Nat2Z.id, Ho, Hb.
  replace (0 <=? Z.of_nat n)%Z with true by (symmetry; apply Z.leb_le; lia).
  reflexivity.
Qed.

Lemma first_term_contains tl ts t :
  first_term tl ts = Some t -> contains t tl = true.
Proof.
  induction ts as [|x ts IH]; simpl; [discriminate|].
  destruct (contains x tl) eqn:E; [|exact IH].
  intros H; injection H as <-. exact E.
Qed.

Section Snippet.
Context {U : UnicodeDB}.

Lemma page_hits_snippets kw i text :
  map (fun h => (hit_categoria h, hit_termo h,
                 strip (hit_window h) ++ py "..."))
      (page_hits kw i text) =
  map (fun ct => (fst ct, snd ct,
                  stored_snippet (clean_text text)
                                 (lower (clean_text text)) (snd ct)))
      (page_matches kw text).
Proof.
  unfold page_hits, page_matches. destruct (falsy text); [reflexivity|].
  cbv zeta. induction kw as [|c kw IH]; simpl; [reflexivity|].
  rewrite !map_app, IH. unfold categoria_hits.
  destruct (first_term _ (termos (snd c))); reflexivity.
Qed.

Lemma page_matches_first_occurrence kw text :
  forallb (fun ct => first_occurrence (snd ct) (lower (clean_text text))
                       (find (snd ct) (lower (clean_text text))))
          (page_matches kw text) = true.
Proof.
  unfold page_matches. destruct (falsy text); [reflexivity|]. cbv zeta.
  induction kw as [|c kw IH]; simpl; [reflexivity|].
  rewrite forallb_app, IH, andb_true_r.
  destruct (first_term _ (termos (snd c))) as [t|] eqn:E; [|reflexivity].
  simpl. rewrite andb_true_r.
  apply find_first_occurrence, (first_term_contains _ _ E).
Qed.

Lemma snippets_on_page mk c t kw pages i :
  (forall h d, on_page i (mk h d) = (hit_page h =? i)%nat) ->
  (forall h d, field_str "categoria" (mk h d) = hit_categoria h) ->
  (forall h d, field_str "termo_encontrado" (mk h d) = hit_termo h) ->
  (forall h d, field_str "resumo_snippet" (mk h d) =
               strip (hit_window h) ++ py "...") ->
  map (fun d => (field_str "categoria" d, field_str "termo_encontrado" d,
                 field_str "resumo_snippet" d))
      (filter (on_page i) (allocate mk c t (doc_hits kw 0 pages))) =
  map (fun ct => (fst ct, snd ct,
                  stored_snippet (clean_text (nth i pages None))
                                 (lower (clean_text (nth i pages None)))
                                 (snd ct)))
      (page_matches kw (nth i pages None)).
Proof.
  intros Hp Hc Ht Hs.
  rewrite (allocate_view mk c
             (fun d => (field_str "categoria" d,
                        field_str "termo_encontrado" d,
                        field_str "resumo_snippet" d))
             (fun h => (hit_categoria h, hit_termo h,
                        strip (hit_window h) ++ py "..."))
             (on_page i) (fun h => (hit_page h =? i)%nat)).
  - rewrite doc_hits_page. simpl. rewrite Nat.sub_0_r.
    apply page_hits_snippets.
  - intros h d. rewrite Hc, Ht, Hs. reflexivity.
  - exact Hp.
Qed.

End Snippet.

(** C5, as the code has it.  On every page, each finding's snippet is
    taken at the first occurrence of its term in the lower-cased
    normalized text: it is the slice of the normalized, original-cased
    text from [max(0, start - 100)] to [min(len, start + 200)], with
    the whitespace at both ends of the slice stripped, followed by
    "...".  A category (the catalog's keys being distinct) has at most
    one finding on the page, hence one snippet, however often its term
    occurs.  This holds for [bot.py] and for [bot1.py]. *)
Theorem snippet_is_stripped_window_at_first_occurrence :
  forall (U : UnicodeDB) (self : DOEProcessor) (pdf_path : str)
         (pages : list (option str)) (w : world) (i : nat),
    NoDup (map fst (keywords self)) ->
    let text := nth i pages None in
    let text_clean := clean_text text in
    let text_lower := lower text_clean in
    forallb (fun ct => first_occurrence (snd ct) text_lower
                         (find (snd ct) text_lower))
            (page_matches (keywords self) text) = true /\
    (let on := filter (on_page i)
                 (fst (findings (Bot.analyze_pdf self pdf_path pages w))) in
     map (fun d => (field_str "categoria" d, field_str "termo_encontrado" d,
                    field_str "resumo_snippet" d)) on =
     map (fun ct => (fst ct, snd ct,
                     stored_snippet text_clean text_lower (snd ct)))
         (page_matches (keywords self) text) /\
     NoDup (map (field_str "categoria") on)) /\
    (let on := filter (on_page i)
                 (fst (findings (Bot1.analyze_pdf self pdf_path pages w))) in
     map (fun d => (field_str "categoria" d, field_str "termo_encontrado" d,
                    field_str "resumo_snippet" d)) on =
     map (fun ct => (fst ct, snd ct,
                     stored_snippet text_clean text_lower (snd ct)))
         (page_matches (keywords self) text) /\
     NoDup (map (field_str "categoria") on)).
Proof.
  intros U self pdf_path pages w i ND text text_clean text_lower.
  split; [apply page_matches_first_occurrence|]. split.
  - rewrite bot_findings. cbv zeta. cbn [fst]. split.
    + apply (snippets_on_page bot_entry (clock w) (ticks w) (keywords self)
               pages i (bot_entry_page i)); reflexivity.
    + assert (E := entries_on_page bot_entry (clock w) (ticks w)
                     (keywords self) pages i
                     (bot_entry_page i) (fun _ _ => eq_refl)
                     (fun _ _ => eq_refl)).
      exact (proj1 (at_most_one_per_category _ _ _ ND E)).
  - rewrite bot1_findings. cbv zeta. cbn [fst]. split.
    + apply (snippets_on_page (bot1_entry pdf_path) (clock w) (ticks w)
               (keywords self) pages i (bot1_entry_page pdf_path i));
        reflexivity.
    + assert (E := entries_on_page (bot1_entry pdf_path) (clock w) (ticks w)
                     (keywords self) pages i
                     (bot1_entry_page pdf_path i) (fun _ _ => eq_refl)
                     (fun _ _ => eq_refl)).
      exact (proj1 (at_most_one_per_category _ _ _ ND E)).
Qed.

Lemma snippet_is_stripped_window_at_first_occurrence_witness :
  NoDup (map fst (keywords (Bot1.init Sample.cwd))) /\
  NoDup (map (field_str "categoria")
           (filter (on_page 0)
              (fst (findings (Bot1.analyze_pdf (Bot1.init Sample.cwd)
                                Sample.pdf_path [Some Sample.long_page]
                                Sample.w0))))).
Proof.
  assert (ND : NoDup (map fst (keywords (Bot1.init Sample.cwd))))
    by nodup_strs.
  split; [exact ND|].
  exact (proj2 (proj2 (proj2
           (@snippet_is_stripped_window_at_first_occurrence Latin1
              (Bot1.init Sample.cwd) Sample.pdf_path
              [Some Sample.long_page] Sample.w0 0 ND)))).
Defined.

(** A page of 201 characters that begins with a term and has a space at
    index 199: the window [0:200] ends in that space, and the stored
    snippet is one character shorter than the window with its suffix. *)
Lemma context_snippet_counterexample :
  let text_clean := clean_text (Some Sample.long_page) in
  let text_lower := lower text_clean in
  let found := fst (findings (Bot.analyze_pdf (Bot.init Sample.cwd)
                                Sample.pdf_path [Some Sample.long_page]
                                Sample.w0)) in
  len text_clean = 201%Z /\
  map (fun d => (field_str "termo_encontrado" d,
                 length (field_str "resumo_snippet" d))) found =
    [(py "nomeação", 202)] /\
  find (py "nomeação") text_lower = 0%Z /\
  length (Spec.context_snippet text_clean text_lower (py "nomeação")) = 203 /\
  map (field_str "resumo_snippet") found <>
    [Spec.context_snippet text_clean text_lower (py "nomeação")].
Proof.
  cbv zeta. split; [vm_compute; reflexivity|].
  split; [vm_compute; reflexivity|]. split; [vm_compute; reflexivity|].
  split; [vm_compute; reflexivity|].
  intros H. apply (f_equal (map (@length N))) in H. vm_compute in H.
  discriminate H.
Qed.

(* ================================================================== *)
(** * Letter case of the catalog terms *)
(* ================================================================== *)

Lemma latin1_tolower_not_upper c :
  latin1_isupper (latin1_tolower c) = false.
Proof.
  unfold latin1_tolower. destruct (latin1_isupper c) eqn:E; [|exact E].
  unfold latin1_isupper, between in *.
  rewrite !orb_true_iff, !andb_true_iff, !N.leb_le in E.
  rewrite !orb_false_iff, !andb_false_iff, !N.leb_gt. lia.
Qed.

Lemma starts_with_head_absent a t s :
  Forall (fun c => c <> a) s -> starts_with (a :: t) s = false.
Proof.
  intros H. destruct s as [|b s]; [reflexivity|]. simpl.
  inversion H as [|? ? Hb _]; subst.
  destruct (N.eqb_spec a b) as [->|]; [contradiction | reflexivity].
Qed.

Lemma contains_head_absent a t s :
  Forall (fun c => c <> a) s -> contains (a :: t) s = false.
Proof.
  induction s as [|b s IH]; intros H.
  - reflexivity.
  - change (contains (a :: t) (b :: s))
      with (starts_with (a :: t) (b :: s) || contains (a :: t) s).
    rewrite (starts_with_head_absent t H).
    inversion H; subst. apply IH; assumption.
Qed.

(** No text, once lower-cased, contains a term that begins with an
    upper-case letter. *)
Lemma upper_case_term_not_in_lowered a t text :
  latin1_isupper a = true ->
  contains (a :: t) (@lower Latin1 text) = false.
Proof.
  intros Ha. apply contains_head_absent. simpl lower.
  apply Forall_map, Forall_forall. intros c _ E.
  pose proof (latin1_tolower_not_upper c) as H. rewrite E, Ha in H.
  discriminate H.
Qed.

(** C3, where the code departs from it.  The catalog of [bot1.py] has
    the term "SEU NOME" for MONITORAMENTO_PESSOAL.  The page says "SEU
    NOME" in exactly that casing, so the term occurs in it, with or
    without regard to case; [analyze_pdf] reports nothing, because only
    the text is lower-cased before the comparison, not the term.  No
    text at all can make that term match. *)
Theorem upper_case_term_is_never_found :
  contains (py "SEU NOME") Sample.name_page = true /\
  Spec.occurs_ignoring_case (py "SEU NOME") Sample.name_page = true /\
  findings (Bot1.analyze_pdf (Bot1.init Sample.cwd) Sample.pdf_path
                             [Some Sample.name_page] Sample.w0) = ([], []) /\
  (forall text : str,
     contains (py "SEU NOME") (lower (clean_text (Some text))) = false).
Proof.
  split; [vm_compute; reflexivity|]. split; [vm_compute; reflexivity|].
  split; [vm_compute; reflexivity|].
  intros text. change (py "SEU NOME") with (83%N :: py "EU NOME").
  apply upper_case_term_not_in_lowered. reflexivity.
Qed.

(* ================================================================== *)
(** * The fields of a finding *)
(* ================================================================== *)

Lemma allocate_Forall mk c (Q : hit -> Prop) (P : dict -> Prop) :
  (forall h d, Q h -> P (mk h d)) ->
  forall hits t, Forall Q hits -> Forall P (allocate mk c t hits).
Proof.
  intros H; induction hits as [|h hits IH]; intros t HQ; simpl;
    constructor; inversion HQ; subst; auto.
Qed.

Lemma find_from_lower t s :
  forall i, find_from t s i = (-1)%Z \/ (i <= find_from t s i)%Z.
Proof.
  induction s as [|c s IH]; intros i; simpl find_from.
  - destruct (starts_with t []); [right; lia | left; reflexivity].
  - destruct (starts_with t (c :: s)); [right; lia|].
    destruct (IH (i + 1)%Z); [left; assumption | right; lia].
Qed.

Lemma slice_length s a b :
  (0 <= a)%Z -> (0 <= b)%Z -> (b - a <= 300)%Z -> length (slice s a b) <= 300.
Proof.
  intros Ha Hb Hab. unfold slice, slice_index.
  destruct (Z.ltb_spec a 0); [lia|]. destruct (Z.ltb_spec b 0); [lia|].
  rewrite length_firstn. unfold len. lia.
Qed.

Section Fields.
Context {U : UnicodeDB}.

Lemma lstrip_length s : length (lstrip s) <= length s.
Proof.
  induction s as [|c s IH]; simpl; [lia|].
  destruct (ISSPACE c); simpl; lia.
Qed.

Lemma strip_length s : length (strip s) <= length s.
Proof.
  unfold strip, rstrip. rewrite length_rev.
  pose proof (lstrip_length (rev (lstrip s))) as H1.
  pose proof (lstrip_length s) as H2.
  rewrite length_rev in H1. lia.
Qed.

Lemma snippet_of_length tc tl t : length (snippet_of tc tl t) <= 300.
Proof.
  unfold snippet_of, find.
  pose proof (find_from_lower t tl 0) as H. unfold len.
  apply slice_length; unfold len; lia.
Qed.

Lemma doc_hits_window kw pages :
  forall i, Forall (fun h => length (hit_window h) <= 300)
                   (doc_hits kw i pages).
Proof.
  induction pages as [|text pages IH]; intros i; simpl; [constructor|].
  apply Forall_app. split; [|apply IH].
  unfold page_hits. destruct (falsy text); [constructor|]. cbv zeta.
  clear IH. induction kw as [|c kw IHk]; simpl; [constructor|].
  apply Forall_app. split; [|exact IHk].
  unfold categoria_hits. destruct (first_term _ (termos (snd c)));
    constructor; [|constructor].
  simpl. apply snippet_of_length.
Qed.

(** What C7 asks of a finding, and what [bot1.py] delivers. *)
Lemma bot1_finding_fields self pdf_path pages w :
  Forall (fun d =>
            keys d = ["arquivo"; "pagina"; "topico_detectado"; "categoria";
                      "termo_encontrado"; "impacto"; "resumo_snippet";
                      "data_processamento"] /\
            get "arquivo" d = Some (VStr (basename pdf_path)) /\
            (exists p, get "pagina" d = Some (VInt p) /\ (1 <= p)%Z) /\
            (exists s, field_str "resumo_snippet" d = s ++ py "..." /\
                       length s <= 300) /\
            (exists n, get "data_processamento" d =
                       Some (VStr (strftime_Ymd (clock w n)))))
         (fst (findings (Bot1.analyze_pdf self pdf_path pages w))).
Proof.
  rewrite bot1_findings. cbv zeta. cbn [fst].
  assert (G : forall c t,
    Forall (fun d =>
            keys d = ["arquivo"; "pagina"; "topico_detectado"; "categoria";
                      "termo_encontrado"; "impacto"; "resumo_snippet";
                      "data_processamento"] /\
            get "arquivo" d = Some (VStr (basename pdf_path)) /\
            (exists p, get "pagina" d = Some (VInt p) /\ (1 <= p)%Z) /\
            (exists s, field_str "resumo_snippet" d = s ++ py "..." /\
                       length s <= 300) /\
            (exists n, get "data_processamento" d =
                       Some (VStr (strftime_Ymd (c n)))))
         (allocate (bot1_entry pdf_path) c t
                   (doc_hits (keywords self) 0 pages))).
  { intros c. generalize (doc_hits_window (keywords self) pages 0).
    generalize (doc_hits (keywords self) 0 pages).
    induction l as [|h l IH]; intros HQ t; simpl; constructor.
    - inversion HQ as [|? ? Hh _]; subst.
      split; [reflexivity|]. split; [reflexivity|].
      split; [eexists; split; [reflexivity|lia]|].
      split; [|exists t; reflexivity].
      exists (strip (hit_window h)). split; [reflexivity|].
      pose proof (strip_length (hit_window h)). lia.
    - inversion HQ; subst. apply IH; assumption. }
  apply G.
Qed.

Lemma bot_finding_fields self pdf_path pages w :
  Forall (fun d =>
            keys d = ["pagina"; "topico_detectado"; "categoria";
                      "termo_encontrado"; "impacto"; "resumo_snippet";
                      "data_processamento"] /\
            get "arquivo" d = None)
         (fst (findings (Bot.analyze_pdf self pdf_path pages w))).
Proof.
  rewrite bot_findings. cbv zeta. cbn [fst].
  apply allocate_Forall with (Q := fun _ => True).
  - intros h d _. split; reflexivity.
  - apply Forall_forall. intros; exact I.
Qed.

End Fields.

(** C7, where the code departs from it.  The findings of [bot.py] for
    the example page have the seven fields from ["pagina"] to
    ["data_processamento"] and no ["arquivo"]; no finding of [bot.py]
    ever has one.  Those of [bot1.py] for the same page do name the
    scanned file. *)
Theorem bot_findings_have_no_source_file :
  (let found := fst (findings (Bot.analyze_pdf (Bot.init Sample.cwd)
                                 Sample.pdf_path [Some Sample.health_page]
                                 Sample.w0)) in
   map (get "arquivo") found = [None; None] /\
   map keys found =
     [ ["pagina"; "topico_detectado"; "categoria"; "termo_encontrado";
        "impacto"; "resumo_snippet"; "data_processamento"];
       ["pagina"; "topico_detectado"; "categoria"; "termo_encontrado";
        "impacto"; "resumo_snippet"; "data_processamento"] ]) /\
  (let found := fst (findings (Bot1.analyze_pdf (Bot1.init Sample.cwd)
                                 Sample.pdf_path [Some Sample.health_page]
                                 Sample.w0)) in
   map (get "arquivo") found =
     [ Some (VStr (py "DOE_02-01-2025.pdf"));
       Some (VStr (py "DOE_02-01-2025.pdf")) ]) /\
  (forall (U : UnicodeDB) self pdf_path pages w,
     Forall (fun d => get "arquivo" d = None)
            (fst (findings (Bot.analyze_pdf self pdf_path pages w)))).
Proof.
  split; [vm_compute; split; reflexivity|].
  split; [vm_compute; reflexivity|].
  intros U self pdf_path pages w.
  eapply Forall_impl; [|apply bot_finding_fields].
  intros d [_ H]; exact H.
Qed.

(* ================================================================== *)
(** * The reports *)
(* ================================================================== *)

Lemma written_app w fs l :
  fs = files w ++ l -> skipn (length (files w)) fs = l.
Proof.
  intros ->. rewrite skipn_app, skipn_all, Nat.sub_diag. reflexivity.
Qed.

Section Reports.
Context {U : UnicodeDB}.

Lemma of_records_rows records :
  length (Pandas.rows (Pandas.of_records records)) = length records.
Proof. unfold Pandas.of_records; simpl. apply length_map. Qed.

(** [bot.py]: the alert file is written exactly when [concursos] is
    not empty; it is delimited by semicolons and has one row for each
    element of [concursos]; and whether [concursos] is empty makes no
    difference to how the call ends. *)
Lemma bot_generate_reports_csv self data concursos filename_base w :
  let r := Bot.generate_reports self data concursos filename_base w in
  let df := Pandas.of_records (map (deref (heap w)) concursos) in
  let csv_path :=
    path_join (reports_dir self)
              (py "ALERTA_CONCURSOS_" ++
               strftime_stamp (clock w (ticks w)) ++ py ".csv") in
  filter is_csv (written w (snd r)) =
    match concursos with
    | [] => []
    | _ :: _ => [(csv_path,
                  CsvFile (py ";") (Pandas.columns df) (Pandas.rows df))]
    end /\
  length (Pandas.rows df) = length concursos /\
  fst r = fst (Bot.generate_reports self data [] filename_base w).
Proof.
  cbv zeta. split; [|split; [rewrite of_records_rows; apply length_map|]].
  - unfold Bot.generate_reports, bind, datetime_now, write_file, print, ret,
      written.
    cbn [heap clock ticks stdout files fst snd].
    destruct concursos as [|c cs];
      cbn [heap clock ticks stdout files fst snd];
      destruct (negb (Pandas.empty (Pandas.of_records
                                     (map (deref (heap w)) data))));
      try destruct (Pandas.groupby_count _ _ _ _);
      cbn [heap clock ticks stdout files fst snd];
      (erewrite written_app; [|rewrite <- ?app_assoc; reflexivity]);
      reflexivity.
  - unfold Bot.generate_reports, bind, datetime_now, write_file, print, ret.
    cbn [heap clock ticks stdout files fst snd].
    destruct concursos as [|c cs];
      cbn [heap clock ticks stdout files fst snd];
      destruct (negb (Pandas.empty (Pandas.of_records
                                     (map (deref (heap w)) data))));
      try destruct (Pandas.groupby_count _ _ _ _);
      reflexivity.
Qed.

(** [bot1.py]: no CSV file, whatever [concursos] holds. *)
Lemma bot1_generate_reports_csv self data concursos w :
  filter is_csv
    (written w (snd (Bot1.generate_reports self data concursos w))) = [].
Proof.
  unfold Bot1.generate_reports, bind, datetime_now, write_file, print, ret,
    written.
  destruct data as [|d ds]; cbn [heap clock ticks stdout files fst snd].
  - rewrite skipn_all. reflexivity.
  - erewrite written_app; [|reflexivity]. reflexivity.
Qed.

End Reports.

(** What [bot.py] does with the findings of the example page (one of
    them of impact ALTO) and with those of a page that has none of
    impact ALTO. *)
Lemma bot_alert_file_examples :
  (let '(all, high, w) :=
     Bot.analyze_pdf (Bot.init Sample.cwd) Sample.pdf_path
                     [Some Sample.health_page] Sample.w0 in
   let r := Bot.generate_reports (Bot.init Sample.cwd) all high
                                 (basename Sample.pdf_path) w in
   length high = 1 /\ fst r = Returned /\
   map csv_shape (filter is_csv (written w (snd r))) =
     [Some (py ";",
            ["pagina"; "topico_detectado"; "categoria"; "termo_encontrado";
             "impacto"; "resumo_snippet"; "data_processamento"], 1)]) /\
  (let '(all, high, w) :=
     Bot.analyze_pdf (Bot.init Sample.cwd) Sample.pdf_path
                     [Some Sample.law_page] Sample.w0 in
   let r := Bot.generate_reports (Bot.init Sample.cwd) all high
                                 (basename Sample.pdf_path) w in
   length all = 1 /\ high = [] /\ fst r = Returned /\
   filter is_csv (written w (snd r)) = [] /\
   length (written w (snd r)) = 2).
Proof. vm_compute. repeat split. Qed.

(** C9, where the code departs from it.  [bot1.py] hands the
    high-impact findings to [generate_reports], which writes the JSON
    report and nothing else: for the example page there is one finding
    of impact ALTO and no CSV file, and no call of it ever writes one.
    [bot.py], given the same page, writes the file with one row. *)
Theorem bot1_writes_no_alert_file :
  (let '(all, high, w) :=
     Bot1.analyze_pdf (Bot1.init Sample.cwd) Sample.pdf_path
                      [Some Sample.health_page] Sample.w0 in
   let w' := snd (Bot1.generate_reports (Bot1.init Sample.cwd) all high w) in
   length high = 1 /\
   filter is_csv (written w w') = [] /\
   length (written w w') = 1) /\
  (let '(all, high, w) :=
     Bot.analyze_pdf (Bot.init Sample.cwd) Sample.pdf_path
                     [Some Sample.health_page] Sample.w0 in
   let w' := snd (Bot.generate_reports (Bot.init Sample.cwd) all high
                                       (basename Sample.pdf_path) w) in
   length high = 1 /\
   length (filter is_csv (written w w')) = 1) /\
  (forall (U : UnicodeDB) self data concursos w,
     filter is_csv
       (written w (snd (Bot1.generate_reports self data concursos w))) = []).
Proof.
  split; [vm_compute; repeat split|].
  split; [vm_compute; repeat split|].
  intros U self data concursos w. apply bot1_generate_reports_csv.
Qed.

(* ================================================================== *)
(** * More about [analyze_pdf] *)
(* ================================================================== *)

Lemma allocate_map {A} mk c (F : dict -> A) (G : hit -> A) :
  (forall h d, F (mk h d) = G h) ->
  forall hits t, map F (allocate mk c t hits) = map G hits.
Proof.
  intros HF; induction hits as [|h hits IH]; intros t; simpl;
    [reflexivity|].
  rewrite HF, IH. reflexivity.
Qed.

Lemma first_term_In tl ts t : first_term tl ts = Some t -> In t ts.
Proof.
  induction ts as [|x ts IH]; simpl; [discriminate|].
  destruct (contains x tl).
  - intros H; injection H as <-. left; reflexivity.
  - intros H; right; apply IH, H.
Qed.

Lemma ascending_app a l1 l2 :
  Forall (fun x => x = a) l1 -> Forall (fun x => (a <= x)%Z) l2 ->
  ascending l2 -> ascending (l1 ++ l2).
Proof.
  intros H1 H2 H3. induction l1 as [|x l1 IH]; simpl; [exact H3|].
  inversion H1 as [|? ? Hx H1']; subst. split; [|apply IH, H1'].
  destruct l1 as [|y l1]; simpl.
  - destruct l2 as [|z l2]; [exact I|]. inversion H2; subst. assumption.
  - inversion H1'; subst. lia.
Qed.

Section MoreAnalyze.
Context {U : UnicodeDB}.

Lemma page_hits_falsy kw i text : falsy text = true -> page_hits kw i text = [].
Proof. intros H. unfold page_hits. rewrite H. reflexivity. Qed.

Lemma doc_hits_falsy kw pages :
  forallb falsy pages = true -> forall i, doc_hits kw i pages = [].
Proof.
  induction pages as [|text pages IH]; simpl; intros H i; [reflexivity|].
  apply andb_true_iff in H as [H1 H2].
  rewrite (page_hits_falsy _ _ _ H1), IH by assumption. reflexivity.
Qed.

Lemma doc_hits_sound kw pages :
  forall i, Forall (hit_sound kw i pages) (doc_hits kw i pages).
Proof.
  induction pages as [|text pages IH]; intros i; simpl; [constructor|].
  apply Forall_app. split.
  - unfold page_hits. destruct (falsy text); [constructor|]. cbv zeta.
    assert (G : forall sub, incl sub kw ->
              Forall (hit_sound kw i (text :: pages))
                (flat_map
                   (categoria_hits i
                      (topico match text with Some t => t | None => [] end)
                      (clean_text text) (lower (clean_text text))) sub)).
    { clear IH. induction sub as [|c sub IHs]; intros Hs; simpl;
        [constructor|].
      apply Forall_app. split.
      - unfold categoria_hits.
        destruct (first_term _ (termos (snd c))) as [t|] eqn:E;
          constructor; [|constructor].
        unfold hit_sound; simpl. rewrite Nat.sub_diag. simpl.
        split; [lia|]. split; [|split].
        + apply Hs. left. destruct c; reflexivity.
        + apply (first_term_In _ _ E).
        + apply (first_term_contains _ _ E).
      - apply IHs. intros x Hx. apply Hs. right; exact Hx. }
    apply G, incl_refl.
  - eapply Forall_impl; [|apply (IH (S i))].
    intros h (Hp & Hc & Ht & Ho). unfold hit_sound. simpl length.
    split; [lia|]. split; [exact Hc|]. split; [exact Ht|].
    replace (hit_page h - i) with (S (hit_page h - S i)) by lia.
    exact Ho.
Qed.

Lemma doc_hits_ascending kw pages :
  forall i, ascending (map (fun h => Z.of_nat (hit_page h) + 1)%Z
                           (doc_hits kw i pages)).
Proof.
  induction pages as [|text pages IH]; intros i; simpl; [exact I|].
  rewrite map_app. apply ascending_app with (a := (Z.of_nat i + 1)%Z).
  - apply Forall_map, Forall_forall. intros h Hh.
    assert (E : (hit_page h =? i)%nat = true).
    { assert (In h (filter (fun h => (hit_page h =? i)%nat)
                           (page_hits kw i text))).
      { rewrite page_hits_page, Nat.eqb_refl. exact Hh. }
      apply filter_In in H as [_ H]. exact H. }
    apply Nat.eqb_eq in E. rewrite E. reflexivity.
  - apply Forall_map. eapply Forall_impl; [|apply (doc_hits_sound kw pages)].
    intros h (Hp & _). simpl. lia.
  - apply IH.
Qed.

End MoreAnalyze.

(** X1.  A page without text ([None] or the empty string), like a page
    number beyond the document, has no finding: it is skipped.  This
    holds for [bot.py] and for [bot1.py]. *)
Theorem skipped_page_has_no_finding :
  forall (U : UnicodeDB) (self : DOEProcessor) (pdf_path : str)
         (pages : list (option str)) (w : world) (i : nat),
    falsy (nth i pages None) = true ->
    filter (on_page i)
      (fst (findings (Bot.analyze_pdf self pdf_path pages w))) = [] /\
    filter (on_page i)
      (fst (findings (Bot1.analyze_pdf self pdf_path pages w))) = [].
Proof.
  intros U self pdf_path pages w i H.
  assert (E : page_matches (keywords self) (nth i pages None) = []).
  { unfold page_matches. rewrite H. reflexivity. }
  split.
  - rewrite bot_findings. cbv zeta. cbn [fst].
    pose proof (entries_on_page bot_entry (clock w) (ticks w)
                  (keywords self) pages i
                  (bot_entry_page i) (fun _ _ => eq_refl)
                  (fun _ _ => eq_refl)) as E1.
    rewrite E in E1. apply map_eq_nil in E1. exact E1.
  - rewrite bot1_findings. cbv zeta. cbn [fst].
    pose proof (entries_on_page (bot1_entry pdf_path) (clock w) (ticks w)
                  (keywords self) pages i
                  (bot1_entry_page pdf_path i) (fun _ _ => eq_refl)
                  (fun _ _ => eq_refl)) as E1.
    rewrite E in E1. apply map_eq_nil in E1. exact E1.
Qed.

Lemma skipped_page_has_no_finding_witness :
  falsy (nth 0 [None; Some Sample.health_page] None) = true /\
  filter (on_page 0)
    (fst (findings (Bot1.analyze_pdf (Bot1.init Sample.cwd) Sample.pdf_path
                      [None; Some Sample.health_page] Sample.w0))) = [].
Proof.
  assert (H : falsy (nth 0 [None; Some Sample.health_page] None) = true)
    by reflexivity.
  split; [exact H|].
  exact (proj2 (@skipped_page_has_no_finding Latin1 (Bot1.init Sample.cwd)
                  Sample.pdf_path [None; Some Sample.health_page]
                  Sample.w0 0 H)).
Defined.

(** X2.  A document none of whose pages has text (in particular one
    without pages) gives two empty lists; no object is allocated and
    the clock is not read.  This holds for [bot.py] and [bot1.py]. *)
Theorem document_without_text_yields_nothing :
  forall (U : UnicodeDB) (self : DOEProcessor) (pdf_path : str)
         (pages : list (option str)) (w : world),
    forallb falsy pages = true ->
    (let r := Bot.analyze_pdf self pdf_path pages w in
     fst r = ([], []) /\ heap (snd r) = heap w /\ ticks (snd r) = ticks w) /\
    (let r := Bot1.analyze_pdf self pdf_path pages w in
     fst r = ([], []) /\ heap (snd r) = heap w /\ ticks (snd r) = ticks w).
Proof.
  intros U self pdf_path pages w H. split; cbv zeta.
  - rewrite bot_analyze_pdf. cbv zeta.
    rewrite (doc_hits_falsy (keywords self) pages H 0), emit_nil.
    repeat split.
  - rewrite bot1_analyze_pdf. cbv zeta.
    rewrite (doc_hits_falsy (keywords self) pages H 0), emit_nil.
    repeat split.
Qed.

Lemma document_without_text_yields_nothing_witness :
  forallb falsy [None; Some []] = true /\
  fst (Bot.analyze_pdf (Bot.init Sample.cwd) Sample.pdf_path
                       [None; Some []] Sample.w1) = ([], []).
Proof.
  assert (H : forallb falsy [None; Some []] = true) by reflexivity.
  split; [exact H|].
  exact (proj1 (proj1 (@document_without_text_yields_nothing Latin1
                         (Bot.init Sample.cwd) Sample.pdf_path
                         [None; Some []] Sample.w1 H))).
Defined.

(** X3.  The page number of every finding lies between 1 and the number
    of pages of the document, and along the list of findings the page
    numbers never decrease.  This holds for [bot.py] and [bot1.py]. *)
Theorem page_numbers_in_range_and_ascending :
  forall (U : UnicodeDB) (self : DOEProcessor) (pdf_path : str)
         (pages : list (option str)) (w : world),
    (let found := fst (findings (Bot.analyze_pdf self pdf_path pages w)) in
     Forall (fun d => (1 <= field_int "pagina" d <= Z.of_nat (length pages))%Z) found /\
     ascending (map (field_int "pagina") found)) /\
    (let found := fst (findings (Bot1.analyze_pdf self pdf_path pages w)) in
     Forall (fun d => (1 <= field_int "pagina" d <= Z.of_nat (length pages))%Z) found /\
     ascending (map (field_int "pagina") found)).
Proof.
  intros U self pdf_path pages w.
  assert (R : forall h, hit_sound (keywords self) 0 pages h ->
                (1 <= Z.of_nat (hit_page h) + 1 <= Z.of_nat (length pages))%Z).
  { intros h (Hp & _). lia. }
  split; cbv zeta.
  - rewrite bot_findings. cbv zeta. cbn [fst]. split.
    + apply allocate_Forall with (Q := hit_sound (keywords self) 0 pages);
        [|apply doc_hits_sound].
      intros h d Hh. apply (R h Hh).
    + rewrite (allocate_map bot_entry (clock w) (field_int "pagina")
                 (fun h => Z.of_nat (hit_page h) + 1)%Z)
        by (intros; reflexivity).
      apply doc_hits_ascending.
  - rewrite bot1_findings. cbv zeta. cbn [fst]. split.
    + apply allocate_Forall with (Q := hit_sound (keywords self) 0 pages);
        [|apply doc_hits_sound].
      intros h d Hh. apply (R h Hh).
    + rewrite (allocate_map (bot1_entry pdf_path) (clock w)
                 (field_int "pagina")
                 (fun h => Z.of_nat (hit_page h) + 1)%Z)
        by (intros; reflexivity).
      apply doc_hits_ascending.
Qed.

(** X4.  Every finding agrees with the catalog and with its page: its
    category is a key of the catalog, its impact is that of the
    category, its term is one of the terms of the category, and the
    term occurs in the lower-cased normalized text of the page whose
    number the finding carries.  This holds for [bot.py] and
    [bot1.py]. *)
Theorem finding_agrees_with_catalog :
  forall (U : UnicodeDB) (self : DOEProcessor) (pdf_path : str)
         (pages : list (option str)) (w : world),
    Forall (fun d =>
              exists info,
                In (field_str "categoria" d, info) (keywords self) /\
                In (field_str "termo_encontrado" d) (termos info) /\
                field_str "impacto" d = impacto info /\
                contains (field_str "termo_encontrado" d)
                  (lower (clean_text
                     (nth (Z.to_nat (field_int "pagina" d - 1)) pages None)))
                = true)
           (fst (findings (Bot.analyze_pdf self pdf_path pages w)) ++
            fst (findings (Bot1.analyze_pdf self pdf_path pages w))).
Proof.
  intros U self pdf_path pages w.
  rewrite bot_findings, bot1_findings. cbv zeta. cbn [fst].
  apply Forall_app. split;
    (apply allocate_Forall with (Q := hit_sound (keywords self) 0 pages);
     [|apply doc_hits_sound]);
    intros h d (Hp & Hc & Ht & Ho); exists (hit_info h);
    (split; [exact Hc|]); (split; [exact Ht|]); (split; [reflexivity|]).
  - replace (Z.to_nat (field_int "pagina" (bot_entry h d) - 1))
      with (hit_page h - 0)
      by (unfold field_int; simpl; lia).
    exact Ho.
  - replace (Z.to_nat (field_int "pagina" (bot1_entry pdf_path h d) - 1))
      with (hit_page h - 0)
      by (unfold field_int; simpl; lia).
    exact Ho.
Qed.

(* ================================================================== *)
(** * More about [clean_text] and the snippet *)
(* ================================================================== *)

Section Shape.
Context {U : UnicodeDB}.

Lemma lstrip_snoc l c :
  ISSPACE c = false -> lstrip (l ++ [c]) = lstrip l ++ [c].
Proof.
  intros Hc. induction l as [|a l IH]; simpl.
  - rewrite Hc. reflexivity.
  - destruct (ISSPACE a); [exact IH | reflexivity].
Qed.

Lemma lstrip_idem s : lstrip (lstrip s) = lstrip s.
Proof.
  induction s as [|c s IH]; simpl; [reflexivity|].
  destruct (ISSPACE c) eqn:E; [exact IH|]. simpl. rewrite E. reflexivity.
Qed.

Lemma rstrip_cons c s :
  ISSPACE c = false -> rstrip (c :: s) = c :: rstrip s.
Proof.
  intros Hc. unfold rstrip. simpl rev.
  rewrite lstrip_snoc by exact Hc. rewrite rev_app_distr. reflexivity.
Qed.

Lemma rstrip_idem s : rstrip (rstrip s) = rstrip s.
Proof. unfold rstrip. rewrite rev_involutive, lstrip_idem. reflexivity. Qed.

Lemma rstrip_snoc z c : ISSPACE c = false -> rstrip (z ++ [c]) = z ++ [c].
Proof.
  intros Hc. unfold rstrip. rewrite rev_app_distr. simpl. rewrite Hc.
  simpl. rewrite rev_involutive. reflexivity.
Qed.

Lemma strip_idem s : strip (strip s) = strip s.
Proof.
  unfold strip.
  assert (E : lstrip (rstrip (lstrip s)) = rstrip (lstrip s)).
  { destruct (lstrip s) as [|c y] eqn:Ey; [reflexivity|].
    assert (Hc : ISSPACE c = false).
    { pose proof (lstrip_idem s) as H. rewrite Ey in H. simpl in H.
      destruct (ISSPACE c); [|reflexivity].
      apply (f_equal (@length N)) in H. simpl in H.
      pose proof (lstrip_length y). lia. }
    rewrite rstrip_cons by exact Hc. simpl. rewrite Hc. reflexivity. }
  rewrite E. apply rstrip_idem.
Qed.

(** ** The words joined by single spaces *)

Lemma join_cons x y ws :
  join [32%N] (x :: y :: ws) = x ++ 32%N :: join [32%N] (y :: ws).
Proof. reflexivity. Qed.

Lemma join_words_head ws :
  Forall word ws -> ws <> [] ->
  exists c r, join [32%N] ws = c :: r /\ ISSPACE c = false.
Proof.
  intros Hw Hne. destruct ws as [|x ws]; [contradiction|].
  inversion Hw as [|? ? [Hx Hs] _]; subst.
  destruct x as [|c x]; [contradiction|]. inversion Hs; subst.
  destruct ws as [|y ws].
  - exists c, x. split; [reflexivity | assumption].
  - rewrite join_cons. exists c, (x ++ 32%N :: join [32%N] (y :: ws)).
    split; [reflexivity | assumption].
Qed.

Lemma join_words_last ws :
  Forall word ws -> ws <> [] ->
  exists z c, join [32%N] ws = z ++ [c] /\ ISSPACE c = false.
Proof.
  induction ws as [|x ws IH]; intros Hw Hne; [contradiction|].
  inversion Hw as [|? ? [Hx Hs] Hw']; subst.
  destruct ws as [|y ws].
  - destruct (exists_last Hx) as (z & c & ->).
    exists z, c. split; [reflexivity|].
    apply Forall_app in Hs as [_ Hc]. inversion Hc; assumption.
  - destruct (IH Hw') as (z & c & E & Hc); [discriminate|].
    rewrite join_cons, E. exists (x ++ 32%N :: z), c.
    split; [|exact Hc]. rewrite <- app_assoc. reflexivity.
Qed.

Lemma adjacent_spaces_word w r :
  Forall (fun c => ISSPACE c = false) w ->
  adjacent_spaces (w ++ r) = adjacent_spaces r.
Proof.
  induction w as [|c w IH]; intros Hw; [reflexivity|].
  inversion Hw as [|? ? Hc Hw']; subst. simpl app.
  change (adjacent_spaces (c :: w ++ r))
    with (match w ++ r with
          | [] => false
          | b :: _ => ISSPACE c && ISSPACE b
          end || adjacent_spaces (w ++ r)).
  rewrite Hc, IH by assumption. destruct (w ++ r); reflexivity.
Qed.

Lemma join_words_shape ws :
  Forall word ws ->
  adjacent_spaces (join [32%N] ws) = false /\
  forallb (fun c => negb (ISSPACE c) || (c =? 32)%N) (join [32%N] ws) = true /\
  visible (join [32%N] ws) = concat ws.
Proof.
  induction ws as [|x ws IH]; intros Hw; [repeat split|].
  inversion Hw as [|? ? [Hx Hs] Hw']; subst.
  destruct (IH Hw') as (IH1 & IH2 & IH3).
  assert (Vx : visible x = x).
  { unfold visible. apply forallb_filter_id, forallb_forall.
    intros c Hc. rewrite Forall_forall in Hs. rewrite (Hs c Hc).
    reflexivity. }
  assert (Fx : forallb (fun c => negb (ISSPACE c) || (c =? 32)%N) x = true).
  { apply forallb_forall. intros c Hc. rewrite Forall_forall in Hs.
    rewrite (Hs c Hc). reflexivity. }
  destruct ws as [|y ws].
  - simpl join. simpl concat. rewrite app_nil_r.
    rewrite <- (app_nil_r x) at 1. rewrite adjacent_spaces_word by assumption.
    repeat split; assumption.
  - rewrite join_cons. split; [|split].
    + rewrite adjacent_spaces_word by assumption.
      destruct (join_words_head Hw') as (c & r & E & Hc); [discriminate|].
      rewrite E in *.
      change (adjacent_spaces (32%N :: c :: r))
        with (ISSPACE 32%N && ISSPACE c || adjacent_spaces (c :: r)).
      rewrite Hc, andb_false_r. exact IH1.
    + rewrite forallb_app, Fx. cbn [forallb andb]. rewrite ISSPACE_SP.
      simpl. exact IH2.
    + unfold visible in *. rewrite filter_app, Vx. cbn [filter].
      rewrite ISSPACE_SP. cbn [negb]. rewrite IH3. reflexivity.
Qed.

Lemma split_run_visible cur s :
  concat (split_run cur s) = rev cur ++ visible s.
Proof.
  revert cur; induction s as [|c s IH]; intros cur; simpl.
  - destruct cur; simpl; rewrite ?app_nil_r; reflexivity.
  - unfold visible in *. simpl. destruct (ISSPACE c) eqn:E; simpl.
    + destruct cur as [|x cur].
      * apply IH.
      * simpl concat. rewrite IH. reflexivity.
    + rewrite IH. simpl. rewrite <- app_assoc. reflexivity.
Qed.

Lemma join_length_le ws :
  ws <> [] ->
  S (length (join [32%N] ws)) <= length (concat ws) + length ws.
Proof.
  induction ws as [|x ws IH]; intros Hne; [contradiction|].
  destruct ws as [|y ws].
  - simpl. rewrite app_nil_r. lia.
  - rewrite join_cons, length_app. change (concat (x :: y :: ws))
      with (x ++ concat (y :: ws)).
    rewrite length_app.
    change (length (32%N :: join [32%N] (y :: ws)))
      with (S (length (join [32%N] (y :: ws)))).
    change (length (x :: y :: ws)) with (S (length (y :: ws))).
    assert (y :: ws <> []) by discriminate. specialize (IH H). lia.
Qed.

Lemma split_run_length cur s :
  length (concat (split_run cur s)) + length (split_run cur s) <=
  length cur + length s + 1.
Proof.
  revert cur; induction s as [|c s IH]; intros cur; simpl.
  - destruct cur; simpl; rewrite ?app_nil_r, ?length_app, ?length_rev;
      simpl; lia.
  - destruct (ISSPACE c).
    + destruct cur as [|x cur].
      * specialize (IH []). simpl in *. lia.
      * specialize (IH []). simpl in *.
        rewrite !length_app, length_rev. simpl. lia.
    + specialize (IH (c :: cur)). simpl in IH. lia.
Qed.

End Shape.

Lemma clean_text_words {U : UnicodeDB} (x : option str) :
  exists ws, Forall word ws /\ clean_text x = join [32%N] ws /\
             concat ws = visible match x with Some t => t | None => [] end /\
             length (concat ws) + length ws <=
             length match x with Some t => t | None => [] end + 1.
Proof.
  destruct x as [[|c t]|].
  - exists []. repeat split; simpl; auto.
  - exists (split (c :: t)). split; [|split; [|split]].
    + apply split_run_words. constructor.
    + reflexivity.
    + unfold split. rewrite split_run_visible. reflexivity.
    + unfold split. apply (split_run_length [] (c :: t)).
  - exists []. repeat split; simpl; auto.
Qed.

(** X5.  What [clean_text] returns has no whitespace at either end, no
    two whitespace characters next to each other, and no whitespace
    character other than the space U+0020: no newline, tab or
    no-break space is left. *)
Theorem clean_text_is_trimmed_and_single_spaced :
  forall (U : UnicodeDB) (x : option str),
    strip (clean_text x) = clean_text x /\
    adjacent_spaces (clean_text x) = false /\
    forallb (fun c => negb (ISSPACE c) || (c =? 32)%N) (clean_text x) = true.
Proof.
  intros U x. destruct (clean_text_words x) as (ws & Hw & -> & _).
  destruct (join_words_shape Hw) as (H1 & H2 & _).
  split; [|split; assumption].
  destruct ws as [|w ws]; [reflexivity|].
  assert (Hne : w :: ws <> []) by discriminate.
  destruct (join_words_head Hw Hne) as (c & r & E & Hc).
  destruct (join_words_last Hw Hne) as (z & c' & E' & Hc').
  unfold strip. rewrite E. simpl lstrip. rewrite Hc, <- E, E'.
  apply rstrip_snoc, Hc'.
Qed.

(** X6.  [clean_text] neither drops, changes nor reorders a character
    that is not whitespace, and what it returns is never longer than
    the text it was given. *)
Theorem clean_text_keeps_visible_characters :
  forall (U : UnicodeDB) (x : option str),
    visible (clean_text x) =
      visible match x with Some t => t | None => [] end /\
    length (clean_text x) <=
      length match x with Some t => t | None => [] end.
Proof.
  intros U x. destruct (clean_text_words x) as (ws & Hw & -> & Hv & Hl).
  destruct (join_words_shape Hw) as (_ & _ & H3).
  split; [rewrite H3; exact Hv|].
  destruct ws as [|w ws]; [simpl; lia|].
  assert (Hne : w :: ws <> []) by discriminate.
  pose proof (join_length_le Hne). lia.
Qed.

(** X7.  In [bot.py] and in [bot1.py] the snippet of every finding is
    "..." put after at most 300 characters that neither begin nor end
    with whitespace. *)
Theorem snippet_is_trimmed_and_bounded :
  forall (U : UnicodeDB) (self : DOEProcessor) (pdf_path : str)
         (pages : list (option str)) (w : world),
    Forall (fun d =>
              exists s, field_str "resumo_snippet" d = s ++ py "..." /\
                        length s <= 300 /\ strip s = s)
           (fst (findings (Bot.analyze_pdf self pdf_path pages w)) ++
            fst (findings (Bot1.analyze_pdf self pdf_path pages w))).
Proof.
  intros U self pdf_path pages w.
  rewrite bot_findings, bot1_findings. cbv zeta. cbn [fst].
  apply Forall_app. split;
    (apply allocate_Forall
       with (Q := fun h => length (hit_window h) <= 300);
     [|apply doc_hits_window]);
    intros h d Hh; exists (strip (hit_window h));
    (split; [reflexivity|]);
    (split; [pose proof (strip_length (hit_window h)); lia
            | apply strip_idem]).
Qed.

(* ================================================================== *)
(** * More about the reports *)
(* ================================================================== *)

(** X8.  What [generate_reports] of [bot.py] writes, in this order: the
    JSON report with the records of [data], always, even for no data;
    the CSV alert if and only if [concursos] is not empty; the summary
    if and only if the frame of [data] is not empty.  When the frame
    lacks one of the three columns of the summary the call raises
    [KeyError], after the JSON report and the alert were written.  The
    clock is read once: the file names share one timestamp. *)
Theorem bot_generate_reports_writes :
  forall (U : UnicodeDB) (self : DOEProcessor) (data concursos : list ref)
         (filename_base : str) (w : world),
    let r := Bot.generate_reports self data concursos filename_base w in
    let timestamp := strftime_stamp (clock w (ticks w)) in
    let records := map (deref (heap w)) data in
    let df := Pandas.of_records (map (deref (heap w)) concursos) in
    let summary :=
      Pandas.groupby_count "topico_detectado" "categoria" "pagina" records in
    written w (snd r) =
      [(json_path self timestamp, JsonFile records)] ++
      match concursos with
      | [] => []
      | _ :: _ => [(csv_path self timestamp,
                    CsvFile (py ";") (Pandas.columns df) (Pandas.rows df))]
      end ++
      (if Pandas.empty (Pandas.of_records records) then []
       else match summary with
            | Some groups => [(txt_path self timestamp, summary_file groups)]
            | None => []
            end) /\
    fst r = (if Pandas.empty (Pandas.of_records records) then Returned
             else match summary with
                  | Some _ => Returned
                  | None => Raised (py "KeyError")
                  end) /\
    heap (snd r) = heap w /\ ticks (snd r) = S (ticks w).
Proof.
  intros U self data concursos filename_base w. cbv zeta.
  unfold Bot.generate_reports, bind, datetime_now, write_file, print, ret,
    written, json_path, csv_path, txt_path, summary_file.
  cbn [heap clock ticks stdout files fst snd].
  destruct concursos as [|c cs];
    cbn [heap clock ticks stdout files fst snd];
    destruct (Pandas.empty (Pandas.of_records (map (deref (heap w)) data)));
    cbn [negb];
    try destruct (Pandas.groupby_count _ _ _ _);
    cbn [heap clock ticks stdout files fst snd];
    (split; [erewrite written_app; [reflexivity|];
             rewrite <- ?app_assoc; reflexivity
            | repeat split]).
Qed.

Lemma bump_total k c l : total (Pandas.bump k c l) = (total l + c)%Z.
Proof.
  induction l as [|[k' n] l IH]; simpl; [lia|].
  destruct (Pandas.key_eqb k k'); simpl; [lia|].
  destruct (Pandas.key_ltb k k'); simpl; [lia|]. rewrite IH. lia.
Qed.

Lemma columns_of_bot_records records :
  Forall bot_record records -> records <> [] ->
  Pandas.columns (Pandas.of_records records) = bot_keys.
Proof.
  intros H Hne. unfold Pandas.of_records. simpl.
  destruct records as [|d ds]; [contradiction|]. clear Hne.
  inversion H as [|? ? (Hd & _) Hds]; subst. simpl fold_left.
  assert (E0 : Pandas.add_columns [] d = bot_keys).
  { unfold Pandas.add_columns. rewrite Hd. reflexivity. }
  rewrite E0. clear H Hd E0. induction ds as [|d' ds IH]; [reflexivity|].
  inversion Hds as [|? ? (Hd' & _) Hds']; subst. simpl fold_left.
  assert (E1 : Pandas.add_columns bot_keys d' = bot_keys).
  { unfold Pandas.add_columns. rewrite Hd'. reflexivity. }
  rewrite E1. apply IH, Hds'.
Qed.

Lemma groupby_bot_records records :
  Forall bot_record records -> records <> [] ->
  exists groups,
    Pandas.groupby_count "topico_detectado" "categoria" "pagina" records =
      Some groups /\
    total groups = Z.of_nat (length records).
Proof.
  intros H Hne. unfold Pandas.groupby_count.
  rewrite (columns_of_bot_records H Hne). cbn [bot_keys Pandas.has_column existsb String.eqb Ascii.eqb Bool.eqb orb andb].
  eexists. split; [reflexivity|].
  assert (G : forall acc,
    total (fold_left
             (fun acc d =>
                match get "topico_detectado" d, get "categoria" d with
                | Some x, Some y =>
                  Pandas.bump (x, y)
                    (match get "pagina" d with Some _ => 1 | None => 0 end)%Z
                    acc
                | _, _ => acc
                end) records acc) =
    (total acc + Z.of_nat (length records))%Z).
  { clear Hne. induction records as [|d ds IH]; intros acc; [simpl; lia|].
    inversion H as [|? ? (_ & [x Hx] & [y Hy] & [z Hz]) Hds]; subst.
    simpl fold_left. rewrite Hx, Hy, Hz, (IH Hds), bump_total.
    simpl length. lia. }
  rewrite G. reflexivity.
Qed.

Lemma empty_of_bot_records records :
  Forall bot_record records -> records <> [] ->
  Pandas.empty (Pandas.of_records records) = false.
Proof.
  intros H Hne. unfold Pandas.empty.
  rewrite (columns_of_bot_records H Hne).
  destruct records; [contradiction | reflexivity].
Qed.

Lemma allocate_bot_records {U : UnicodeDB} c t hits :
  Forall bot_record (allocate bot_entry c t hits).
Proof.
  apply allocate_Forall with (Q := fun _ => True).
  - intros h d _. split; [reflexivity|]. repeat split; eexists; reflexivity.
  - apply Forall_forall. intros; exact I.
Qed.

(** X9.  [generate_reports] of [bot.py], given what [analyze_pdf] of
    [bot.py] returned, never raises.  It writes the JSON report with
    all the findings; the CSV alert, with the seven columns of a
    finding and one row for each finding of impact ALTO, if and only if
    there is such a finding; and, if there is any finding, the summary,
    whose counts add up to the number of findings. *)
Theorem bot_reports_after_analysis :
  forall (U : UnicodeDB) (self : DOEProcessor) (pdf_path : str)
         (pages : list (option str)) (w0 : world),
    let a := Bot.analyze_pdf self pdf_path pages w0 in
    let w := snd a in
    let found := fst (findings a) in
    let found_high := snd (findings a) in
    let r := Bot.generate_reports self (fst (fst a)) (snd (fst a))
                                  (basename pdf_path) w in
    let timestamp := strftime_stamp (clock w (ticks w)) in
    fst r = Returned /\
    exists groups rows,
      total groups = Z.of_nat (length found) /\
      length rows = length found_high /\
      written w (snd r) =
        [(json_path self timestamp, JsonFile found)] ++
        match found_high with
        | [] => []
        | _ :: _ => [(csv_path self timestamp,
                      CsvFile (py ";") bot_keys rows)]
        end ++
        match found with
        | [] => []
        | _ :: _ => [(txt_path self timestamp, summary_file groups)]
        end.
Proof.
  intros U self pdf_path pages w0. cbv zeta.
  pose proof (bot_findings self pdf_path pages w0) as F. cbv zeta in F.
  destruct (Bot.analyze_pdf self pdf_path pages w0) as [[all high] w].
  unfold findings in F. injection F as Fa Fh.
  cbn [fst snd findings].
  destruct (bot_generate_reports_writes U self all high (basename pdf_path) w)
    as (Hw & Ho & _).
  cbv zeta in Hw, Ho. rewrite Fa in *. rewrite Fh in *.
  set (entries := allocate bot_entry (clock w0) (ticks w0)
                           (doc_hits (keywords self) 0 pages)) in *.
  assert (B : Forall bot_record entries) by apply allocate_bot_records.
  assert (Bh : Forall bot_record (filter is_high entries)).
  { apply Forall_forall. intros d Hd. apply filter_In in Hd as [Hd _].
    rewrite Forall_forall in B. apply B, Hd. }
  assert (Lh : length high = length (filter is_high entries))
    by (rewrite <- Fh; symmetry; apply length_map).
  destruct entries as [|e0 es] eqn:Ee.
  - (* no finding *)
    simpl filter in *. destruct high; [|discriminate Lh].
    simpl in Ho, Hw. split; [exact Ho|].
    exists [], []. repeat split. exact Hw.
  - assert (Hne : e0 :: es <> []) by discriminate.
    rewrite (empty_of_bot_records B Hne) in Ho, Hw.
    destruct (groupby_bot_records B Hne) as (groups & Eg & Et).
    rewrite Eg in Ho, Hw. split; [exact Ho|].
    exists groups, (Pandas.rows (Pandas.of_records (filter is_high (e0 :: es)))).
    split; [exact Et|]. split; [apply of_records_rows|].
    rewrite Hw. f_equal. f_equal.
    destruct (filter is_high (e0 :: es)) as [|h0 hs] eqn:Ef.
    + destruct high; [reflexivity | discriminate Lh].
    + destruct high as [|r0 rs]; [discriminate Lh|].
      rewrite (columns_of_bot_records Bh) by discriminate. reflexivity.
Qed.

(** X10.  [generate_reports] of [bot1.py] reads the clock once and
    writes one file, the JSON report with the records of [data] in
    order, when [data] is not empty; it writes nothing when [data] is
    empty.  It leaves the heap as it was. *)
Theorem bot1_generate_reports_writes :
  forall (U : UnicodeDB) (self : DOEProcessor) (data concursos : list ref)
         (w : world),
    let r := Bot1.generate_reports self data concursos w in
    written w (snd r) =
      match data with
      | [] => []
      | _ :: _ =>
        [(multi_path self (strftime_stamp (clock w (ticks w))),
          JsonFile (map (deref (heap w)) data))]
      end /\
    heap (snd r) = heap w /\ ticks (snd r) = S (ticks w).
Proof.
  intros U self data concursos w. cbv zeta.
  unfold Bot1.generate_reports, bind, datetime_now, write_file, print, ret,
    written, multi_path.
  destruct data as [|d ds]; cbn [heap clock ticks stdout files fst snd].
  - rewrite skipn_all. repeat split.
  - split; [|split; reflexivity].
    erewrite written_app; reflexivity.
Qed.

(* ================================================================== *)
(** * The timestamp in the file names *)
(* ================================================================== *)

Lemma fields_ok_upto (w : nat) (bound : N) :
  forallb (fun k => field_ok w (N.of_nat k)) (seq 0 (N.to_nat bound)) = true ->
  forall n, (n < bound)%N -> field_ok w n = true.
Proof.
  intros H n Hn. rewrite forallb_forall in H.
  rewrite <- (N2Nat.id n). apply H, in_seq. lia.
Qed.

Lemma year_field_ok n : (n <= 9999)%N -> field_ok 4 n = true.
Proof.
  intros H. apply fields_ok_upto with (bound := 10000%N); [vm_compute; reflexivity | lia].
Qed.

Lemma short_field_ok n : (n <= 99)%N -> field_ok 2 n = true.
Proof.
  intros H. apply fields_ok_upto with (bound := 100%N); [vm_compute; reflexivity | lia].
Qed.

Lemma app_inj_by_length {A} (a b c d : list A) :
  length a = length c -> a ++ b = c ++ d -> a = c /\ b = d.
Proof.
  revert c; induction a as [|x a IH]; intros [|y c] L E; simpl in *;
    try discriminate.
  - split; [reflexivity | exact E].
  - injection E as -> E. injection L as L.
    destruct (IH c L E) as [-> ->]. split; reflexivity.
Qed.

Lemma field_inj w n m :
  field_ok w n = true -> field_ok w m = true ->
  zfill w (str_of_N n) = zfill w (str_of_N m) -> n = m.
Proof.
  unfold field_ok. intros Hn Hm E.
  apply andb_true_iff in Hn as [_ Hn]. apply andb_true_iff in Hm as [_ Hm].
  apply N.eqb_eq in Hn, Hm. rewrite <- Hn, <- Hm, E. reflexivity.
Qed.

Lemma field_length w n :
  field_ok w n = true -> length (zfill w (str_of_N n)) = w.
Proof.
  unfold field_ok. intros H. apply andb_true_iff in H as [H _].
  apply Nat.eqb_eq, H.
Qed.

Lemma strftime_stamp_inj d1 d2 :
  valid d1 -> valid d2 ->
  strftime_stamp d1 = strftime_stamp d2 -> minute_of d1 = minute_of d2.
Proof.
  unfold valid, strftime_stamp, minute_of.
  intros (Y1 & M1 & D1 & H1 & m1) (Y2 & M2 & D2 & H2 & m2) E.
  assert (y1 : field_ok 4 (year d1) = true)
    by (apply year_field_ok; lia).
  assert (y2 : field_ok 4 (year d2) = true)
    by (apply year_field_ok; lia).
  assert (o1 : field_ok 2 (month d1) = true)
    by (apply short_field_ok; lia).
  assert (o2 : field_ok 2 (month d2) = true)
    by (apply short_field_ok; lia).
  assert (a1 : field_ok 2 (day d1) = true)
    by (apply short_field_ok; lia).
  assert (a2 : field_ok 2 (day d2) = true)
    by (apply short_field_ok; lia).
  assert (h1 : field_ok 2 (hour d1) = true)
    by (apply short_field_ok; lia).
  assert (h2 : field_ok 2 (hour d2) = true)
    by (apply short_field_ok; lia).
  assert (n1 : field_ok 2 (minute d1) = true)
    by (apply short_field_ok; lia).
  assert (n2 : field_ok 2 (minute d2) = true)
    by (apply short_field_ok; lia).
  apply app_inj_by_length in E as [Ey E];
    [|rewrite !field_length by assumption; reflexivity].
  apply app_inj_by_length in E as [Em E];
    [|rewrite !field_length by assumption; reflexivity].
  apply app_inj_by_length in E as [Ed E];
    [|rewrite !field_length by assumption; reflexivity].
  apply app_inj_by_length in E as [_ E]; [|reflexivity].
  apply app_inj_by_length in E as [Eh Emi];
    [|rewrite !field_length by assumption; reflexivity].
  rewrite (@field_inj _ _ _ y1 y2 Ey), (@field_inj _ _ _ o1 o2 Em),
    (@field_inj _ _ _ a1 a2 Ed), (@field_inj _ _ _ h1 h2 Eh),
    (@field_inj _ _ _ n1 n2 Emi).
  reflexivity.
Qed.

Lemma not_slash {T} (c : N) (u v : T) :
  c <> 47%N -> match c with 47%N => u | _ => v end = v.
Proof.
  intros H. destruct c as [|p]; [reflexivity|].
  do 6 (destruct p as [p|p|]; try reflexivity). contradiction.
Qed.

Lemma path_join_prefix a :
  exists pre, forall b, hd 0%N b <> 47%N -> path_join a b = pre ++ b.
Proof.
  exists (match rev a with
          | [] => []
          | 47%N :: _ => a
          | _ => a ++ [47%N]
          end).
  intros b Hb. unfold path_join. destruct b as [|c b].
  - destruct (rev a) as [|x r]; [reflexivity|].
    destruct (N.eq_dec x 47) as [->|Hx]; [reflexivity|].
    rewrite !(not_slash _ _ Hx). rewrite <- app_assoc. reflexivity.
  - simpl in Hb. rewrite (not_slash _ _ Hb).
    destruct (rev a) as [|x r]; [reflexivity|].
    destruct (N.eq_dec x 47) as [->|Hx]; [reflexivity|].
    rewrite !(not_slash _ _ Hx). rewrite <- app_assoc. reflexivity.
Qed.

Lemma minute_of_stamp d1 d2 :
  minute_of d1 = minute_of d2 -> strftime_stamp d1 = strftime_stamp d2.
Proof.
  unfold minute_of, strftime_stamp. intros E.
  injection E as -> -> -> -> ->. reflexivity.
Qed.

Lemma report_path_inj (a prefix ext s1 s2 : str) :
  hd 0%N (prefix ++ s1 ++ ext) <> 47%N ->
  hd 0%N (prefix ++ s2 ++ ext) <> 47%N ->
  path_join a (prefix ++ s1 ++ ext) = path_join a (prefix ++ s2 ++ ext) ->
  s1 = s2.
Proof.
  intros H1 H2 E. destruct (path_join_prefix a) as (pre & Hp).
  rewrite (Hp _ H1), (Hp _ H2) in E.
  apply app_inv_head, app_inv_head, app_inv_tail in E. exact E.
Qed.

(** X11.  The names of the reports carry the minute in which
    [generate_reports] read the clock: for two readings that are dates
    and times of day, each report of the one call has the name of the
    corresponding report of the other call if and only if the two
    readings fall in the same minute.  Reports written in different
    minutes never replace one another; those written within one minute
    do. *)
Theorem report_names_coincide_within_a_minute :
  forall (self : DOEProcessor) (d1 d2 : datetime),
    valid d1 -> valid d2 ->
    (json_path self (strftime_stamp d1) = json_path self (strftime_stamp d2)
     <-> minute_of d1 = minute_of d2) /\
    (csv_path self (strftime_stamp d1) = csv_path self (strftime_stamp d2)
     <-> minute_of d1 = minute_of d2) /\
    (txt_path self (strftime_stamp d1) = txt_path self (strftime_stamp d2)
     <-> minute_of d1 = minute_of d2) /\
    (multi_path self (strftime_stamp d1) = multi_path self (strftime_stamp d2)
     <-> minute_of d1 = minute_of d2).
Proof.
  intros self d1 d2 V1 V2.
  assert (I := strftime_stamp_inj V1 V2).
  assert (S := @minute_of_stamp d1 d2).
  unfold json_path, csv_path, txt_path, multi_path.
  repeat split; intros E; try (rewrite (S E); reflexivity);
    apply I; eapply report_path_inj; try exact E;
    vm_compute; discriminate.
Qed.

Lemma report_names_coincide_within_a_minute_witness :
  valid (Sample.clock1 0) /\ valid (Sample.clock1 1) /\
  (json_path (Bot.init Sample.cwd) (strftime_stamp (Sample.clock1 0)) =
   json_path (Bot.init Sample.cwd) (strftime_stamp (Sample.clock1 1))
   <-> minute_of (Sample.clock1 0) = minute_of (Sample.clock1 1)).
Proof.
  assert (V0 : valid (Sample.clock1 0)) by (unfold valid; simpl; lia).
  assert (V1 : valid (Sample.clock1 1)) by (unfold valid; simpl; lia).
  split; [exact V0|]. split; [exact V1|].
  exact (proj1 (@report_names_coincide_within_a_minute
                  (Bot.init Sample.cwd) (Sample.clock1 0) (Sample.clock1 1)
                  V0 V1)).
Defined.

(* ================================================================== *)
(** * The orchestrators *)
(* ================================================================== *)

Lemma bot_analyze_keeps_files {U : UnicodeDB} self pdf_path pages w :
  files (snd (Bot.analyze_pdf self pdf_path pages w)) = files w.
Proof. rewrite bot_analyze_pdf. reflexivity. Qed.

Lemma bot1_analyze_keeps_files {U : UnicodeDB} self pdf_path pages w :
  files (snd (Bot1.analyze_pdf self pdf_path pages w)) = files w.
Proof. rewrite bot1_analyze_pdf. reflexivity. Qed.

Lemma fetch_keeps e arg w :
  files (snd (Acquire.fetch e arg w)) = files w /\
  heap (snd (Acquire.fetch e arg w)) = heap w /\
  fst (Acquire.fetch e arg w) =
    Acquire.fetch_result e arg (snd (datetime_now w)).
Proof. repeat split. Qed.

(** X12.  With a PDF reader that returns the pages of the file it is
    given, [run_pipeline] of [bot.py] raises only when the fetch itself
    does (the browser cannot be started), and then nothing is written.
    Otherwise it ends normally, and it writes files only if a PDF was
    returned, exists and has at least one finding: then the first file
    is the JSON report with exactly the findings of that PDF, followed
    by one or two more (the alert, if any, and the summary).  A missing
    PDF and a PDF without any keyword leave no file behind. *)
Theorem run_pipeline_writes_only_for_findings :
  forall (U : UnicodeDB) (e : Acquire.env) (self : DOEProcessor) (w : world),
    let r := BotRun.run_pipeline e self w in
    let w0 := snd (print ([10%N] ++
                          py "=== INICIANDO PIPELINE DE ANÁLISE DO DOE ===")
                         w) in
    let fr := fst (Acquire.fetch e [] w0) in
    let w1 := snd (Acquire.fetch e [] w0) in
    match fr with
    | Acquire.Crashed exc =>
      fst r = Raised exc /\ written w (snd r) = []
    | _ =>
      fst r = Returned /\
      match Acquire.usable e fr w1 with
      | None => written w (snd r) = []
      | Some pdf_path =>
        let a := Bot.analyze_pdf self pdf_path
                                 (Acquire.pdf_pages e pdf_path w1) w1 in
        match fst (findings a) with
        | [] => written w (snd r) = []
        | found =>
          exists rest,
            written w (snd r) =
              (json_path self
                 (strftime_stamp (clock (snd a) (ticks (snd a)))),
               JsonFile found) :: rest /\
            1 <= length rest <= 2
        end
      end
    end.
Proof.
  intros U e self w. cbv zeta.
  destruct (BotRun.run_pipeline e self w) as [o wf] eqn:Er.
  unfold BotRun.run_pipeline, bind in Er.
  set (w0 := snd (print ([10%N] ++
                         py "=== INICIANDO PIPELINE DE ANÁLISE DO DOE ===")
                        w)) in *.
  assert (F0 : files w0 = files w) by reflexivity.
  change (print ([10%N] ++ py "=== INICIANDO PIPELINE DE ANÁLISE DO DOE ===") w)
    with (tt, w0) in Er.
  cbv beta iota in Er.
  pose proof (fetch_keeps e [] w0) as (F1 & _).
  destruct (Acquire.fetch e [] w0) as [fr w1].
  cbn [fst snd] in *. rewrite F0 in F1. unfold written.
  destruct fr as [p| |exc].
  3: { unfold ret in Er. injection Er as <- <-.
       rewrite F1, skipn_all. split; reflexivity. }
  - (* a path was returned *)
    destruct (Acquire.usable e (Acquire.Got p) w1) as [pdf_path|] eqn:Eu.
    + pose proof (bot_reports_after_analysis U self pdf_path
                    (Acquire.pdf_pages e pdf_path w1) w1) as R.
      pose proof (bot_analyze_keeps_files self pdf_path
                    (Acquire.pdf_pages e pdf_path w1) w1) as Fa.
      cbv zeta in R.
      destruct (Bot.analyze_pdf self pdf_path
                  (Acquire.pdf_pages e pdf_path w1) w1) as [[all high] wa].
      cbn [fst snd findings] in *.
      destruct all as [|r0 rs].
      * unfold print, ret in Er. simpl in Er. injection Er as <- <-.
        simpl. rewrite Fa, F1, skipn_all. split; reflexivity.
      * destruct R as (Ro & groups & rows & Rt & Rl & Rw).
        destruct (Bot.generate_reports self (r0 :: rs) high
                    (basename pdf_path) wa) as [og wg].
        cbn [fst snd] in *. subst og.
        unfold print, ret in Er. injection Er as <- <-.
        split; [reflexivity|]. cbn [files].
        unfold written in Rw. rewrite Fa, F1 in Rw. rewrite Rw.
        set (found := map (deref (heap wa)) (r0 :: rs)) in *.
        destruct found as [|f0 fs] eqn:E0; [discriminate E0|].
        eexists. split; [reflexivity|].
        rewrite length_app. destruct (map (deref (heap wa)) high);
          simpl; lia.
    + unfold print, ret in Er. simpl in Er. injection Er as <- <-.
      simpl. rewrite F1, skipn_all. split; reflexivity.
  - (* None was returned *)
    unfold Acquire.usable, print, ret in Er. simpl in Er.
    injection Er as <- <-. simpl. rewrite F1, skipn_all.
    split; reflexivity.
Qed.

Lemma deref_app_l (l l' : list dict) r :
  r < length l -> deref (l ++ l') r = deref l r.
Proof. intros H. unfold deref. apply app_nth1, H. Qed.

Lemma filter_high_stable (l l' : list dict) a n :
  a + n <= length l ->
  filter (fun r => is_high (deref (l ++ l') r)) (seq a n) =
  filter (fun r => is_high (deref l r)) (seq a n).
Proof.
  intros H. apply filter_ext_in. intros r Hr. apply in_seq in Hr.
  rewrite deref_app_l by lia. reflexivity.
Qed.

Section Batch.
Context {U : UnicodeDB}.

(** What the loop of [process_dates] has done when it is left. *)
Lemma dates_loop_inv e self dates :
  forall af ac w,
    let r := Bot1Run.dates_loop e self dates af ac w in
    exists new,
      heap (snd r) = heap w ++ new /\
      files (snd r) = files w /\
      Forall (from_a_date e dates) new /\
      match fst r with
      | inl _ => True
      | inr (af', ac') =>
        af' = af ++ seq (length (heap w)) (length new) /\
        ac' = ac ++ filter (fun x => is_high (deref (heap w ++ new) x))
                           (seq (length (heap w)) (length new))
      end.
Proof.
  induction dates as [|date rest IH]; intros af ac w; cbv zeta.
  - exists []. simpl. rewrite !app_nil_r. repeat split. constructor.
  - destruct (Bot1Run.dates_loop e self (date :: rest) af ac w)
      as [res wf] eqn:Er.
    cbn [Bot1Run.dates_loop] in Er. unfold bind in Er.
    match type of Er with context [print ?b w] =>
      set (w0 := snd (print b w)) in *;
      change (print b w) with (tt, w0) in Er
    end.
    cbv beta iota in Er.
    pose proof (fetch_keeps e date w0) as (F1 & H1 & R1).
    destruct (Acquire.fetch e date w0) as [fr w1].
    cbn [fst snd] in F1, H1, R1 |- *.
    change (files w0) with (files w) in F1.
    change (heap w0) with (heap w) in H1.
    assert (Mono : forall new, Forall (from_a_date e rest) new ->
                               Forall (from_a_date e (date :: rest)) new).
    { intros new Hp. eapply Forall_impl; [|exact Hp].
      intros d (dt & wx & q & Hin & Hq & Hg).
      exists dt, wx, q. split; [right; exact Hin|]. split; assumption. }
    destruct fr as [p| |exc].
    3: { unfold ret in Er. injection Er as <- <-. exists [].
         simpl. rewrite app_nil_r, F1, H1. repeat split. constructor. }
    + (* a path was returned *)
      destruct (Acquire.usable e (Acquire.Got p) w1) as [pdf_path|] eqn:Eu.
      * assert (Ep : pdf_path = p).
        { unfold Acquire.usable in Eu.
          destruct (negb (falsy (Some p)) && Acquire.path_exists e p w1);
            [injection Eu as <-; reflexivity | discriminate Eu]. }
        subst pdf_path.
        rewrite bot1_analyze_pdf in Er. cbv zeta in Er.
        unfold ret in Er. cbn [fst snd] in Er.
        set (hits := doc_hits (keywords self) 0 (Acquire.pdf_pages e p w1))
          in *.
        set (wa := emit (bot1_entry p) hits
                     (snd (print (py "Analisando: " ++ basename p) w1))) in *.
        destruct (IH (af ++ seq (length (heap w1)) (length hits))
                     (ac ++ high_refs (length (heap w1)) hits) wa)
          as (new & Hh & Hf & Hp & Hr).
        cbv zeta in Hh, Hf, Hp, Hr. rewrite Er in Hh, Hf, Hr.
        cbn [fst snd] in Hh, Hf, Hr.
        set (entries := allocate (bot1_entry p) (clock w1) (ticks w1) hits).
        assert (Ha : heap wa = heap w ++ entries)
          by (unfold wa, emit, print; simpl; rewrite H1; reflexivity).
        assert (Fa : files wa = files w)
          by (unfold wa, emit, print; simpl; exact F1).
        exists (entries ++ new).
        rewrite Hh, Hf, Ha, Fa, app_assoc.
        split; [reflexivity|]. split; [reflexivity|]. split.
        { apply Forall_app. split; [|apply Mono, Hp].
          apply allocate_Forall with (Q := fun _ => True);
            [|apply Forall_forall; intros; exact I].
          intros h d _. exists date, (snd (datetime_now w0)), p.
          split; [left; reflexivity|]. split; [|reflexivity].
          symmetry. exact R1. }
        destruct res as [exc|[af' ac']]; [exact I|].
        destruct Hr as [-> ->]. rewrite Ha, H1.
        assert (Le : length entries = length hits)
          by apply allocate_length.
        rewrite !length_app, Le, seq_app, filter_app, <- !app_assoc.
        split; [reflexivity|]. f_equal. f_equal.
        rewrite (high_refs_filter (bot1_entry p) (clock w1)
                   (bot1_entry_high p) hits (ticks w1) (heap w)).
        fold entries. symmetry. rewrite app_assoc.
        apply filter_high_stable. rewrite length_app. lia.
      * unfold print at 1, ret at 1 in Er. cbn [fst snd] in Er.
        match type of Er with Bot1Run.dates_loop e self rest af ac ?wx = _ =>
          destruct (IH af ac wx) as (new & Hh & Hf & Hp & Hr) end.
        cbv zeta in Hh, Hf, Hp, Hr. rewrite Er in Hh, Hf, Hr.
        cbn [fst snd heap files] in Hh, Hf, Hr.
        rewrite H1 in Hh, Hr. rewrite F1 in Hf.
        exists new. split; [exact Hh|]. split; [exact Hf|].
        split; [apply Mono, Hp | exact Hr].
    + (* None was returned *)
      unfold Acquire.usable in Er.
      unfold print at 1, ret at 1 in Er. cbn [fst snd] in Er.
      match type of Er with Bot1Run.dates_loop e self rest af ac ?wx = _ =>
        destruct (IH af ac wx) as (new & Hh & Hf & Hp & Hr) end.
      cbv zeta in Hh, Hf, Hp, Hr. rewrite Er in Hh, Hf, Hr.
      cbn [fst snd heap files] in Hh, Hf, Hr.
      rewrite H1 in Hh, Hr. rewrite F1 in Hf.
      exists new. split; [exact Hh|]. split; [exact Hf|].
      split; [apply Mono, Hp | exact Hr].
Qed.

End Batch.

(** X13.  [process_dates] of [bot1.py] writes at most one file.  When it
    ends normally, the file is the JSON report whose records are all
    the findings made during the call, in the order in which they were
    made, and it is written if and only if there is a finding; each of
    them names the file that the fetch returned for one of the dates.
    When an exception of the fetch ends the loop, no report is written,
    whatever was found for the dates before. *)
Theorem process_dates_reports_every_finding :
  forall (U : UnicodeDB) (e : Acquire.env) (self : DOEProcessor)
         (lista_datas : list str) (w : world),
    let r := Bot1Run.process_dates e self lista_datas w in
    exists new timestamp,
      heap (snd r) = heap w ++ new /\
      Forall (from_a_date e lista_datas) new /\
      match fst r with
      | Raised _ => written w (snd r) = []
      | Returned =>
        written w (snd r) =
          match new with
          | [] => []
          | _ :: _ => [(multi_path self timestamp, JsonFile new)]
          end
      end.
Proof.
  intros U e self dates w. cbv zeta.
  destruct (Bot1Run.process_dates e self dates w) as [o wf] eqn:Er.
  unfold Bot1Run.process_dates, bind in Er.
  destruct (dates_loop_inv e self dates [] [] w) as (new & Hh & Hf & Hp & Hr).
  cbv zeta in Hh, Hf, Hp, Hr.
  destruct (Bot1Run.dates_loop e self dates [] [] w) as [res wl].
  cbn [fst snd] in Hh, Hf, Hr |- *.
  exists new, (strftime_stamp (clock wl (ticks wl))).
  unfold written.
  destruct res as [exc|[af ac]].
  - unfold ret in Er. injection Er as <- <-. rewrite Hf, skipn_all.
    repeat split; assumption.
  - destruct Hr as [Ea _]. simpl app in Ea.
    destruct new as [|d0 ds] eqn:En.
    + simpl in Ea. subst af. unfold print, ret in Er. simpl in Er.
      injection Er as <- <-. simpl. rewrite Hf, skipn_all.
      repeat split; assumption.
    + rewrite <- En in *.
      destruct af as [|r0 rs].
      { apply (f_equal (@length nat)) in Ea. rewrite length_seq, En in Ea.
        discriminate Ea. }
      pose proof (bot1_generate_reports_writes U self (r0 :: rs) ac wl)
        as (Gw & Gh & _).
      cbv zeta in Gw, Gh.
      destruct (Bot1.generate_reports self (r0 :: rs) ac wl) as [[] wg].
      cbn [fst snd] in *. unfold ret in Er. injection Er as <- <-.
      split; [rewrite Gh; exact Hh|]. split; [exact Hp|].
      unfold written in Gw. rewrite <- Hf, Gw.
      rewrite Ea, Hh, deref_fresh. reflexivity.
Qed.

(** X14.  When the loop of [process_dates] is left normally, the list
    [all_concursos] that it hands to [generate_reports] is
    [all_findings] filtered on impact ALTO, with the same references in
    the same order, and no reference occurs twice in [all_findings]:
    the relation between the two lists of one document carries over to
    a batch of documents. *)
Theorem batch_high_impact_is_filtered_view :
  forall (U : UnicodeDB) (e : Acquire.env) (self : DOEProcessor)
         (lista_datas : list str) (w : world),
    let r := Bot1Run.dates_loop e self lista_datas [] [] w in
    match fst r with
    | inl _ => True
    | inr (all_findings, all_concursos) =>
      all_concursos =
        filter (fun x => is_high (deref (heap (snd r)) x)) all_findings /\
      NoDup all_findings /\
      map (deref (heap (snd r))) all_concursos =
        filter is_high (map (deref (heap (snd r))) all_findings)
    end.
Proof.
  intros U e self dates w. cbv zeta.
  destruct (dates_loop_inv e self dates [] [] w) as (new & Hh & _ & _ & Hr).
  cbv zeta in Hh, Hr.
  destruct (Bot1Run.dates_loop e self dates [] [] w) as [[exc|[af ac]] wl];
    cbn [fst snd] in *; [exact I|].
  destruct Hr as [-> ->]. simpl app. rewrite Hh.
  split; [reflexivity|]. split; [apply seq_NoDup|].
  apply map_filter_comm.
Qed.

(* ================================================================== *)
(** * The download folder *)
(* ================================================================== *)

Lemma max_from_spec best rest :
  In (Downloads.max_from best rest) (best :: rest) /\
  Forall (fun y => (Downloads.ctime y <=
                    Downloads.ctime (Downloads.max_from best rest))%Z)
         (best :: rest).
Proof.
  revert best; induction rest as [|e r IH]; intros best; simpl.
  - split; [left; reflexivity|]. constructor; [lia | constructor].
  - destruct (Z.ltb_spec (Downloads.ctime best) (Downloads.ctime e)).
    + destruct (IH e) as [Hin Hall]. split; [right; exact Hin|].
      inversion Hall as [|? ? He Hr]; subst.
      constructor; [lia|]. constructor; assumption.
    + destruct (IH best) as [Hin Hall]. split.
      * destruct Hin as [<-|Hin]; [left; reflexivity | right; right; exact Hin].
      * inversion Hall as [|? ? Hb Hr]; subst.
        constructor; [exact Hb|]. constructor; [lia | exact Hr].
Qed.

(** X15.  [fetch_latest_pdf] returns [None] exactly when no file of the
    download folder has a name ending in ".pdf"; otherwise it returns
    the path, inside the download folder, of such a file that no other
    such file is newer than.  It returns the same whether the browser
    step succeeded or raised: after a failed download the newest PDF
    already in the folder is what the caller gets. *)
Theorem fetch_latest_pdf_returns_newest :
  forall (self : DOEProcessor) (b : Downloads.browser)
         (d : Downloads.directory),
    match Downloads.fetch_latest_pdf self b d with
    | None => Downloads.pdf_files d = []
    | Some p =>
      exists x,
        In x d /\
        Downloads.ends_with (py ".pdf") (Downloads.name x) = true /\
        p = path_join (download_dir self) (Downloads.name x) /\
        Forall (fun y => (Downloads.ctime y <= Downloads.ctime x)%Z)
               (Downloads.pdf_files d)
    end /\
    Downloads.fetch_latest_pdf self b d =
    Downloads.fetch_latest_pdf self Downloads.Clicked d.
Proof.
  intros self b d. split; [|destruct b; reflexivity].
  assert (E : Downloads.fetch_latest_pdf self b d =
              match Downloads.latest (Downloads.pdf_files d) with
              | None => None
              | Some x => Some (path_join (download_dir self)
                                          (Downloads.name x))
              end).
  { destruct b; unfold Downloads.fetch_latest_pdf;
      destruct (Downloads.latest (Downloads.pdf_files d)); reflexivity. }
  rewrite E. unfold Downloads.latest.
  destruct (Downloads.pdf_files d) as [|e r] eqn:Ef; [reflexivity|].
  destruct (max_from_spec e r) as [Hin Hall].
  exists (Downloads.max_from e r).
  rewrite <- Ef in Hin. unfold Downloads.pdf_files in Hin.
  apply filter_In in Hin as [Hd Hp].
  repeat split; assumption.
Qed.

Lemma str_eqb_spec (a b : str) : reflect (a = b) (str_eqb a b).
Proof.
  destruct (str_eqb a b) eqn:E; constructor.
  - apply str_eqb_eq, E.
  - intros H. apply str_eqb_eq in H. congruence.
Qed.

Section Folder.
Import Downloads.

Lemma lookup_remove_same n d : lookup n (remove n d) = None.
Proof.
  unfold lookup, remove. induction d as [|e r IH]; simpl; [reflexivity|].
  destruct (str_eqb_spec (name e) n); simpl; [exact IH|].
  destruct (str_eqb_spec (name e) n); [contradiction | exact IH].
Qed.

Lemma lookup_remove_other n m d :
  n <> m -> lookup n (remove m d) = lookup n d.
Proof.
  intros H. unfold lookup, remove.
  induction d as [|e r IH]; simpl; [reflexivity|].
  destruct (str_eqb_spec (name e) m) as [Em|Em]; simpl.
  - destruct (str_eqb_spec (name e) n); [congruence | exact IH].
  - destruct (str_eqb_spec (name e) n); [reflexivity | exact IH].
Qed.

Lemma exists_name_lookup n d :
  exists_name n d = match lookup n d with Some _ => true | None => false end.
Proof.
  unfold exists_name, lookup. induction d as [|e r IH]; simpl; [reflexivity|].
  destruct (str_eqb (name e) n); [reflexivity | exact IH].
Qed.

Lemma lookup_In x d :
  NoDup (map name d) -> In x d -> lookup (name x) d = Some x.
Proof.
  unfold lookup. induction d as [|e r IH]; intros ND Hin; [contradiction|].
  simpl in ND. inversion ND as [|? ? Hn ND']; subst. simpl.
  destruct Hin as [->|Hin].
  - destruct (str_eqb_spec (name x) (name x)); [reflexivity | contradiction].
  - destruct (str_eqb_spec (name e) (name x)) as [E|E]; [|apply IH; assumption].
    exfalso. apply Hn. rewrite E. apply in_map, Hin.
Qed.

Lemma remove_absent n d : exists_name n d = false -> remove n d = d.
Proof.
  unfold exists_name, remove. induction d as [|e r IH]; simpl; [reflexivity|].
  destruct (str_eqb (name e) n); simpl; [discriminate|].
  intros H. rewrite IH by exact H. reflexivity.
Qed.

Lemma remove_idem n d : remove n (remove n d) = remove n d.
Proof.
  apply remove_absent. rewrite exists_name_lookup, lookup_remove_same.
  reflexivity.
Qed.

(** Looking a name up after the files named [src] were given the name
    [dst], which no file had. *)
Lemma lookup_renamed src dst now d n :
  src <> dst -> lookup dst d = None ->
  lookup n (map (fun e => if str_eqb (name e) src
                          then mkEntry dst now (content e) else e) d) =
  if str_eqb n src then None
  else if str_eqb n dst then
    match lookup src d with
    | Some x => Some (mkEntry dst now (content x))
    | None => None
    end
  else lookup n d.
Proof.
  intros Hsd. unfold lookup.
  induction d as [|e r IH]; simpl; intros Hd.
  - destruct (str_eqb n src), (str_eqb n dst); reflexivity.
  - destruct (str_eqb_spec (name e) dst) as [Ed|Ed]; [discriminate Hd|].
    specialize (IH Hd).
    destruct (str_eqb_spec (name e) src) as [Es|Es]; simpl.
    + destruct (str_eqb_spec dst n) as [<-|Hn].
      * destruct (str_eqb_spec dst src); [congruence|].
        destruct (str_eqb_spec dst dst); [|contradiction].
        destruct (str_eqb_spec (name e) src); [reflexivity | contradiction].
      * rewrite IH. destruct (str_eqb_spec n src) as [->|Hs]; [reflexivity|].
        destruct (str_eqb_spec n dst); [congruence|].
        destruct (str_eqb_spec (name e) n); [congruence | reflexivity].
    + destruct (str_eqb_spec (name e) n) as [En|En].
      * destruct (str_eqb_spec n src); [congruence|].
        destruct (str_eqb_spec n dst); [congruence | reflexivity].
      * exact IH.
Qed.

End Folder.

Lemma latest_In files x :
  Downloads.latest files = Some x -> In x files.
Proof.
  unfold Downloads.latest. destruct files as [|e r]; [discriminate|].
  intros H; injection H as <-. apply max_from_spec.
Qed.

(** X16.  In [fetch_pdf_by_date], when the newest PDF of the download
    folder does not yet have the name made from the date
    ("DOE_" + the date with "-" for "/" + ".pdf"), that file is given
    this name, whatever edition it holds: the function returns the new
    path, the folder then has under the new name the content of the
    newest PDF, replacing any file that had the name, the old name is
    gone, and every other file is as it was. *)
Theorem claim_download_renames_newest :
  forall (self : DOEProcessor) (data_str : str) (now : Z)
         (d : Downloads.directory) (x : Downloads.dir_entry),
    NoDup (map Downloads.name d) ->
    Downloads.latest (Downloads.pdf_files d) = Some x ->
    Downloads.name x <> Downloads.dated_name data_str ->
    let r := Downloads.claim_download self data_str now d in
    fst r = Some (path_join (download_dir self)
                            (Downloads.dated_name data_str)) /\
    Downloads.lookup (Downloads.dated_name data_str) (snd r) =
      Some (Downloads.mkEntry (Downloads.dated_name data_str) now
                              (Downloads.content x)) /\
    Downloads.lookup (Downloads.name x) (snd r) = None /\
    (forall n, n <> Downloads.name x ->
               n <> Downloads.dated_name data_str ->
               Downloads.lookup n (snd r) = Downloads.lookup n d).
Proof.
  intros self data_str now d x ND HL Hne. cbv zeta.
  set (new := Downloads.dated_name data_str) in *.
  assert (Hin : In x d).
  { apply latest_In in HL. unfold Downloads.pdf_files in HL.
    apply filter_In in HL as [H _]. exact H. }
  unfold Downloads.claim_download. rewrite HL. fold new.
  assert (E1 : (if Downloads.exists_name new d
                then Downloads.remove new d else d) = Downloads.remove new d).
  { destruct (Downloads.exists_name new d) eqn:E; [reflexivity|].
    symmetry. apply remove_absent, E. }
  rewrite E1.
  assert (Lx : Downloads.lookup (Downloads.name x) (Downloads.remove new d)
               = Some x).
  { rewrite lookup_remove_other by exact Hne. apply lookup_In; assumption. }
  unfold Downloads.rename.
  rewrite exists_name_lookup, Lx.
  destruct (str_eqb_spec (Downloads.name x) new); [contradiction|].
  rewrite remove_idem. cbn [fst snd].
  split; [reflexivity|].
  assert (R := fun n => @lookup_renamed (Downloads.name x) new now
                          (Downloads.remove new d) n Hne
                          (lookup_remove_same new d)).
  split; [|split].
  - rewrite R. destruct (str_eqb_spec new (Downloads.name x)); [congruence|].
    destruct (str_eqb_spec new new); [|contradiction]. rewrite Lx.
    reflexivity.
  - rewrite R.
    destruct (str_eqb_spec (Downloads.name x) (Downloads.name x));
      [reflexivity | contradiction].
  - intros m H1 H2. rewrite R.
    destruct (str_eqb_spec m (Downloads.name x)); [contradiction|].
    destruct (str_eqb_spec m new); [contradiction|].
    apply lookup_remove_other, H2.
Qed.

Lemma claim_download_renames_newest_witness :
  NoDup (map Downloads.name Scenario.folder) /\
  Downloads.latest (Downloads.pdf_files Scenario.folder) =
    Some (Downloads.mkEntry (py "DOE_02-01-2025.pdf") 200
                            [Some (py "lei nº 2")]) /\
  py "DOE_02-01-2025.pdf" <> Downloads.dated_name (py "03/01/2025") /\
  fst (Downloads.claim_download (Bot1.init Sample.cwd) (py "03/01/2025") 400
                                Scenario.folder) =
  Some (path_join (download_dir (Bot1.init Sample.cwd))
                  (Downloads.dated_name (py "03/01/2025"))).
Proof.
  assert (ND : NoDup (map Downloads.name Scenario.folder)) by nodup_strs.
  assert (HL : Downloads.latest (Downloads.pdf_files Scenario.folder) =
               Some (Downloads.mkEntry (py "DOE_02-01-2025.pdf") 200
                                       [Some (py "lei nº 2")]))
    by reflexivity.
  assert (Hne : Downloads.name (Downloads.mkEntry (py "DOE_02-01-2025.pdf")
                                  200 [Some (py "lei nº 2")]) <>
                Downloads.dated_name (py "03/01/2025"))
    by (vm_compute; discriminate).
  split; [exact ND|]. split; [exact HL|]. split; [exact Hne|].
  exact (proj1 (@claim_download_renames_newest (Bot1.init Sample.cwd)
                  (py "03/01/2025") 400 Scenario.folder _ ND HL Hne)).
Defined.

(** X17.  In [fetch_pdf_by_date], when the newest PDF of the download
    folder already has the name made from the date (the download left
    no newer PDF), the function removes that file, fails to rename it,
    and returns [None]: the edition is lost from the folder.  The other
    files are as they were. *)
Theorem claim_download_deletes_the_file_it_has :
  forall (self : DOEProcessor) (data_str : str) (now : Z)
         (d : Downloads.directory) (x : Downloads.dir_entry),
    Downloads.latest (Downloads.pdf_files d) = Some x ->
    Downloads.name x = Downloads.dated_name data_str ->
    let r := Downloads.claim_download self data_str now d in
    fst r = None /\
    Downloads.lookup (Downloads.dated_name data_str) (snd r) = None /\
    (forall n, n <> Downloads.dated_name data_str ->
               Downloads.lookup n (snd r) = Downloads.lookup n d).
Proof.
  intros self data_str now d x HL He. cbv zeta.
  set (new := Downloads.dated_name data_str) in *.
  assert (Hin : In x d).
  { apply latest_In in HL. unfold Downloads.pdf_files in HL.
    apply filter_In in HL as [H _]. exact H. }
  assert (Ex : Downloads.exists_name new d = true).
  { unfold Downloads.exists_name. apply existsb_exists. exists x.
    split; [exact Hin|]. apply str_eqb_eq, He. }
  unfold Downloads.claim_download. rewrite HL. fold new. rewrite Ex.
  unfold Downloads.rename. rewrite He, exists_name_lookup.
  rewrite lookup_remove_same. cbn [fst snd].
  split; [reflexivity|]. split; [apply lookup_remove_same|].
  intros n Hn. apply lookup_remove_other, Hn.
Qed.

Lemma claim_download_deletes_the_file_it_has_witness :
  Downloads.latest (Downloads.pdf_files Scenario.folder) =
    Some (Downloads.mkEntry (py "DOE_02-01-2025.pdf") 200
                            [Some (py "lei nº 2")]) /\
  py "DOE_02-01-2025.pdf" = Downloads.dated_name (py "02/01/2025") /\
  fst (Downloads.claim_download (Bot1.init Sample.cwd) (py "02/01/2025") 400
                                Scenario.folder) = None.
Proof.
  assert (HL : Downloads.latest (Downloads.pdf_files Scenario.folder) =
               Some (Downloads.mkEntry (py "DOE_02-01-2025.pdf") 200
                                       [Some (py "lei nº 2")]))
    by reflexivity.
  assert (He : Downloads.name (Downloads.mkEntry (py "DOE_02-01-2025.pdf")
                                 200 [Some (py "lei nº 2")]) =
               Downloads.dated_name (py "02/01/2025"))
    by reflexivity.
  split; [exact HL|]. split; [exact He|].
  exact (proj1 (@claim_download_deletes_the_file_it_has
                  (Bot1.init Sample.cwd) (py "02/01/2025") 400
                  Scenario.folder _ HL He)).
Defined.

(* ================================================================== *)
(** * The file name in the findings of a date *)
(* ================================================================== *)

Lemma basename_from_plain cur n :
  forallb (fun c => negb (c =? 47)%N) n = true ->
  basename_from cur n = rev cur ++ n.
Proof.
  revert cur; induction n as [|c n IH]; intros cur H; simpl.
  - rewrite app_nil_r. reflexivity.
  - simpl in H. apply andb_true_iff in H as [Hc Hn].
    destruct (c =? 47)%N; [discriminate Hc|].
    rewrite IH by exact Hn. simpl. rewrite <- app_assoc. reflexivity.
Qed.

Lemma basename_from_slash p q :
  forall cur, basename_from cur (p ++ 47%N :: q) = basename_from [] q.
Proof.
  induction p as [|c p IH]; intros cur; simpl; [reflexivity|].
  destruct (c =? 47)%N; apply IH.
Qed.

Lemma basename_path_join a n :
  forallb (fun c => negb (c =? 47)%N) n = true ->
  basename (path_join a n) = n.
Proof.
  intros Hn. unfold basename.
  assert (Hh : hd 0%N n <> 47%N).
  { destruct n as [|c n]; simpl; [discriminate|].
    simpl in Hn. apply andb_true_iff in Hn as [Hc _].
    intros ->. discriminate Hc. }
  assert (P : path_join a n = n \/ exists p, path_join a n = p ++ 47%N :: n).
  { unfold path_join. destruct n as [|c n].
    - destruct (rev a) as [|x r] eqn:Er; [left; reflexivity|]. right.
      destruct (N.eq_dec x 47) as [->|Hx].
      + exists (rev r). apply (f_equal (@rev N)) in Er.
        rewrite rev_involutive in Er. simpl in Er. rewrite Er.
        rewrite <- app_assoc. reflexivity.
      + exists a. rewrite (not_slash _ _ Hx). reflexivity.
    - simpl in Hh. rewrite (not_slash _ _ Hh).
      destruct (rev a) as [|x r] eqn:Er; [left; reflexivity|]. right.
      destruct (N.eq_dec x 47) as [->|Hx].
      + exists (rev r). apply (f_equal (@rev N)) in Er.
        rewrite rev_involutive in Er. simpl in Er. rewrite Er.
        rewrite <- app_assoc. reflexivity.
      + exists a. rewrite (not_slash _ _ Hx). reflexivity. }
  destruct P as [->|[p ->]].
  - apply (basename_from_plain [] n Hn).
  - rewrite basename_from_slash. apply (basename_from_plain [] n Hn).
Qed.

Lemma dated_name_plain data_str :
  forallb (fun c => negb (c =? 47)%N) (Downloads.dated_name data_str) = true.
Proof.
  unfold Downloads.dated_name. rewrite !forallb_app.
  assert (R : forallb (fun c => negb (c =? 47)%N)
                      (Downloads.replace 47 45 data_str) = true).
  { unfold Downloads.replace. induction data_str as [|c s IH]; [reflexivity|].
    simpl. rewrite IH, andb_true_r.
    destruct (N.eqb_spec c 47) as [->|Hc]; [reflexivity|].
    destruct (N.eqb_spec c 47); [contradiction | reflexivity]. }
  rewrite R. reflexivity.
Qed.

(** X18.  The path that [fetch_pdf_by_date] returns for a date has, as
    its last component, "DOE_" + the date with every "/" turned into
    "-" + ".pdf", whatever the download folder is; so every finding
    that [analyze_pdf] of [bot1.py] makes in that file carries this
    name in its ["arquivo"] field, and the name has no "/" in it. *)
Theorem findings_of_a_date_carry_its_file_name :
  forall (U : UnicodeDB) (self : DOEProcessor) (data_str : str)
         (pages : list (option str)) (w : world),
    let new_name := path_join (download_dir self)
                              (Downloads.dated_name data_str) in
    basename new_name = Downloads.dated_name data_str /\
    forallb (fun c => negb (c =? 47)%N) (Downloads.dated_name data_str)
      = true /\
    Forall (fun d => get "arquivo" d =
                     Some (VStr (Downloads.dated_name data_str)))
           (fst (findings (Bot1.analyze_pdf self new_name pages w))).
Proof.
  intros U self data_str pages w. cbv zeta.
  pose proof (dated_name_plain data_str) as Hp.
  pose proof (basename_path_join (download_dir self) _ Hp) as Hb.
  split; [exact Hb|]. split; [exact Hp|].
  rewrite bot1_findings. cbv zeta. cbn [fst].
  apply allocate_Forall with (Q := fun _ => True);
    [|apply Forall_forall; intros; exact I].
  intros h d _.
  change (Some (VStr (basename (path_join (download_dir self)
                                          (Downloads.dated_name data_str)))) =
          Some (VStr (Downloads.dated_name data_str))).
  rewrite Hb. reflexivity.
Qed.

(* ================================================================== *)
(** * The two scripts, categories and the heading *)
(* ================================================================== *)

Lemma allocate_bot1_bot {U : UnicodeDB} p c t hits :
  allocate (bot1_entry p) c t hits =
  map (fun d => ("arquivo", VStr (basename p)) :: d)
      (allocate bot_entry c t hits).
Proof.
  revert t; induction hits as [|h hits IH]; intros t; simpl; [reflexivity|].
  rewrite IH. reflexivity.
Qed.

(** X19.  For the same catalog, document and world, [analyze_pdf] of
    [bot1.py] makes the findings of [analyze_pdf] of [bot.py], each
    with the ["arquivo"] field put in front, and so for the high-impact
    findings: the two scripts classify alike. *)
Theorem bot1_findings_are_bot_findings_with_the_file :
  forall (U : UnicodeDB) (self : DOEProcessor) (pdf_path : str)
         (pages : list (option str)) (w : world),
    let with_file := map (fun d => ("arquivo", VStr (basename pdf_path)) :: d) in
    fst (findings (Bot1.analyze_pdf self pdf_path pages w)) =
      with_file (fst (findings (Bot.analyze_pdf self pdf_path pages w))) /\
    snd (findings (Bot1.analyze_pdf self pdf_path pages w)) =
      with_file (snd (findings (Bot.analyze_pdf self pdf_path pages w))).
Proof.
  intros U self pdf_path pages w. cbv zeta.
  rewrite bot_findings, bot1_findings. cbv zeta. cbn [fst snd].
  rewrite allocate_bot1_bot. split; [reflexivity|].
  rewrite <- (map_filter_comm
                (fun d => ("arquivo", VStr (basename pdf_path)) :: d)
                is_high).
  reflexivity.
Qed.

Lemma page_matches_app {U : UnicodeDB} kw1 kw2 text :
  page_matches (kw1 ++ kw2) text =
  page_matches kw1 text ++ page_matches kw2 text.
Proof.
  unfold page_matches. destruct (falsy text); [reflexivity|].
  cbv zeta. apply flat_map_app.
Qed.

(** X20.  Categories do not compete: with a catalog that is one catalog
    followed by another, the findings of a page (category, term and
    snippet) are those for the first catalog followed by those for the
    second.  Adding a category to the catalog adds its findings and
    changes no other.  This holds for [bot.py] and for [bot1.py]. *)
Theorem findings_of_joined_catalogs :
  forall (U : UnicodeDB) (self : DOEProcessor) (pdf_path : str)
         (pages : list (option str)) (w : world) (i : nat)
         (kw1 kw2 : keywords_t),
    let proc := mkProcessor (download_dir self) (reports_dir self) in
    let view := map (fun d => (field_str "categoria" d,
                               field_str "termo_encontrado" d,
                               field_str "resumo_snippet" d)) in
    (let run := fun kw => filter (on_page i)
                   (fst (findings (Bot.analyze_pdf (proc kw) pdf_path
                                                   pages w))) in
     view (run (kw1 ++ kw2)) = view (run kw1) ++ view (run kw2)) /\
    (let run := fun kw => filter (on_page i)
                   (fst (findings (Bot1.analyze_pdf (proc kw) pdf_path
                                                    pages w))) in
     view (run (kw1 ++ kw2)) = view (run kw1) ++ view (run kw2)).
Proof.
  intros U self pdf_path pages w i kw1 kw2. cbv zeta. split.
  - rewrite !bot_findings. cbv zeta. cbn [fst keywords].
    rewrite !(snippets_on_page bot_entry (clock w) (ticks w) _ pages i
                (bot_entry_page i)) by reflexivity.
    rewrite page_matches_app, map_app. reflexivity.
  - rewrite !bot1_findings. cbv zeta. cbn [fst keywords].
    rewrite !(snippets_on_page (bot1_entry pdf_path) (clock w) (ticks w) _
                pages i (bot1_entry_page pdf_path i)) by reflexivity.
    rewrite page_matches_app, map_app. reflexivity.
Qed.

Lemma split_sep_pieces c s :
  Forall (fun l => forallb (fun x => negb (x =? c)%N) l = true)
         (split_sep c s).
Proof.
  induction s as [|x s IH]; simpl.
  - constructor; [reflexivity | constructor].
  - destruct (N.eqb_spec x c) as [->|Hx].
    + constructor; [reflexivity | exact IH].
    + destruct (split_sep c s) as [|w ws]; [constructor; [|constructor]|].
      * simpl. destruct (N.eqb_spec x c); [contradiction | reflexivity].
      * inversion IH as [|? ? Hw Hws]; subst. constructor; [|exact Hws].
        simpl. rewrite Hw. destruct (N.eqb_spec x c);
          [contradiction | reflexivity].
Qed.

Lemma firstn_In {A} (x : A) n l : In x (firstn n l) -> In x l.
Proof.
  revert l; induction n as [|n IH]; intros [|y l] H; simpl in *;
    try contradiction.
  destruct H as [->|H]; [left; reflexivity | right; apply IH, H].
Qed.

Lemma topico_loop_cases {U : UnicodeDB} lines dflt :
  topico_loop lines dflt = dflt \/
  (In (topico_loop lines dflt) lines /\
   Spec.qualifies (topico_loop lines dflt) = true).
Proof.
  induction lines as [|l lines IH]; simpl; [left; reflexivity|].
  destruct (isupper l && (5 <? len l)%Z) eqn:E.
  - right. split; [left; reflexivity | exact E].
  - destruct IH as [IH|[IH1 IH2]]; [left; exact IH|].
    right. split; [right; exact IH1 | exact IH2].
Qed.

(** X21.  The heading of a page is never empty and never has a newline
    in it: it is "GERAL", or a line of at least 6 characters that
    [isupper()] accepts. *)
Theorem topico_is_a_proper_label :
  forall (U : UnicodeDB) (text : str),
    forallb (fun c => negb (c =? 10)%N) (topico text) = true /\
    5 <= length (topico text) /\
    (topico text = py "GERAL" \/
     (isupper (topico text) = true /\ 6 <= length (topico text))).
Proof.
  intros U text. unfold topico.
  destruct (topico_loop_cases (firstn 5 (split_sep 10 text)) (py "GERAL"))
    as [E|[Hin Hq]].
  - rewrite E. split; [reflexivity|]. split; [simpl; lia | left; reflexivity].
  - set (l := topico_loop (firstn 5 (split_sep 10 text)) (py "GERAL")) in *.
    unfold Spec.qualifies in Hq. apply andb_true_iff in Hq as [Hu Hl].
    apply Z.ltb_lt in Hl. unfold len in Hl.
    split; [|split; [lia | right; split; [exact Hu | lia]]].
    pose proof (split_sep_pieces 10 text) as F.
    rewrite Forall_forall in F. apply F.
    apply (firstn_In _ 5). exact Hin.
Qed.

(* ================================================================== *)
(** * The snippet shows the term *)
(* ================================================================== *)

Lemma starts_with_app t s :
  starts_with t s = true -> exists r, s = t ++ r.
Proof.
  revert s; induction t as [|a t IH]; intros s H.
  - exists s. reflexivity.
  - destruct s as [|b s]; [discriminate|]. simpl in H.
    apply andb_true_iff in H as [E H]. apply N.eqb_eq in E. subst b.
    destruct (IH s H) as [r ->]. exists r. reflexivity.
Qed.

Lemma starts_with_refl t r : starts_with t (t ++ r) = true.
Proof.
  induction t as [|a t IH]; [reflexivity|]. simpl.
  rewrite N.eqb_refl. exact IH.
Qed.

Lemma contains_middle pre t post : contains t (pre ++ t ++ post) = true.
Proof.
  induction pre as [|c pre IH].
  - simpl app. destruct (t ++ post) eqn:E; simpl;
      rewrite <- E, starts_with_refl; reflexivity.
  - change (contains t ((c :: pre) ++ t ++ post))
      with (starts_with t (c :: pre ++ t ++ post) ||
            contains t (pre ++ t ++ post)).
    rewrite IH. apply orb_true_r.
Qed.

Lemma slice_nat (s : str) (a b : nat) :
  a <= length s -> b <= length s ->
  slice s (Z.of_nat a) (Z.of_nat b) = firstn (b - a) (skipn a s).
Proof.
  intros Ha Hb. unfold slice, slice_index, len.
  destruct (Z.ltb_spec (Z.of_nat a) 0); [lia|].
  destruct (Z.ltb_spec (Z.of_nat b) 0); [lia|].
  rewrite !Z.min_l by lia. rewrite Nat2Z.id.
  replace (Z.to_nat (Z.of_nat b - Z.of_nat a)) with (b - a) by lia.
  reflexivity.
Qed.

Section Window.
Context {U : UnicodeDB}.

Lemma adjacent_cons c r :
  adjacent_spaces (c :: r) =
  match r with [] => false | b :: _ => ISSPACE c && ISSPACE b end
  || adjacent_spaces r.
Proof. reflexivity. Qed.

Lemma adjacent_suffix x y :
  adjacent_spaces (x ++ y) = false -> adjacent_spaces y = false.
Proof.
  induction x as [|c x IH]; [auto|]. simpl app. rewrite adjacent_cons.
  intros H. apply orb_false_iff in H as [_ H]. apply IH, H.
Qed.

Lemma adjacent_prefix x y :
  adjacent_spaces (x ++ y) = false -> adjacent_spaces x = false.
Proof.
  induction x as [|c x IH]; [reflexivity|]. simpl app.
  rewrite !adjacent_cons. intros H.
  apply orb_false_iff in H as [H1 H2]. rewrite (IH H2), orb_false_r.
  destruct x as [|b x]; [reflexivity | exact H1].
Qed.

Lemma rstrip_snoc_space u c : ISSPACE c = true -> rstrip (u ++ [c]) = rstrip u.
Proof.
  intros Hc. unfold rstrip. rewrite rev_app_distr. simpl. rewrite Hc.
  reflexivity.
Qed.

Lemma lstrip_keeps pre t post :
  t <> [] -> adjacent_spaces (pre ++ t ++ post) = false ->
  pre <> [] \/ (exists c t', t = c :: t' /\ ISSPACE c = false) ->
  exists pre', lstrip (pre ++ t ++ post) = pre' ++ t ++ post /\
               adjacent_spaces (pre' ++ t ++ post) = false.
Proof.
  intros Ht Ha Hc. destruct pre as [|c pre].
  - destruct Hc as [Hc|(c & t' & -> & Hc)]; [contradiction|].
    exists []. split; [|exact Ha]. simpl. rewrite Hc. reflexivity.
  - destruct (ISSPACE c) eqn:Ec.
    + exists pre. simpl app in Ha. rewrite adjacent_cons in Ha.
      apply orb_false_iff in Ha as [H1 H2]. split; [|exact H2].
      simpl app. simpl lstrip. rewrite Ec.
      destruct (pre ++ t ++ post) as [|d r] eqn:E.
      * destruct pre; [destruct t; [contradiction|]|]; discriminate E.
      * rewrite Ec in H1. simpl in H1. simpl. rewrite H1. reflexivity.
    + exists (c :: pre). split; [|exact Ha]. simpl. rewrite Ec.
      reflexivity.
Qed.

Lemma rstrip_keeps pre t post :
  t <> [] -> adjacent_spaces (pre ++ t ++ post) = false ->
  post <> [] \/ (exists t' c, t = t' ++ [c] /\ ISSPACE c = false) ->
  exists post', rstrip (pre ++ t ++ post) = pre ++ t ++ post'.
Proof.
  intros Ht Ha Hc. destruct post as [|p0 ps].
  - destruct Hc as [Hc|(t' & c & -> & Hc)]; [contradiction|].
    exists []. rewrite app_nil_r, app_assoc. apply rstrip_snoc, Hc.
  - destruct (@exists_last _ (p0 :: ps)) as (post1 & c & E); [discriminate|].
    rewrite E in *. clear E p0 ps Hc.
    destruct (ISSPACE c) eqn:Ec.
    + exists post1.
      replace (pre ++ t ++ post1 ++ [c]) with ((pre ++ t ++ post1) ++ [c])
        in * by (rewrite <- !app_assoc; reflexivity).
      rewrite rstrip_snoc_space by exact Ec.
      destruct (@exists_last _ (pre ++ t ++ post1)) as (u & d & Eu).
      { destruct pre; [destruct t; [contradiction|]|]; discriminate. }
      rewrite Eu in *. apply rstrip_snoc.
      rewrite <- app_assoc in Ha. apply adjacent_suffix in Ha.
      simpl in Ha. rewrite Ec in Ha.
      destruct (ISSPACE d); [discriminate Ha | reflexivity].
    + exists (post1 ++ [c]).
      replace (pre ++ t ++ post1 ++ [c]) with ((pre ++ t ++ post1) ++ [c])
        by (rewrite <- !app_assoc; reflexivity).
      apply rstrip_snoc, Ec.
Qed.

(** A term that occurs at index [k] of a normalized text occurs in the
    stripped window around [k], if it has fewer than 200 characters. *)
Lemma window_shows_term (s t : str) (k : nat) :
  adjacent_spaces s = false -> lstrip s = s -> rstrip s = s ->
  occurs_at t s k = true -> length t < 200 ->
  contains t (strip (slice s (Z.max 0 (Z.of_nat k - 100))
                           (Z.min (len s) (Z.of_nat k + 200)))) = true.
Proof.
  intros Ha Hl Hr Ho Ht.
  destruct t as [|t0 ts] eqn:Et.
  { destruct (strip _); reflexivity. }
  rewrite <- Et in *. assert (Hne : t <> []) by (rewrite Et; discriminate).
  unfold occurs_at in Ho. destruct (starts_with_app _ _ Ho) as [s2 E2].
  assert (Hk : k <= length s).
  { destruct (Nat.le_gt_cases k (length s)) as [H|H]; [exact H|].
    rewrite skipn_all2 in E2 by lia. destruct t; [contradiction|].
    discriminate E2. }
  assert (Es : s = firstn k s ++ t ++ s2)
    by (rewrite <- E2; symmetry; apply firstn_skipn).
  set (s1 := firstn k s) in *.
  assert (L1 : length s1 = k) by (apply firstn_length_le, Hk).
  assert (Ls : length s = k + length t + length s2)
    by (rewrite Es at 1; rewrite !length_app; lia).
  replace (Z.max 0 (Z.of_nat k - 100)) with (Z.of_nat (k - 100)) by lia.
  replace (Z.min (len s) (Z.of_nat k + 200))
    with (Z.of_nat (Nat.min (length s) (k + 200))) by (unfold len; lia).
  rewrite slice_nat by lia.
  set (a := k - 100). set (b := Nat.min (length s) (k + 200)).
  set (pre := skipn a s1).
  set (post := firstn (b - k - length t) s2).
  assert (Ew : firstn (b - a) (skipn a s) = pre ++ t ++ post).
  { rewrite Es at 1. rewrite skipn_app.
    replace (a - length s1) with 0 by (unfold a; lia). simpl skipn.
    fold pre.
    assert (Lp : length pre = k - a)
      by (unfold pre; rewrite length_skipn; lia).
    assert (Lb : k + length t <= b) by (unfold b; lia).
    rewrite firstn_app.
    replace (firstn (b - a) pre) with pre
      by (symmetry; apply firstn_all2; lia).
    f_equal. rewrite firstn_app.
    replace (firstn (b - a - length pre) t) with t
      by (symmetry; apply firstn_all2; lia).
    f_equal. unfold post. f_equal. unfold a in *. lia. }
  rewrite Ew.
  assert (Aw : adjacent_spaces (pre ++ t ++ post) = false).
  { rewrite <- Ew. apply (adjacent_prefix _ (skipn (b - a) (skipn a s))).
    rewrite firstn_skipn. apply (adjacent_suffix (firstn a s)).
    rewrite firstn_skipn. exact Ha. }
  assert (C1 : pre <> [] \/ (exists c t', t = c :: t' /\ ISSPACE c = false)).
  { destruct (Nat.eq_dec k 0) as [K0|K0].
    - right. exists t0, ts. split; [exact Et|].
      assert (s1 = []) by (destruct s1; [reflexivity | simpl in L1; lia]).
      rewrite H, Et in Es. simpl in Es. rewrite Es in Hl. simpl in Hl.
      destruct (ISSPACE t0); [|reflexivity].
      apply (f_equal (@length N)) in Hl. simpl in Hl.
      pose proof (lstrip_length (ts ++ s2)). lia.
    - left. intros Hp. apply (f_equal (@length N)) in Hp.
      unfold pre in Hp. rewrite length_skipn in Hp. simpl in Hp.
      unfold a in Hp. lia. }
  assert (C2 : post <> [] \/
               (exists t' c, t = t' ++ [c] /\ ISSPACE c = false)).
  { destruct s2 as [|x s2'].
    - right. destruct (exists_last Hne) as (t' & c & Etc).
      exists t', c. split; [exact Etc|].
      rewrite Etc, app_nil_r, app_assoc in Es. rewrite Es in Hr.
      destruct (ISSPACE c) eqn:Ec; [|reflexivity].
      rewrite rstrip_snoc_space in Hr by exact Ec.
      apply (f_equal (@length N)) in Hr. rewrite length_app in Hr.
      unfold rstrip in Hr. rewrite length_rev in Hr.
      pose proof (lstrip_length (rev (s1 ++ t'))) as P.
      rewrite length_rev in P. simpl in Hr. lia.
    - left. intros Hp. apply (f_equal (@length N)) in Hp.
      unfold post in Hp. rewrite length_firstn in Hp. simpl in Hp.
      unfold b in Hp. simpl in Ls. lia. }
  destruct (@lstrip_keeps pre t post Hne Aw C1) as (pre' & El & Al).
  destruct (@rstrip_keeps pre' t post Hne Al C2) as (post' & Er).
  unfold strip. rewrite El, Er. apply contains_middle.
Qed.

End Window.

Lemma starts_with_app_l t a b :
  starts_with t a = true -> starts_with t (a ++ b) = true.
Proof.
  intros H. destruct (starts_with_app _ _ H) as [r ->].
  rewrite <- app_assoc. apply starts_with_refl.
Qed.

Lemma contains_app_l t a b :
  contains t a = true -> contains t (a ++ b) = true.
Proof.
  induction a as [|c a IH]; intros H.
  - simpl in H. rewrite orb_false_r in H.
    destruct t; [|discriminate H]. destruct b; reflexivity.
  - change (contains t ((c :: a) ++ b))
      with (starts_with t ((c :: a) ++ b) || contains t (a ++ b)).
    change (contains t (c :: a))
      with (starts_with t (c :: a) || contains t a) in H.
    apply orb_true_iff in H as [H|H].
    + rewrite (starts_with_app_l _ _ b H). reflexivity.
    + rewrite (IH H). apply orb_true_r.
Qed.

Lemma latin1_space_lower c :
  latin1_isspace (latin1_tolower c) = latin1_isspace c.
Proof.
  unfold latin1_tolower. destruct (latin1_isupper c) eqn:E; [|reflexivity].
  unfold latin1_isupper, between in E.
  rewrite !orb_true_iff, !andb_true_iff, !N.leb_le in E.
  assert (A : latin1_isspace c = false).
  { unfold latin1_isspace, between.
    rewrite !orb_false_iff, !andb_false_iff, !N.leb_gt, !N.eqb_neq. lia. }
  assert (B : latin1_isspace (c + 32) = false).
  { unfold latin1_isspace, between.
    rewrite !orb_false_iff, !andb_false_iff, !N.leb_gt, !N.eqb_neq. lia. }
  rewrite A, B. reflexivity.
Qed.

Section Latin1Lower.

Lemma lstrip_lower s :
  @lstrip Latin1 (map latin1_tolower s) =
  map latin1_tolower (@lstrip Latin1 s).
Proof.
  induction s as [|c s IH]; [reflexivity|]. simpl.
  rewrite latin1_space_lower. destruct (latin1_isspace c);
    [exact IH | reflexivity].
Qed.

Lemma rstrip_lower s :
  @rstrip Latin1 (map latin1_tolower s) =
  map latin1_tolower (@rstrip Latin1 s).
Proof.
  unfold rstrip. rewrite <- map_rev, lstrip_lower, map_rev. reflexivity.
Qed.

Lemma strip_lower s :
  @strip Latin1 (map latin1_tolower s) =
  map latin1_tolower (@strip Latin1 s).
Proof. unfold strip. rewrite lstrip_lower, rstrip_lower. reflexivity. Qed.

Lemma adjacent_lower s :
  @adjacent_spaces Latin1 (map latin1_tolower s) =
  @adjacent_spaces Latin1 s.
Proof.
  induction s as [|c s IH]; [reflexivity|].
  change (map latin1_tolower (c :: s)) with (latin1_tolower c :: map latin1_tolower s).
  rewrite !adjacent_cons, IH. destruct s as [|b s]; [reflexivity|].
  simpl. rewrite !latin1_space_lower. reflexivity.
Qed.

Lemma slice_lower s a b :
  slice (map latin1_tolower s) a b = map latin1_tolower (slice s a b).
Proof.
  unfold slice, len. rewrite length_map, skipn_map, firstn_map.
  reflexivity.
Qed.

Lemma clean_text_edges (x : option str) :
  @lstrip Latin1 (@clean_text Latin1 x) = @clean_text Latin1 x /\
  @rstrip Latin1 (@clean_text Latin1 x) = @clean_text Latin1 x /\
  @adjacent_spaces Latin1 (@clean_text Latin1 x) = false.
Proof.
  destruct (@clean_text_words Latin1 x) as (ws & Hw & -> & _).
  destruct (@join_words_shape Latin1 ws Hw) as (H1 & _ & _).
  split; [|split; [|exact H1]].
  - destruct ws as [|w ws]; [reflexivity|].
    destruct (@join_words_head Latin1 (w :: ws) Hw) as (c & r & E & Hc);
      [discriminate|].
    rewrite E. simpl. simpl in Hc. rewrite Hc. reflexivity.
  - destruct ws as [|w ws]; [reflexivity|].
    destruct (@join_words_last Latin1 (w :: ws) Hw) as (z & c & E & Hc);
      [discriminate|].
    rewrite E. apply (@rstrip_snoc Latin1), Hc.
Qed.

(** The stripped window of a match, lower-cased, contains the term. *)
Lemma snippet_shows_term (text : option str) (t : str) :
  let tc := @clean_text Latin1 text in
  let tl := @lower Latin1 tc in
  contains t tl = true -> length t < 200 ->
  contains t (@lower Latin1 (@strip Latin1 (snippet_of tc tl t)))
  = true.
Proof.
  intros tc tl Hc Ht.
  destruct (find_from_first t tl Hc 0) as (k & Ek & Ho & _).
  simpl Z.add in Ek.
  destruct (clean_text_edges text) as (El & Er & Ea). fold tc in El, Er, Ea.
  unfold snippet_of. change (find t tl) with (find_from t tl 0). rewrite Ek.
  change (@lower Latin1) with (map latin1_tolower) in *.
  rewrite <- strip_lower, <- slice_lower.
  replace (len tc) with (len (map latin1_tolower tc)) by (unfold len; rewrite length_map;
                                           reflexivity).
  apply (@window_shows_term Latin1).
  - rewrite adjacent_lower. exact Ea.
  - rewrite lstrip_lower, El. reflexivity.
  - rewrite rstrip_lower, Er. reflexivity.
  - exact Ho.
  - exact Ht.
Qed.

End Latin1Lower.

(** Whatever holds of the match made for any page, category and first
    term holds of all the matches of a document. *)
Lemma doc_hits_Forall {U : UnicodeDB} (P : hit -> Prop) kw :
  (forall i text c t,
     In c kw -> falsy text = false ->
     first_term (lower (clean_text text)) (termos (snd c)) = Some t ->
     P (mkHit i (topico match text with Some x => x | None => [] end)
              (fst c) (snd c) t
              (snippet_of (clean_text text) (lower (clean_text text)) t))) ->
  forall pages i, Forall P (doc_hits kw i pages).
Proof.
  intros H. induction pages as [|text pages IH]; intros i; simpl;
    [constructor|].
  apply Forall_app. split; [|apply IH].
  unfold page_hits. destruct (falsy text) eqn:Ef; [constructor|]. cbv zeta.
  assert (G : forall sub, incl sub kw ->
            Forall P
              (flat_map
                 (categoria_hits i
                    (topico match text with Some t => t | None => [] end)
                    (clean_text text) (lower (clean_text text))) sub)).
  { induction sub as [|c sub IHs]; intros Hs; simpl; [constructor|].
    apply Forall_app. split.
    - unfold categoria_hits.
      destruct (first_term _ (termos (snd c))) as [t|] eqn:E;
        constructor; [|constructor].
      apply H; [apply Hs; left; reflexivity | exact Ef | exact E].
    - apply IHs. intros x Hx. apply Hs. right; exact Hx. }
  apply G, incl_refl.
Qed.

(** X22.  With the case tables of Latin-1 and a catalog whose terms
    have fewer than 200 characters, the snippet of every finding shows
    the term that was found: the term occurs in the snippet once the
    snippet is lower-cased.  Cutting the window, stripping it and adding
    the suffix never lose the match.  This holds for [bot.py] and for
    [bot1.py]. *)
Theorem snippet_shows_the_term_found :
  forall (self : DOEProcessor) (pdf_path : str)
         (pages : list (option str)) (w : world),
    Forall (fun c => Forall (fun t => length t < 200) (termos (snd c)))
           (keywords self) ->
    Forall (fun d => contains (field_str "termo_encontrado" d)
                       (@lower Latin1 (field_str "resumo_snippet" d)) = true)
           (fst (findings (@Bot.analyze_pdf Latin1 self pdf_path pages w)) ++
            fst (findings (@Bot1.analyze_pdf Latin1 self pdf_path pages w))).
Proof.
  intros self pdf_path pages w Hshort.
  assert (Q : Forall (fun h => contains (hit_termo h)
                       (@lower Latin1 (@strip Latin1 (hit_window h))) = true)
                     (@doc_hits Latin1 (keywords self) 0 pages)).
  { apply (@doc_hits_Forall Latin1). intros i text c t Hc Hf Ht. simpl.
    apply (snippet_shows_term text t).
    - apply (first_term_contains _ _ Ht).
    - rewrite Forall_forall in Hshort. specialize (Hshort c Hc).
      rewrite Forall_forall in Hshort. apply Hshort.
      apply (first_term_In _ _ Ht). }
  rewrite (@bot_findings Latin1), (@bot1_findings Latin1).
  cbv zeta. cbn [fst].
  apply Forall_app. split;
    (eapply allocate_Forall; [|exact Q]); intros h d Hh;
    (change (contains (hit_termo h)
               (@lower Latin1 (@strip Latin1 (hit_window h) ++ py "..."))
             = true));
    simpl lower; rewrite map_app; apply contains_app_l; exact Hh.
Qed.

Lemma snippet_shows_the_term_found_witness :
  Forall (fun c => Forall (fun t => length t < 200) (termos (snd c)))
         (keywords (Bot1.init Sample.cwd)) /\
  Forall (fun d => contains (field_str "termo_encontrado" d)
                     (@lower Latin1 (field_str "resumo_snippet" d)) = true)
         (fst (findings (@Bot.analyze_pdf Latin1 (Bot1.init Sample.cwd)
                            Sample.pdf_path [Some Sample.long_page]
                            Sample.w0)) ++
          fst (findings (@Bot1.analyze_pdf Latin1 (Bot1.init Sample.cwd)
                            Sample.pdf_path [Some Sample.long_page]
                            Sample.w0))).
Proof.
  assert (H : Forall (fun c => Forall (fun t => length t < 200)
                                      (termos (snd c)))
                     (keywords (Bot1.init Sample.cwd)))
    by (repeat constructor; simpl; lia).
  split; [exact H|].
  exact (@snippet_shows_the_term_found (Bot1.init Sample.cwd)
           Sample.pdf_path [Some Sample.long_page] Sample.w0 H).
Defined.
